(** * HumanEval coverage harness: a shallow embedding

    The development follows the Python sources of the repository:
    - [run_humaneval_openai.py] and [humaneval_coverage_summary.py]
      (assertion rewriting, instrumented execution, batch runners),
    - [generate_summary.py] (the second summary implementation),
    - [convergence.py] (coverage XML reader, prior-test collection).

    Python integers are [Z]; Python floats are IEEE binary64 primitive
    floats; text is [string], one character per Python character;
    dictionaries read by key are [gmap string _]; dictionaries whose
    insertion order matters are association lists. *)

From Stdlib Require Import ZArith String Ascii List PrimFloat FloatOps SpecFloat Uint63.
From Stdlib Require Import DecimalString Decimal.
From stdpp Require Import gmap strings list sorting.

Set Warnings "-register-all".

Open Scope string_scope.
Open Scope list_scope.
Open Scope Z_scope.

(** ** Python builtins on integers and text *)

(** [str(n)] for an integer [n]: decimal digits, a leading minus sign
    for negative numbers. *)
Definition py_str_int (z : Z) : string := NilZero.string_of_int (Z.to_int z).

(** [sep.join(parts)]. *)
Definition py_join (sep : string) (parts : list string) : string :=
  String.concat sep parts.

(** The newline character. *)
Definition nl : string := String (ascii_of_nat 10) "".

(** [len(s)]. *)
Definition len (s : string) : Z := Z.of_nat (String.length s).

(** [s.endswith(suffix)]. *)
Definition endswith (s suffix : string) : bool :=
  (String.length suffix <=? String.length s)%nat
  && String.eqb
       (substring (String.length s - String.length suffix) (String.length suffix) s)
       suffix.

(** [s.replace(old, new)] for single characters. *)
Fixpoint replace_char (old new : ascii) (s : string) : string :=
  match s with
  | EmptyString => EmptyString
  | String c s' =>
      String (if Ascii.eqb c old then new else c) (replace_char old new s')
  end.

(** [c.isspace()] for a character below 256: tab to carriage return,
    the four separators 28 to 31, the space, the next-line character
    and the no-break space. *)
Definition isspace (c : ascii) : bool :=
  let n := nat_of_ascii c in
  ((9 <=? n) && (n <=? 13) || (28 <=? n) && (n <=? 32) || (n =? 133) || (n =? 160))%nat.

(** [s.lstrip()], [s.rstrip()] and [s.strip()]. *)
Fixpoint lstrip (s : string) : string :=
  match s with
  | EmptyString => EmptyString
  | String c s' => if isspace c then lstrip s' else s
  end.

Fixpoint rstrip (s : string) : string :=
  match s with
  | EmptyString => EmptyString
  | String c s' =>
      match rstrip s' with
      | EmptyString => if isspace c then EmptyString else String c EmptyString
      | r => String c r
      end
  end.

Definition strip (s : string) : string := lstrip (rstrip s).

(** [s.startswith(prefix)]. *)
Definition startswith (s prefix : string) : bool := String.prefix prefix s.

(** [c.lower()] for an ASCII letter, any other character as it is. *)
Definition lower_char (c : ascii) : ascii :=
  let n := nat_of_ascii c in
  if ((65 <=? n) && (n <=? 90))%nat then ascii_of_nat (n + 32) else c.

Fixpoint lower_ascii (s : string) : string :=
  match s with
  | EmptyString => EmptyString
  | String c s' => String (lower_char c) (lower_ascii s')
  end.

(** [needle in s]. *)
Fixpoint contains (s needle : string) : bool :=
  String.prefix needle s
  || match s with
     | EmptyString => false
     | String _ s' => contains s' needle
     end.

(** [s.split(sep)] for a separator of one character: the parts
    between the separators, at least one part. *)
Fixpoint split_char (sep : ascii) (s : string) : list string :=
  match s with
  | EmptyString => [EmptyString]
  | String c s' =>
      if Ascii.eqb c sep then EmptyString :: split_char sep s'
      else
        match split_char sep s' with
        | part :: parts => String c part :: parts
        | [] => [String c EmptyString]
        end
  end.

(** [s.rfind(c)] for a character [c]; [None] stands for -1. *)
Fixpoint rfind (c : ascii) (s : string) : option nat :=
  match s with
  | EmptyString => None
  | String d s' =>
      match rfind c s' with
      | Some i => Some (S i)
      | None => if Ascii.eqb d c then Some O else None
      end
  end.

(** [PurePath(name).stem] for a file name: the name without its last
    suffix, the dot of which is neither the first nor the last
    character of the name. *)
Definition stem (name : string) : string :=
  match rfind "." name with
  | Some i =>
      if (0 <? i)%nat && (i <? String.length name - 1)%nat
      then substring 0 i name else name
  | None => name
  end.

(** The characters below 256 at which [str.splitlines] ends a line:
    line feed to carriage return, the separators 28 to 30 and the
    next-line character. *)
Definition is_linebreak (c : ascii) : bool :=
  let n := nat_of_ascii c in
  ((10 <=? n) && (n <=? 13) || (28 <=? n) && (n <=? 30) || (n =? 133))%nat.

(** [s.splitlines()]: the lines without their ends; a carriage return
    followed by a line feed ends one line. *)
Fixpoint splitlines (s : string) : list string :=
  match s with
  | EmptyString => []
  | String c s' =>
      if is_linebreak c then
        EmptyString ::
          match s' with
          | String d s'' =>
              if (nat_of_ascii c =? 13)%nat && (nat_of_ascii d =? 10)%nat
              then splitlines s'' else splitlines s'
          | EmptyString => []
          end
      else
        match splitlines s' with
        | line :: lines => String c line :: lines
        | [] => [String c EmptyString]
        end
  end.

(** ** Missing-line compression
    ([humaneval_coverage_summary.py] lines 223-251,
     [generate_summary.py] lines 101-119; the two bodies are the same
     statement for statement). *)

Module Compress.

(** The text appended to [ranges] when a run [start..prev] is closed. *)
Definition render_range (start prev : Z) : string :=
  if start =? prev then py_str_int start
  else py_str_int start +:+ "-" +:+ py_str_int prev.

(** The [for ln in lines[1:]] loop with its three variables, followed by
    the append after the loop. *)
Fixpoint compress_loop (rest : list Z) (start prev : Z) (ranges : list string)
  : list string :=
  match rest with
  | [] => ranges ++ [render_range start prev]
  | ln :: rest' =>
      if ln =? prev + 1 then compress_loop rest' start ln ranges
      else compress_loop rest' ln ln (ranges ++ [render_range start prev])
  end.

Definition compress_line_ranges (lines : list Z) : string :=
  match lines with
  | [] => ""
  | l0 :: rest => py_join ", " (compress_loop rest l0 l0 [])
  end.

(** The description in words: split the list into maximal runs of
    consecutive numbers, render each run, join with a comma and a space. *)
Fixpoint runs (l : list Z) : list (Z * Z) :=
  match l with
  | [] => []
  | a :: l' =>
      match runs l' with
      | (c, d) :: rs => if c =? a + 1 then (a, d) :: rs else (a, a) :: (c, d) :: rs
      | [] => [(a, a)]
      end
  end.

(** Putting a closed run in front of the runs of the rest. *)
Definition merge_run (r : Z * Z) (rs : list (Z * Z)) : list (Z * Z) :=
  match rs with
  | (c, d) :: rs' => if c =? snd r + 1 then (fst r, d) :: rs' else r :: (c, d) :: rs'
  | [] => [r]
  end.

Definition render_run (r : Z * Z) : string :=
  if fst r =? snd r then py_str_int (fst r)
  else py_str_int (fst r) +:+ "-" +:+ py_str_int (snd r).

Definition compress_spec (l : list Z) : string :=
  py_join ", " (map render_run (runs l)).

(** The numbers a run [a..b] stands for. *)
Definition expand (r : Z * Z) : list Z := seqZ (fst r) (snd r - fst r + 1).

(** Between two neighbouring runs at least one number is absent. *)
Fixpoint separated (rs : list (Z * Z)) : Prop :=
  match rs with
  | r1 :: ((r2 :: _) as tl) => snd r1 + 1 < fst r2 /\ separated tl
  | _ => True
  end.

(** No two neighbouring runs could be merged into one. *)
Fixpoint maximal (rs : list (Z * Z)) : Prop :=
  match rs with
  | r1 :: ((r2 :: _) as tl) => fst r2 <> snd r1 + 1 /\ maximal tl
  | _ => True
  end.

End Compress.


(** ** Outcomes of Python code

    [Ok a] is a normal return, [Raise e] an exception that leaves the
    function, and [Unmodelled] marks an input on which Python does
    something this development does not describe (it is never used to
    stand for an exception).  [OutOfFuel] is produced only by the
    interpreter of test code, when the step budget it was given is
    used up. *)

Inductive outcome (E A : Type) : Type :=
| Ok (a : A)
| Raise (e : E)
| Unmodelled
| OutOfFuel.
Arguments Ok {E A} a.
Arguments Raise {E A} e.
Arguments Unmodelled {E A}.
Arguments OutOfFuel {E A}.

Definition obind {E A B} (m : outcome E A) (k : A -> outcome E B) : outcome E B :=
  match m with
  | Ok a => k a
  | Raise e => Raise e
  | Unmodelled => Unmodelled
  | OutOfFuel => OutOfFuel
  end.

Notation "x <- m ;; k" := (obind m (fun x => k))
  (at level 100, m at next level, right associativity).

(** ** JSON values as [json.load] returns them *)

Inductive json : Type :=
| JNull
| JBool (b : bool)
| JInt (z : Z)
| JFloat (f : float)
| JStr (s : string)
| JList (l : list json)
| JObj (kvs : list (string * json)).

(** A Python [dict] with text keys, in insertion order. *)
Abbreviation dict := (list (string * json)).

Module Py.

(** [d.get(k, default)] on a dict. *)
Fixpoint dict_get (d : dict) (k : string) (default : json) : json :=
  match d with
  | [] => default
  | (k', v) :: d' => if String.eqb k' k then v else dict_get d' k default
  end.

(** [v.get(k, default)] on an arbitrary value: only a dict has [get]. *)
Definition get (v : json) (k : string) (default : json) : outcome string json :=
  match v with
  | JObj kvs => Ok (dict_get kvs k default)
  | _ => Raise "AttributeError"
  end.

(** [int(f)] for a float: truncation towards zero. *)
Definition int_of_float (f : float) : outcome string Z :=
  match Prim2SF f with
  | S754_zero _ => Ok 0
  | S754_infinity _ => Raise "OverflowError"
  | S754_nan => Raise "ValueError"
  | S754_finite s m e =>
      let a := if 0 <=? e then Z.pos m * 2 ^ e else Z.pos m / 2 ^ (- e) in
      Ok (if s then - a else a)
  end.

(** [int(v)]. Parsing the text of a [str] is not modelled. *)
Definition int (v : json) : outcome string Z :=
  match v with
  | JInt z => Ok z
  | JBool b => Ok (Z.b2z b)
  | JFloat f => int_of_float f
  | JStr _ => Unmodelled
  | JNull | JList _ | JObj _ => Raise "TypeError"
  end.

(** [bool(v)]. *)
Definition truthy (v : json) : bool :=
  match v with
  | JNull => false
  | JBool b => b
  | JInt z => negb (z =? 0)
  | JFloat f => negb (PrimFloat.eqb f 0)
  | JStr s => negb (String.eqb s "")
  | JList l => match l with [] => false | _ => true end
  | JObj kvs => match kvs with [] => false | _ => true end
  end.

(** [len(v)]. *)
Definition len (v : json) : outcome string Z :=
  match v with
  | JList l => Ok (Z.of_nat (length l))
  | JObj kvs => Ok (Z.of_nat (length kvs))
  | JStr s => Ok (Z.of_nat (String.length s))
  | JNull | JBool _ | JInt _ | JFloat _ => Raise "TypeError"
  end.

Fixpoint all_ints (l : list json) : option (list Z) :=
  match l with
  | [] => Some []
  | JInt z :: l' => match all_ints l' with Some zs => Some (z :: zs) | None => None end
  | _ => None
  end.

(** [sorted(v)], modelled for lists of integers; a value that is not
    iterable raises. *)
Definition sorted (v : json) : outcome string (list Z) :=
  match v with
  | JList l =>
      match all_ints l with
      | Some zs => Ok (merge_sort Z.le zs)
      | None => Unmodelled
      end
  | JNull | JBool _ | JInt _ | JFloat _ => Raise "TypeError"
  | JStr _ | JObj _ => Unmodelled
  end.

(** An integer as a float, for integers that binary64 holds exactly. *)
Definition float_of_int (z : Z) : outcome string float :=
  if Z.abs z <=? 2 ^ 53 then
    Ok (if 0 <=? z then PrimFloat.of_uint63 (Uint63.of_Z z)
        else PrimFloat.opp (PrimFloat.of_uint63 (Uint63.of_Z (- z))))
  else Unmodelled.

(** [a / b] on integers: the correctly rounded quotient. *)
Definition truediv (a b : Z) : outcome string float :=
  if b =? 0 then Raise "ZeroDivisionError"
  else x <- float_of_int a ;; y <- float_of_int b ;; Ok (PrimFloat.div x y).

End Py.

(** The tuple [(stmts, miss, branch, brpart, line_percent, branch_percent,
    missing_lines)] both summaries return. *)
Abbreviation cov_tuple := (Z * Z * Z * Z * float * float * list Z)%type.



(** ** [convergence.py] *)

Module convergence.

Definition PROBLEM_ID : Z := 106.
Definition ITERATIONS : Z := 3.
Definition PRIOR_TESTS_CHAR_BUDGET : Z := 6000.

(** *** Coverage XML reader (lines 165-194) *)

(** What [parse_coverage_xml] finds at [xml_path]: nothing, an empty
    file, bytes that are not XML, or a document whose root element has
    the attributes [attrib]. *)
Inductive xml_file : Type :=
| Absent
| ZeroSize
| Malformed
| Document (attrib : gmap string string).

Section reader.

(** Python's [float(text)]; [None] when it raises [ValueError]. *)
Variable float_of_str : string -> option float.

(** The inner function [to_pct]. *)
Definition to_pct (attrib : gmap string string) (attr_name : string) : option float :=
  match attrib !! attr_name with
  | None => None
  | Some val =>
      match float_of_str val with
      | Some x => Some (x * 100)%float
      | None => None
      end
  end.

(** One fallback block: both counts are read with default "0" and
    converted; the percentage is set only for a positive denominator;
    a conversion error leaves it unset. *)
Definition from_counts (attrib : gmap string string) (valid_key covered_key : string)
  : option float :=
  match float_of_str (default "0" (attrib !! valid_key)) with
  | None => None
  | Some valid =>
      match float_of_str (default "0" (attrib !! covered_key)) with
      | None => None
      | Some covered =>
          if PrimFloat.ltb 0 valid then Some (100 * (covered / valid))%float
          else None
      end
  end.

Definition parse_coverage_xml (xml_path : xml_file)
  : outcome string (option float * option float) :=
  match xml_path with
  | Absent | ZeroSize => Ok (None, None)
  | Malformed => Raise "ParseError"
  | Document attrib =>
      let line_pct := to_pct attrib "line-rate" in
      let branch_pct := to_pct attrib "branch-rate" in
      let line_pct :=
        match line_pct with
        | None => from_counts attrib "lines-valid" "lines-covered"
        | Some _ => line_pct
        end in
      let branch_pct :=
        match branch_pct with
        | None => from_counts attrib "branches-valid" "branches-covered"
        | Some _ => branch_pct
        end in
      Ok (line_pct, branch_pct)
  end.

End reader.

(** *** The answer of the model (lines 104-108) *)

(** What the pattern [^```(?:python)?\s*([\s\S]*?)\s*```$], matched
    without regard to case, captures in a text that has no white space
    at its ends: the text must open and close with three backticks
    that do not overlap; the word "python" after the opening backticks
    is dropped, then the white space on both sides. *)
Definition fence_group (content : string) : option string :=
  if (6 <=? String.length content)%nat
     && startswith content "```" && endswith content "```"
  then
    let inner := substring 3 (String.length content - 6) content in
    let inner :=
      if String.eqb (lower_ascii (substring 0 6 inner)) "python"
      then substring 6 (String.length inner - 6) inner
      else inner in
    Some (rstrip (lstrip inner))
  else None.

(** The text [call_chatgpt] returns for the message content [content]
    of the answer ([None] when the answer has no content). *)
Definition answer_text (content : option string) : string :=
  let content := strip (match content with Some c => c | None => "" end) in
  match fence_group content with
  | Some group => strip group
  | None => content
  end.

(** *** Prior-test collection (lines 203-223) *)

(** The format [{n:02d}]: at least two characters, padded with a zero. *)
Definition fmt_02d (n : Z) : string :=
  let s := py_str_int n in
  if (String.length s <? 2)%nat then "0" +:+ s else s.

(** The file name [write_test_file] gives to round [iter_idx]. *)
Definition test_file_name (iter_idx : Z) : string :=
  "test_humaneval_" +:+ py_str_int PROBLEM_ID +:+ "_llm_iter_"
  +:+ fmt_02d iter_idx +:+ ".py".

(** [write_test_file] (lines 121-125): the name and the text of the
    file it writes. *)
Definition write_test_file (iter_idx : Z) (preamble llm_tests : string)
  : string * string :=
  ("test_humaneval_" +:+ py_str_int PROBLEM_ID +:+ "_llm_iter_"
   +:+ fmt_02d iter_idx +:+ ".py",
   rstrip preamble +:+ nl +:+ nl +:+ strip llm_tests +:+ nl).

(** The name of the coverage report of a round (line 271). *)
Definition coverage_file_name (i : Z) : string :=
  "coverage_iter_" +:+ fmt_02d i +:+ ".xml".

(** *** The hint for the next round (lines 298-305) *)

Definition SOLUTION_FILE : string :=
  "humaneval_" +:+ py_str_int PROBLEM_ID +:+ "_openai_attempt_001_base.py".

(** The lines of the report [rep] that the loop selects. *)
Definition missing_lines (rep : string) : list string :=
  List.filter (fun line => contains line SOLUTION_FILE && contains rep "Missing")
    (splitlines rep).

(** The value of [prior_hint] after the report [rep] of a round. *)
Definition coverage_hint (rep : string) : string :=
  match missing_lines rep with
  | [] => "None"
  | lines =>
      let snippet := py_join nl (firstn 10 lines) in
      "From previous coverage report, Missing lines (subset):" +:+ nl +:+ snippet
  end.

(** The text built for one file: a header comment, then the file. *)
Definition with_header (f : string * string) : string :=
  "# " +:+ fst f +:+ nl +:+ snd f.

(** The slice [t[:remaining]] followed by the marker. *)
Definition truncated (t : string) (remaining : Z) : string :=
  substring 0 (Z.to_nat remaining) t +:+ nl +:+ "# ... (truncated)" +:+ nl.

(** The [for f in files] loop; [files] is the sorted directory listing,
    each file with its name and its text. *)
Fixpoint collect_loop (current_suffix : string) (files : list (string * string))
    (texts : list string) (total : Z) : list string :=
  match files with
  | [] => texts
  | f :: files' =>
      if endswith (fst f) current_suffix
      then collect_loop current_suffix files' texts total
      else
        let t := with_header f in
        if PRIOR_TESTS_CHAR_BUDGET <? total + len t then
          let remaining := PRIOR_TESTS_CHAR_BUDGET - total in
          if 200 <? remaining then texts ++ [truncated t remaining]
          else texts
        else collect_loop current_suffix files' (texts ++ [t]) (total + len t)
  end.

Definition collect_prior_tests_text (current_iter_idx : Z)
    (files : list (string * string)) : string :=
  let texts := collect_loop (fmt_02d current_iter_idx +:+ ".py") files [] 0 in
  match texts with
  | [] => "None"
  | _ => py_join (nl +:+ nl) texts
  end.

(** *** The collection in words *)

(** The whole texts kept: the longest prefix whose lengths add up to at
    most [budget]; returned with the texts that follow it. *)
Fixpoint whole_prefix (budget : Z) (ts : list string) : list string * list string :=
  match ts with
  | [] => ([], [])
  | t :: ts' =>
      if len t <=? budget then
        let '(kept, rest) := whole_prefix (budget - len t) ts' in (t :: kept, rest)
      else ([], ts)
  end.

(** Cumulative character count of some texts. *)
Definition total_len (ts : list string) : Z :=
  fold_right (fun t acc => len t + acc) 0 ts.

(** The texts shown under a budget: the whole texts that fit, then the
    first text that does not fit, cut to the remaining budget and
    marked, when more than 200 characters remain. *)
Definition prior_texts_spec (budget : Z) (ts : list string) : list string :=
  let '(kept, rest) := whole_prefix budget ts in
  let remaining := budget - total_len kept in
  let partial :=
    match rest with
    | [] => []
    | t :: _ => if 200 <? remaining then [truncated t remaining] else []
    end in
  kept ++ partial.

Definition prior_tests_spec (ts : list string) : string :=
  match prior_texts_spec PRIOR_TESTS_CHAR_BUDGET ts with
  | [] => "None"
  | texts => py_join (nl +:+ nl) texts
  end.

(** The directory of a run that has completed the rounds before round
    [i]: one file per earlier round, [bodies] being their texts in round
    order. *)
Definition earlier_files (bodies : list string) : list (string * string) :=
  imap (fun j body => (test_file_name (Z.of_nat j + 1), body)) bodies.

End convergence.

(** ** The fragment of Python's syntax trees ([ast]) *)

Module Ast.

(** The values an [ast.Constant] node carries. *)
Inductive constant : Type :=
| CNone
| CBool (b : bool)
| CInt (z : Z)
| CStr (s : string).

Inductive cmpop : Type := Eq | NotEq.

Inductive expr : Type :=
| Constant (value : constant)
| Name (id : string)
| Call (func : expr) (args : list expr)
| Compare (left : expr) (op : cmpop) (right : expr)
| Not (operand : expr)
| List (elts : list expr).

(** Statements.  [Assert] carries the [lineno] attribute of its node;
    [args] of a [FunctionDef] are the names of its positional
    parameters ([node.args.args]). *)
Inductive stmt : Type :=
| Assert (test : expr) (msg : option expr) (lineno : Z)
| Expr (value : expr)
| Assign (target : string) (value : expr)
| Return (value : option expr)
| Pass
| If (test : expr) (body orelse : list stmt)
| For (target : string) (iter : expr) (body orelse : list stmt)
| While (test : expr) (body orelse : list stmt)
| FunctionDef (name : string) (args : list string) (body : list stmt).

(** What [ast.parse(test_code, mode="exec")] gives: an exception (a
    [SyntaxError] or another instance of [Exception]) or the body of a
    module.  The names in a body are identifiers as the parser yields
    them. *)
Inductive parsed : Type :=
| ParseError (type_name text : string)
| Module (body : list stmt).

(** Number of [assert] statements at any depth of a statement. *)
Fixpoint count_asserts (s : stmt) : nat :=
  let block := fix block (ss : list stmt) : nat :=
    match ss with
    | [] => O
    | s :: ss' => (count_asserts s + block ss')%nat
    end in
  match s with
  | Assert _ _ _ => 1%nat
  | If _ body orelse | For _ _ body orelse | While _ body orelse =>
      (block body + block orelse)%nat
  | FunctionDef _ _ body => block body
  | _ => O
  end.

Fixpoint count_asserts_block (ss : list stmt) : nat :=
  match ss with
  | [] => O
  | s :: ss' => (count_asserts s + count_asserts_block ss')%nat
  end.

(** The [assert] statements at any depth, in source order. *)
Fixpoint asserts_of (s : stmt) : list (expr * option expr * Z) :=
  let block := fix block (ss : list stmt) :=
    match ss with
    | [] => []
    | s :: ss' => asserts_of s ++ block ss'
    end in
  match s with
  | Assert test msg lineno => [(test, msg, lineno)]
  | If _ body orelse | For _ _ body orelse | While _ body orelse =>
      block body ++ block orelse
  | FunctionDef _ _ body => block body
  | _ => []
  end.

Fixpoint asserts_of_block (ss : list stmt) : list (expr * option expr * Z) :=
  match ss with
  | [] => []
  | s :: ss' => asserts_of s ++ asserts_of_block ss'
  end.

(** The arguments of a statement that calls the recording hook with a
    test, a message and a constant line number. *)
Definition hook_call_args (s : stmt) : option (expr * expr * Z) :=
  match s with
  | Expr (Call (Name f) [test; msg; Constant (CInt lineno)]) =>
      if String.eqb f "__rec" then Some (test, msg, lineno) else None
  | _ => None
  end.

(** The statements that call the recording hook, at any depth, in
    source order. *)
Fixpoint hook_calls (s : stmt) : list (expr * expr * Z) :=
  let block := fix block (ss : list stmt) :=
    match ss with
    | [] => []
    | s :: ss' => hook_calls s ++ block ss'
    end in
  match s with
  | If _ body orelse | For _ _ body orelse | While _ body orelse =>
      block body ++ block orelse
  | FunctionDef _ _ body => block body
  | _ => match hook_call_args s with Some a => [a] | None => [] end
  end.

Fixpoint hook_calls_block (ss : list stmt) : list (expr * expr * Z) :=
  match ss with
  | [] => []
  | s :: ss' => hook_calls s ++ hook_calls_block ss'
  end.

(** The [assert] statements standing directly in a block. *)
Definition direct_asserts (ss : list stmt) : list (expr * option expr * Z) :=
  omap (fun s => match s with
                 | Assert test msg lineno => Some (test, msg, lineno)
                 | _ => None
                 end) ss.

(** The hook calls standing directly in a block. *)
Definition direct_hook_calls (ss : list stmt) : list (expr * expr * Z) :=
  omap hook_call_args ss.

End Ast.

(** ** Running the fragment

    A definitional interpreter with a step budget.  It stands for what
    [exec(compiled, env, env)] and the call [env["check"](candidate)]
    do on the fragment of [Ast].  The interpreter's limit on the depth
    of recursion is not modelled: a recursion that never ends uses up
    every budget. *)

Module Interp.
Import Ast.

(** Python objects of the fragment.  [VHook] is the function [__rec]
    that [run_check_and_count_asserts] puts into the namespace;
    [VExtern name] is a function defined outside the test module (the
    candidate, a builtin), two of them being the same object when they
    have the same name; [VFunction] is a function made by a [def] of
    the test module. *)
Inductive value : Type :=
| VNone
| VBool (b : bool)
| VInt (z : Z)
| VStr (s : string)
| VList (l : list value)
| VHook
| VExtern (name : string)
| VFunction (name : string) (args : list string) (body : list stmt).

(** An exception: [type(e).__name__], [str(e)] and
    [isinstance(e, Exception)].  The last is what [except Exception]
    tests: it is false for [SystemExit], [KeyboardInterrupt] and the
    other classes that derive from [BaseException] only. *)
Record exn : Type :=
  { exn_type : string; exn_text : string; is_Exception : bool }.

(** One element of [records]: [(lineno, ok, msg)]. *)
Abbreviation record := (value * bool * option string)%type.

(** The errors the interpreter itself raises; their message text is
    the host's. *)
Inductive interp_error : Type :=
| NameNotDefined (id : string)
| UnboundLocal (id : string)
| NotCallable (f : value)
| NotIterable (v : value)
| WrongArgumentCount (f : value) (given : nat)
| ReturnOutsideFunction
| DuplicateArgument (name : string)
| AssignToDebug
| TooManyNestedBlocks.

Definition value_of_constant (c : constant) : value :=
  match c with
  | CNone => VNone
  | CBool b => VBool b
  | CInt z => VInt z
  | CStr s => VStr s
  end.

(** [bool(v)]. *)
Definition truthy (v : value) : bool :=
  match v with
  | VNone => false
  | VBool b => b
  | VInt z => negb (z =? 0)
  | VStr s => negb (String.eqb s "")
  | VList l => match l with [] => false | _ => true end
  | VHook | VExtern _ | VFunction _ _ _ => true
  end.

(** [a == b]; [None] where the answer depends on object identity that
    the values do not show. *)
Fixpoint py_eq (a b : value) : option bool :=
  let number (v : value) : option Z :=
    match v with
    | VBool c => Some (Z.b2z c)
    | VInt z => Some z
    | _ => None
    end in
  match a, b with
  | VNone, VNone => Some true
  | VStr s, VStr t => Some (String.eqb s t)
  | VList l1, VList l2 =>
      if (length l1 =? length l2)%nat then
        (fix elements (l1 l2 : list value) : option bool :=
           match l1, l2 with
           | x :: l1', y :: l2' =>
               match py_eq x y with
               | Some true => elements l1' l2'
               | r => r
               end
           | _, _ => Some true
           end) l1 l2
      else Some false
  | VHook, VHook => Some true
  | VExtern n1, VExtern n2 => Some (String.eqb n1 n2)
  | VFunction _ _ _, VFunction _ _ _ => None
  | _, _ =>
      match number a, number b with
      | Some x, Some y => Some (x =? y)
      | _, _ => Some false
      end
  end.

(** The names a function body binds: they are local to the function. *)
Fixpoint assigned_names (s : stmt) : list string :=
  let block := fix block (ss : list stmt) : list string :=
    match ss with
    | [] => []
    | s :: ss' => assigned_names s ++ block ss'
    end in
  match s with
  | Assign target _ => [target]
  | For target _ body orelse => target :: block body ++ block orelse
  | If _ body orelse | While _ body orelse => block body ++ block orelse
  | FunctionDef name _ _ => [name]
  | Assert _ _ _ | Expr _ | Return _ | Pass => []
  end.

Definition local_names (params : list string) (body : list stmt) : list string :=
  params ++ concat (map assigned_names body).

(** The errors of [compile] on a tree of the fragment, as CPython 3.11
    finds them: it first builds the symbol table of the whole tree,
    which rejects a parameter name that repeats an earlier one, and
    then generates the code statement by statement, which rejects a
    [return] outside a function, the binding of the name [__debug__]
    and a loop inside twenty loops of the same code object. *)

(** The first parameter name that repeats an earlier one. *)
Fixpoint first_duplicate_from (seen names : list string) : option string :=
  match names with
  | [] => None
  | n :: names' =>
      if existsb (String.eqb n) seen then Some n
      else first_duplicate_from (n :: seen) names'
  end.

Definition first_duplicate (names : list string) : option string :=
  first_duplicate_from [] names.

(** The symbol table visits the parameters of a function before its
    body, and a body before the [else] part. *)
Fixpoint duplicate_argument (s : stmt) : option string :=
  let block := fix block (ss : list stmt) : option string :=
    match ss with
    | [] => None
    | s :: ss' =>
        match duplicate_argument s with
        | Some n => Some n
        | None => block ss'
        end
    end in
  match s with
  | FunctionDef _ args body =>
      match first_duplicate args with
      | Some n => Some n
      | None => block body
      end
  | If _ body orelse | For _ _ body orelse | While _ body orelse =>
      match block body with
      | Some n => Some n
      | None => block orelse
      end
  | _ => None
  end.

Fixpoint duplicate_argument_block (ss : list stmt) : option string :=
  match ss with
  | [] => None
  | s :: ss' =>
      match duplicate_argument s with
      | Some n => Some n
      | None => duplicate_argument_block ss'
      end
  end.

(** The number of loops that may stand inside each other in one code
    object ([CO_MAXBLOCKS]). *)
Definition CO_MAXBLOCKS : nat := 20.

(** The first error of the code generation of a statement that stands
    inside [depth] loops of its code object; [in_function] tells
    whether the code object is a function.  A loop is counted before
    its target is bound; the parameters of a function are looked at
    before its body, its name after it; the [else] part of a loop is
    outside the loop. *)
Fixpoint codegen_error (in_function : bool) (depth : nat) (s : stmt)
  : option interp_error :=
  let block := fix block (in_function : bool) (depth : nat) (ss : list stmt)
    : option interp_error :=
    match ss with
    | [] => None
    | s :: ss' =>
        match codegen_error in_function depth s with
        | Some e => Some e
        | None => block in_function depth ss'
        end
    end in
  let then_ (a b : option interp_error) : option interp_error :=
    match a with Some e => Some e | None => b end in
  match s with
  | Assign target _ =>
      if String.eqb target "__debug__" then Some AssignToDebug else None
  | Return _ => if in_function then None else Some ReturnOutsideFunction
  | If _ body orelse =>
      then_ (block in_function depth body) (block in_function depth orelse)
  | For target _ body orelse =>
      if (CO_MAXBLOCKS <=? depth)%nat then Some TooManyNestedBlocks
      else if String.eqb target "__debug__" then Some AssignToDebug
      else then_ (block in_function (S depth) body)
                 (block in_function depth orelse)
  | While _ body orelse =>
      if (CO_MAXBLOCKS <=? depth)%nat then Some TooManyNestedBlocks
      else then_ (block in_function (S depth) body)
                 (block in_function depth orelse)
  | FunctionDef name args body =>
      if existsb (String.eqb "__debug__") args then Some AssignToDebug
      else then_ (block true O body)
                 (if String.eqb name "__debug__" then Some AssignToDebug else None)
  | Assert _ _ _ | Expr _ | Pass => None
  end.

Fixpoint codegen_error_block (in_function : bool) (depth : nat) (ss : list stmt)
  : option interp_error :=
  match ss with
  | [] => None
  | s :: ss' =>
      match codegen_error in_function depth s with
      | Some e => Some e
      | None => codegen_error_block in_function depth ss'
      end
  end.

(** The local variables of a running function and the names that are
    local to it. *)
Record frame : Type := { f_locals : gmap string value; f_names : list string }.

(** The namespace [env], the frame of the function that runs (none
    while the module body runs), and the list [records]. *)
Record state : Type :=
  { globals : gmap string value; scope : option frame; records : list record }.

Definition set_scope (s : state) (sc : option frame) : state :=
  {| globals := globals s; scope := sc; records := records s |}.

Definition M (A : Type) : Type := state -> state * outcome exn A.

Definition ret {A} (a : A) : M A := fun s => (s, Ok a).

Definition bind {A B} (m : M A) (k : A -> M B) : M B :=
  fun s =>
    match m s with
    | (s', Ok a) => k a s'
    | (s', Raise e) => (s', Raise e)
    | (s', Unmodelled) => (s', Unmodelled)
    | (s', OutOfFuel) => (s', OutOfFuel)
    end.

Notation "x <~ m ;; k" := (bind m (fun x => k))
  (at level 100, m at next level, right associativity).

Definition raise_exn {A} (type_name text : string) : M A :=
  fun s =>
    (s, Raise {| exn_type := type_name; exn_text := text; is_Exception := true |}).

Definition unmodelled {A} : M A := fun s => (s, Unmodelled).
Definition out_of_fuel {A} : M A := fun s => (s, OutOfFuel).

(** [name = v] in the current scope. *)
Definition assign (name : string) (v : value) : M unit :=
  fun s =>
    match scope s with
    | Some f =>
        ({| globals := globals s;
            scope := Some {| f_locals := <[name := v]> (f_locals f);
                             f_names := f_names f |};
            records := records s |}, Ok tt)
    | None =>
        ({| globals := <[name := v]> (globals s);
            scope := None;
            records := records s |}, Ok tt)
    end.

(** The body of [__rec]: [records.append((lineno, bool(test_value),
    str(msg) if msg is not None else None))]. *)
Definition append_record (r : record) : M unit :=
  fun s =>
    ({| globals := globals s; scope := scope s; records := records s ++ [r] |},
     Ok tt).

(** The items a [for] loop runs over. *)
Definition items (v : value) : option (list value) :=
  match v with
  | VList l => Some l
  | VStr s => Some (map (fun c => VStr (String c "")) (list_ascii_of_string s))
  | _ => None
  end.

Section host.

(** What the test module cannot tell by itself. *)
Variable extern_call : string -> list value -> outcome exn value.
Variable builtins : string -> option value.
Variable repr_text : value -> string.
Variable error_text : interp_error -> string.

Definition raise {A} (type_name : string) (err : interp_error) : M A :=
  raise_exn type_name (error_text err).

(** [str(v)]. *)
Definition py_str (v : value) : string :=
  match v with
  | VNone => "None"
  | VBool true => "True"
  | VBool false => "False"
  | VInt z => py_str_int z
  | VStr s => s
  | _ => repr_text v
  end.

(** Reading a name: a name local to the running function is read from
    its frame, any other name from the namespace, then the builtins. *)
Definition lookup_name (id : string) : M value :=
  fun s =>
    let from_globals : outcome exn value :=
      match globals s !! id with
      | Some v => Ok v
      | None =>
          match builtins id with
          | Some v => Ok v
          | None => Raise {| exn_type := "NameError";
                             exn_text := error_text (NameNotDefined id);
                             is_Exception := true |}
          end
      end in
    match scope s with
    | Some f =>
        if existsb (String.eqb id) (f_names f) then
          match f_locals f !! id with
          | Some v => (s, Ok v)
          | None => (s, Raise {| exn_type := "UnboundLocalError";
                                 exn_text := error_text (UnboundLocal id);
                                 is_Exception := true |})
          end
        else (s, from_globals)
    | None => (s, from_globals)
    end.

(** Expressions, calls, statements and blocks. *)
Fixpoint eval_expr (fuel : nat) (e : expr) {struct fuel} : M value :=
  match fuel with
  | O => out_of_fuel
  | S n =>
      let eval_list := fix eval_list (es : list expr) : M (list value) :=
        match es with
        | [] => ret []
        | e :: es' => v <~ eval_expr n e ;; vs <~ eval_list es' ;; ret (v :: vs)
        end in
      match e with
      | Constant c => ret (value_of_constant c)
      | Name id => lookup_name id
      | Call func args =>
          f <~ eval_expr n func ;; vs <~ eval_list args ;; call n f vs
      | Compare lhs op rhs =>
          a <~ eval_expr n lhs ;;
          b <~ eval_expr n rhs ;;
          match py_eq a b with
          | Some c => ret (VBool (match op with Eq => c | NotEq => negb c end))
          | None => unmodelled
          end
      | Not operand => v <~ eval_expr n operand ;; ret (VBool (negb (truthy v)))
      | List elts => vs <~ eval_list elts ;; ret (VList vs)
      end
  end

with call (fuel : nat) (f : value) (args : list value) {struct fuel} : M value :=
  match fuel with
  | O => out_of_fuel
  | S n =>
      match f with
      | VHook =>
          match args with
          | [test_value; msg; lineno] =>
              let ok := truthy test_value in
              _ <~ append_record
                     (lineno, ok,
                      match msg with VNone => None | _ => Some (py_str msg) end) ;;
              ret VNone
          | _ => raise "TypeError" (WrongArgumentCount f (length args))
          end
      | VExtern name => fun s => (s, extern_call name args)
      | VFunction _ params body =>
          if (length params =? length args)%nat then
            fun s =>
              let caller := scope s in
              let callee :=
                {| f_locals := list_to_map (zip params args);
                   f_names := local_names params body |} in
              match exec_block n body (set_scope s (Some callee)) with
              | (s', Ok (Some v)) => (set_scope s' caller, Ok v)
              | (s', Ok None) => (set_scope s' caller, Ok VNone)
              | (s', Raise e) => (set_scope s' caller, Raise e)
              | (s', Unmodelled) => (set_scope s' caller, Unmodelled)
              | (s', OutOfFuel) => (set_scope s' caller, OutOfFuel)
              end
          else raise "TypeError" (WrongArgumentCount f (length args))
      | _ => raise "TypeError" (NotCallable f)
      end
  end

(** A statement returns [Some v] when a [return] was executed. *)
with exec_stmt (fuel : nat) (st : stmt) {struct fuel} : M (option value) :=
  match fuel with
  | O => out_of_fuel
  | S n =>
      match st with
      | Assert test msg _ =>
          v <~ eval_expr n test ;;
          if truthy v then ret None
          else
            match msg with
            | None => raise_exn "AssertionError" ""
            | Some m => mv <~ eval_expr n m ;; raise_exn "AssertionError" (py_str mv)
            end
      | Expr value => _ <~ eval_expr n value ;; ret None
      | Assign target value =>
          v <~ eval_expr n value ;; _ <~ assign target v ;; ret None
      | Return None => ret (Some VNone)
      | Return (Some value) => v <~ eval_expr n value ;; ret (Some v)
      | Pass => ret None
      | If test body orelse =>
          v <~ eval_expr n test ;;
          if truthy v then exec_block n body else exec_block n orelse
      | For target iter body orelse =>
          it <~ eval_expr n iter ;;
          match items it with
          | None => raise "TypeError" (NotIterable it)
          | Some xs =>
              (fix loop (xs : list value) : M (option value) :=
                 match xs with
                 | [] => exec_block n orelse
                 | x :: xs' =>
                     _ <~ assign target x ;;
                     r <~ exec_block n body ;;
                     match r with
                     | Some v => ret (Some v)
                     | None => loop xs'
                     end
                 end) xs
          end
      | While test body orelse =>
          v <~ eval_expr n test ;;
          if truthy v then
            r <~ exec_block n body ;;
            match r with
            | Some v => ret (Some v)
            | None => exec_stmt n st
            end
          else exec_block n orelse
      | FunctionDef name args body =>
          fun s =>
            match scope s with
            | None => (_ <~ assign name (VFunction name args body) ;; ret None) s
            | Some _ => (s, Unmodelled)
            end
      end
  end

with exec_block (fuel : nat) (ss : list stmt) {struct fuel} : M (option value) :=
  match fuel with
  | O => out_of_fuel
  | S n =>
      (fix block (ss : list stmt) : M (option value) :=
         match ss with
         | [] => ret None
         | st :: ss' =>
             r <~ exec_stmt n st ;;
             match r with
             | Some v => ret (Some v)
             | None => block ss'
             end
         end) ss
  end.

(** The arguments of a call, evaluated from left to right with the
    budget [fuel] each: the inner loop of [eval_expr]. *)
Definition eval_list (fuel : nat) : list expr -> M (list value) :=
  fix eval_list (es : list expr) : M (list value) :=
    match es with
    | [] => ret []
    | e :: es' => v <~ eval_expr fuel e ;; vs <~ eval_list es' ;; ret (v :: vs)
    end.

(** The statements of a block, run in order with the budget [fuel]
    each, up to the first [return]: the inner loop of [exec_block]. *)
Definition run_block (fuel : nat) : list stmt -> M (option value) :=
  fix block (ss : list stmt) : M (option value) :=
    match ss with
    | [] => ret None
    | st :: ss' =>
        r <~ exec_stmt fuel st ;;
        match r with
        | Some v => ret (Some v)
        | None => block ss'
        end
    end.

(** [compile(tree, ..., mode="exec")]: the [SyntaxError] of the first
    error of the symbol table or, when it has none, of the code
    generation; [None] when the tree compiles. *)
Definition compile (tree : list stmt) : option exn :=
  let syntax_error (err : interp_error) : exn :=
    {| exn_type := "SyntaxError"; exn_text := error_text err;
       is_Exception := true |} in
  match duplicate_argument_block tree with
  | Some n => Some (syntax_error (DuplicateArgument n))
  | None =>
      match codegen_error_block false O tree with
      | Some err => Some (syntax_error err)
      | None => None
      end
  end.

End host.

End Interp.

(** ** Assertion rewriting
    ([run_humaneval_openai.py] lines 51-74; the same text is at
     [humaneval_coverage_summary.py] lines 81-108). *)

Module run_humaneval_openai.
Import Ast.

(** The call [__rec(test, msg, lineno)] built by [visit_Assert]. *)
Definition hook_call (test : expr) (msg : option expr) (lineno : Z) : stmt :=
  let test_expr := test in
  let msg_expr := match msg with Some m => m | None => Constant CNone end in
  Expr (Call (Name "__rec") [test_expr; msg_expr; Constant (CInt lineno)]).

(** The three arguments [visit_Assert] passes for an assertion. *)
Definition recorded_args (a : expr * option expr * Z) : expr * expr * Z :=
  let '(test, msg, lineno) := a in
  (test, match msg with Some m => m | None => Constant CNone end, lineno).

(** [_AssertRecorder().visit(node)]: [visit_Assert] on an assertion,
    [generic_visit] on every other node, which visits the statements
    of its blocks. *)
Fixpoint _AssertRecorder (node : stmt) : stmt :=
  match node with
  | Assert test msg lineno => hook_call test msg lineno
  | If test body orelse =>
      If test (map _AssertRecorder body) (map _AssertRecorder orelse)
  | For target iter body orelse =>
      For target iter (map _AssertRecorder body) (map _AssertRecorder orelse)
  | While test body orelse =>
      While test (map _AssertRecorder body) (map _AssertRecorder orelse)
  | FunctionDef name args body => FunctionDef name args (map _AssertRecorder body)
  | Expr _ | Assign _ _ | Return _ | Pass => node
  end.

(** The test [is_check] of [visit_FunctionDef]. *)
Definition is_check (name : string) (args : list string) : bool :=
  String.eqb name "check" && existsb (fun arg => String.eqb arg "candidate") args.

(** [_CheckOnly().visit(node)]: [visit_FunctionDef] on a function
    definition (which does not descend into a function that is not
    [check]), [generic_visit] on every other node. *)
Fixpoint _CheckOnly (node : stmt) : stmt :=
  match node with
  | FunctionDef name args body =>
      if is_check name args then _AssertRecorder node else node
  | If test body orelse => If test (map _CheckOnly body) (map _CheckOnly orelse)
  | For target iter body orelse =>
      For target iter (map _CheckOnly body) (map _CheckOnly orelse)
  | While test body orelse =>
      While test (map _CheckOnly body) (map _CheckOnly orelse)
  | Assert _ _ _ | Expr _ | Assign _ _ | Return _ | Pass => node
  end.

(** [_instrument_test_code], after [ast.parse]. *)
Definition _instrument_test_code (tree : list stmt) : list stmt :=
  map _CheckOnly tree.

(** *** Instrumented execution (lines 76-107) *)

Import Interp.

(** [(total, passed, failed, failures_detail)]. *)
Abbreviation check_result := (Z * Z * Z * list record)%type.

(** [isinstance(ok, bool)] for the second component of a record, which
    is always made by [bool(...)] or is the literal [False]. *)
Definition isinstance_bool (ok : bool) : bool := true.

(** [isinstance(v, FunctionType)]; whether a function from outside is
    a Python function or a builtin is not known here. *)
Definition isinstance_FunctionType (v : value) : option bool :=
  match v with
  | VFunction _ _ _ | VHook => Some true
  | VExtern _ => None
  | _ => Some false
  end.

(** [sum(1 for r in records if p(r))]. *)
Definition count (p : record -> bool) (records : list record) : Z :=
  Z.of_nat (length (List.filter p records)).

(** The four lines after the call of [check]. *)
Definition tally (records : list record) : check_result :=
  let total := count (fun '(_, ok, _) => isinstance_bool ok) records in
  let passed := count (fun '(_, ok, _) => ok) records in
  let failed := count (fun '(_, ok, _) => negb ok) records in
  let failures_detail := List.filter (fun '(_, ok, _) => negb ok) records in
  (total, passed, failed, failures_detail).

(** The namespace [env] before the test module runs. *)
Definition initial_state : state :=
  {| globals := {["__rec" := VHook]}; scope := None; records := [] |}.

Section host.

Variable extern_call : string -> list value -> outcome exn value.
Variable builtins : string -> option value.
Variable repr_text : value -> string.
Variable error_text : interp_error -> string.

(** The first [try] block: parse, rewrite, compile, execute. *)
Definition load_test_module (fuel : nat) (test_code : parsed)
  : state * outcome exn unit :=
  match test_code with
  | ParseError type_name text =>
      (initial_state,
       Raise {| exn_type := type_name; exn_text := text; is_Exception := true |})
  | Module tree =>
      let tree := _instrument_test_code tree in
      match compile error_text tree with
      | Some e => (initial_state, Raise e)
      | None =>
          (_ <~ exec_block extern_call builtins repr_text error_text fuel tree ;;
           ret tt) initial_state
      end
  end.

Definition run_check_and_count_asserts (fuel : nat) (candidate_func : value)
    (test_code : parsed) : outcome exn check_result :=
  match load_test_module fuel test_code with
  | (_, Raise e) =>
      if is_Exception e then
        Ok (0, 0, 1,
            [(VInt 0, false,
              Some ("Test import error: " +:+ exn_type e +:+ ": " +:+ exn_text e))])
      else Raise e
  | (_, Unmodelled) => Unmodelled
  | (_, OutOfFuel) => OutOfFuel
  | (env, Ok _) =>
      let missing : outcome exn check_result :=
        Ok (0, 0, 1, [(VInt 0, false, Some "Missing check(candidate) in test")]) in
      match globals env !! "check" with
      | None => missing
      | Some check =>
          match isinstance_FunctionType check with
          | None => Unmodelled
          | Some false => missing
          | Some true =>
              match call extern_call builtins repr_text error_text fuel
                      check [candidate_func] env with
              | (env', Ok _) => Ok (tally (records env'))
              | (env', Raise e) =>
                  if is_Exception e then
                    Ok (tally
                          (records env'
                           ++ [(VInt 0, false,
                                Some ("Runtime error: " +:+ exn_type e +:+ ": "
                                      +:+ exn_text e))]))
                  else Raise e
              | (_, Unmodelled) => Unmodelled
              | (_, OutOfFuel) => OutOfFuel
              end
          end
      end
  end.

(** *** Notions used to state properties of a run *)

(** The state [s] with the records [recs]. *)
Definition with_records (s : state) (recs : list record) : state :=
  {| globals := globals s; scope := scope s; records := recs |}.

(** The state in which the body of a function starts that [call]
    enters from [env] with the arguments [args]. *)
Definition entry_state (env : state) (params : list string) (args : list value)
    (body : list stmt) : state :=
  set_scope env (Some {| f_locals := list_to_map (zip params args);
                         f_names := local_names params body |}).

(** The state after [target = v] in [s]. *)
Definition assigned (s : state) (target : string) (v : value) : state :=
  fst (assign target v s).

(** The expression [e] evaluates in [s] to [v] and leaves [s'], given
    enough steps, without raising and without recording, whatever the
    records are. *)
Definition evaluates_to (s : state) (e : expr) (v : value) (s' : state) : Prop :=
  exists n : nat, forall (fuel : nat) (recs : list record),
    (n <= fuel)%nat ->
    eval_expr extern_call builtins repr_text error_text fuel e (with_records s recs)
    = (with_records s' recs, Ok v).

(** The statement [st] runs in [s] to its end ([r] is [None]) or to a
    [return] (of the value that [r] holds) and leaves [s'], given
    enough steps, without raising and without recording, whatever the
    records are. *)
Definition runs_to (s : state) (st : stmt) (r : option value) (s' : state) : Prop :=
  exists n : nat, forall (fuel : nat) (recs : list record),
    (n <= fuel)%nat ->
    exec_stmt extern_call builtins repr_text error_text fuel st (with_records s recs)
    = (with_records s' recs, Ok r).

(** In [s] the name [__rec] denotes the recording hook. *)
Definition hook_bound (s : state) : Prop :=
  forall recs : list record,
    lookup_name builtins error_text "__rec" (with_records s recs)
    = (with_records s recs, Ok VHook).

(** The expression the hook receives as message of an assertion. *)
Definition msg_expr (msg : option expr) : expr :=
  match msg with Some m => m | None => Constant CNone end.

(** A run of a statement, or of a block, from [s] in which every
    [assert] statement it holds is executed exactly once and nothing
    else records: [vals] are the values of the test and of the
    message of these assertions in source order, [r] tells whether
    the run ended in a [return], [s'] is the state it leaves.
    - An assertion evaluates its test, then its message.
    - A statement without assertions runs as the interpreter runs it.
    - An [if] holds its assertions in the branch that is taken.
    - A loop that holds assertions in its body makes one pass, or
      leaves by a [return] in its first pass; its [else] part runs
      after the last pass.
    - A block runs its statements in order, up to a [return], after
      which no assertion stands. *)
Inductive once_stmt
  : state -> stmt -> list (value * value) -> option value -> state -> Prop :=
| once_assert s test msg lineno tv mv s1 s2 :
    hook_bound s ->
    evaluates_to s test tv s1 ->
    evaluates_to s1 (msg_expr msg) mv s2 ->
    once_stmt s (Assert test msg lineno) [(tv, mv)] None s2
| once_plain s st r s' :
    count_asserts st = O ->
    runs_to s st r s' ->
    once_stmt s st [] r s'
| once_if s test body orelse v s1 vals r s2 :
    evaluates_to s test v s1 ->
    count_asserts_block (if truthy v then orelse else body) = O ->
    once_block s1 (if truthy v then body else orelse) vals r s2 ->
    once_stmt s (If test body orelse) vals r s2
| once_for_pass s target iter body orelse it x s1 vals1 s2 vals2 r s3 :
    evaluates_to s iter it s1 ->
    items it = Some [x] ->
    once_block (assigned s1 target x) body vals1 None s2 ->
    once_block s2 orelse vals2 r s3 ->
    once_stmt s (For target iter body orelse) (vals1 ++ vals2) r s3
| once_for_return s target iter body orelse it x xs s1 vals v s2 :
    evaluates_to s iter it s1 ->
    items it = Some (x :: xs) ->
    once_block (assigned s1 target x) body vals (Some v) s2 ->
    count_asserts_block orelse = O ->
    once_stmt s (For target iter body orelse) vals (Some v) s2
| once_for_else s target iter body orelse it s1 vals r s2 :
    evaluates_to s iter it s1 ->
    items it = Some [] ->
    count_asserts_block body = O ->
    once_block s1 orelse vals r s2 ->
    once_stmt s (For target iter body orelse) vals r s2
| once_while_pass s test body orelse v1 s1 vals1 s2 v2 s3 vals2 r s4 :
    evaluates_to s test v1 s1 ->
    truthy v1 = true ->
    once_block s1 body vals1 None s2 ->
    evaluates_to s2 test v2 s3 ->
    truthy v2 = false ->
    once_block s3 orelse vals2 r s4 ->
    once_stmt s (While test body orelse) (vals1 ++ vals2) r s4
| once_while_return s test body orelse v1 s1 vals v s2 :
    evaluates_to s test v1 s1 ->
    truthy v1 = true ->
    once_block s1 body vals (Some v) s2 ->
    count_asserts_block orelse = O ->
    once_stmt s (While test body orelse) vals (Some v) s2
| once_while_else s test body orelse v s1 vals r s2 :
    evaluates_to s test v s1 ->
    truthy v = false ->
    count_asserts_block body = O ->
    once_block s1 orelse vals r s2 ->
    once_stmt s (While test body orelse) vals r s2

with once_block
  : state -> list stmt -> list (value * value) -> option value -> state -> Prop :=
| once_nil s : once_block s [] [] None s
| once_next s st vals1 s1 rest vals2 r s2 :
    once_stmt s st vals1 None s1 ->
    once_block s1 rest vals2 r s2 ->
    once_block s (st :: rest) (vals1 ++ vals2) r s2
| once_return s st vals v s1 rest :
    once_stmt s st vals (Some v) s1 ->
    count_asserts_block rest = O ->
    once_block s (st :: rest) vals (Some v) s1.

Scheme once_stmt_mut := Minimality for once_stmt Sort Prop
  with once_block_mut := Minimality for once_block Sort Prop.

(** The record the hook makes for an assertion at line [lineno] whose
    test evaluates to [test_value] and whose message to [msg]. *)
Definition record_of (lineno : Z) (test_value msg : value) : record :=
  (VInt lineno, truthy test_value,
   match msg with VNone => None | _ => Some (py_str repr_text msg) end).

(** The assertion statement of a triple. *)
Definition assert_stmt (a : expr * option expr * Z) : stmt :=
  let '(test, msg, lineno) := a in Assert test msg lineno.

(** The records of a run of assertions with the given values. *)
Definition records_of (asserts : list (expr * option expr * Z))
    (vals : list (value * value)) : list record :=
  zip_with (fun a tv => record_of (snd a) (fst tv) (snd tv)) asserts vals.

(** *** The batch runner (lines 110-171) *)

(** One entry of the dataset. *)
Record problem : Type := { entry_point : string; test : parsed }.

(** A solution file as the runners see it: its name, its path, the
    outcome of [int(sol.name.split("_")[1])], and the outcome of
    loading it, an exception or the attributes of the module:
    [sol_module] for the [load_module] of [run_humaneval_openai.py]
    (lines 38-45, [exec_module] of [importlib] under [quiet_io]),
    [sol_run_path] for the [load_module] of
    [humaneval_coverage_summary.py] (lines 63-72, the names that
    [runpy.run_path] returns). *)
Record solution : Type :=
  { sol_name : string;
    sol_path : string;
    sol_problem_id : option Z;
    sol_module : exn + gmap string value;
    sol_run_path : exn + gmap string value }.

(** The lines of the table the runner prints, without their padding. *)
Inductive printed : Type :=
| Skip_bad_filename (name : string)
| Skip_not_in_dataset (problem_id : Z) (name : string)
| Error_load (problem_id : Z) (name : string) (type_name : string)
| Fail_missing (problem_id : Z) (name : string) (entry : string)
| Tested (problem_id : Z) (name : string) (passed total : Z) (status : string).

Record totals : Type :=
  { grand_total : Z; grand_pass : Z; grand_fail : Z; output : list printed }.

Definition print (t : totals) (line : printed) : totals :=
  {| grand_total := grand_total t; grand_pass := grand_pass t;
     grand_fail := grand_fail t; output := output t ++ [line] |}.

Definition add_fail (t : totals) : totals :=
  {| grand_total := grand_total t; grand_pass := grand_pass t;
     grand_fail := grand_fail t + 1; output := output t |}.

(** The body of [for sol in files]. *)
Definition main_step (fuel : nat) (problems : Z -> option problem)
    (t : totals) (sol : solution) : outcome exn totals :=
  match sol_problem_id sol with
  | None => Ok (print t (Skip_bad_filename (sol_name sol)))
  | Some problem_id =>
      match problems problem_id with
      | None => Ok (print t (Skip_not_in_dataset problem_id (sol_name sol)))
      | Some p =>
          let entry := entry_point p in
          let test_code := test p in
          match sol_module sol with
          | inl e =>
              if is_Exception e then
                Ok (add_fail
                      (print t (Error_load problem_id (sol_name sol) (exn_type e))))
              else Raise e
          | inr module =>
              match module !! entry with
              | None =>
                  Ok (add_fail (print t (Fail_missing problem_id (sol_name sol) entry)))
              | Some candidate =>
                  r <- run_check_and_count_asserts fuel candidate test_code ;;
                  let '(total, passed, failed, _) := r in
                  let status :=
                    if (failed =? 0) && (0 <? total) then "PASS" else "FAIL" in
                  let t := print t (Tested problem_id (sol_name sol) passed total status) in
                  Ok {| grand_total := grand_total t + 1;
                        grand_pass := grand_pass t + Z.b2z (String.eqb status "PASS");
                        grand_fail := grand_fail t + Z.b2z (String.eqb status "FAIL");
                        output := output t |}
              end
          end
      end
  end.

(** The loop over the files, from the totals [t]. *)
Fixpoint main_loop (fuel : nat) (problems : Z -> option problem)
    (t : totals) (files : list solution) : outcome exn totals :=
  match files with
  | [] => Ok t
  | sol :: files' =>
      t' <- main_step fuel problems t sol ;;
      main_loop fuel problems t' files'
  end.

(** [main]: nothing is counted when no solution file is found. *)
Definition main (fuel : nat) (problems : Z -> option problem)
    (files : list solution) : outcome exn (option totals) :=
  match files with
  | [] => Ok None
  | _ =>
      t <- main_loop fuel problems
             {| grand_total := 0; grand_pass := 0; grand_fail := 0; output := [] |}
             files ;;
      Ok (Some t)
  end.

End host.

End run_humaneval_openai.

(** ** [humaneval_coverage_summary.py] *)

Module humaneval_coverage_summary.

Definition DEFAULT_DIR : string := "openai_solutions".

(** Lines 81-150 repeat lines 51-107 of [run_humaneval_openai.py]
    statement for statement. *)
Definition _AssertRecorder := run_humaneval_openai._AssertRecorder.
Definition _CheckOnly := run_humaneval_openai._CheckOnly.
Definition _instrument_test_code := run_humaneval_openai._instrument_test_code.
Definition run_check_and_count_asserts :=
  run_humaneval_openai.run_check_and_count_asserts.

(** Lines 166-189: the first file of [cov_data["files"]], in insertion
    order, whose path ends with the name of the solution file. *)
Fixpoint first_match (files : dict) (norm_target1 norm_target2 : string)
  : string * json :=
  match files with
  | [] => ("", JObj [])
  | (path, entry) :: files' =>
      let norm_path := replace_char "\" "/" path in
      if endswith norm_path norm_target2 || endswith norm_path norm_target1
      then (path, entry)
      else first_match files' norm_target1 norm_target2
  end.

Definition find_file_entry (cov_data : dict) (solution_name : string)
  : outcome string (string * json) :=
  match Py.dict_get cov_data "files" (JObj []) with
  | JObj files =>
      let norm_target1 := replace_char "\" "/" solution_name in
      let norm_target2 :=
        replace_char "\" "/" (DEFAULT_DIR +:+ "/" +:+ solution_name) in
      Ok (first_match files norm_target1 norm_target2)
  | _ => Raise "AttributeError"
  end.

(** Lines 192-220. *)
Definition summarize_pytest_cov_style (entry : dict) : outcome string cov_tuple :=
  match entry with
  | [] => Ok (0, 0, 0, 0, 0%float, 0%float, [])
  | _ =>
      let summary := Py.dict_get entry "summary" (JObj []) in
      v <- Py.get summary "num_statements" (JInt 0) ;;
      stmts <- Py.int v ;;
      v <- Py.get summary "covered_lines" (JInt 0) ;;
      covered_lines <- Py.int v ;;
      let miss := Z.max (stmts - covered_lines) 0 in
      missing_lines <- Py.sorted (Py.dict_get entry "missing_lines" (JList [])) ;;
      v <- Py.get summary "num_branches" (JInt 0) ;;
      num_branches <- Py.int v ;;
      v <- Py.get summary "covered_branches" (JInt 0) ;;
      covered_branches <- Py.int v ;;
      let missing_branches := Py.dict_get entry "missing_branches" (JList []) in
      brpart <- match missing_branches with
                | JNull => Ok 0
                | _ => Py.len missing_branches
                end ;;
      line_percent <- (if 0 <? stmts
                       then q <- Py.truediv covered_lines stmts ;; Ok (q * 100)%float
                       else Ok 0%float) ;;
      branch_percent <- (if 0 <? num_branches
                         then q <- Py.truediv covered_branches num_branches ;;
                              Ok (q * 100)%float
                         else Ok 0%float) ;;
      Ok (stmts, miss, num_branches, brpart, line_percent, branch_percent,
          missing_lines)
  end.

(** The [covered_branches] count the function reads from the entry. *)
Definition covered_branches_field (entry : dict) : outcome string Z :=
  v <- Py.get (Py.dict_get entry "summary" (JObj [])) "covered_branches" (JInt 0) ;;
  Py.int v.

(** The summary of a value found in [cov_data["files"]]: a value that
    is not a dict is taken for an empty entry when it is falsy and has
    no [get] otherwise. *)
Definition summarize_entry (entry : json) : outcome string cov_tuple :=
  match entry with
  | JObj kvs => summarize_pytest_cov_style kvs
  | _ => if Py.truthy entry then Raise "AttributeError"
         else summarize_pytest_cov_style []
  end.

(** Lines 223-251. *)
Definition compress_line_ranges := Compress.compress_line_ranges.

(** Lines 254-296. *)
Definition interpret_result (tests_passed tests_total : Z) (line_pct : float)
    (branch_count brpart : Z) : string :=
  if tests_total =? 0 then "No HumanEval test cases executed."
  else if tests_passed <? tests_total then
    if PrimFloat.ltb line_pct 50 then
      "Many HumanEval cases failing with low line coverage – implementation likely incomplete."
    else
      "Some HumanEval cases failing despite decent coverage – check edge cases and logic."
  else if branch_count =? 0 then
    if PrimFloat.leb 90 line_pct then
      "All HumanEval cases passed with high line coverage (no branch data)."
    else
      "All HumanEval cases passed but some lines remain untested (no branch data)."
  else if (0 <? brpart) && PrimFloat.leb 90 line_pct then
    "All HumanEval cases passed with high line coverage, but some branches are only partially tested."
  else if 0 <? brpart then
    "All HumanEval cases passed; consider more tests to improve branch coverage."
  else "All HumanEval cases passed with strong line and branch coverage.".

(** *** The batch runner with coverage (lines 300-467) *)

Import Interp.
Import run_humaneval_openai (problem, entry_point, test, solution, sol_name,
  sol_path, sol_problem_id, sol_run_path, printed, Skip_bad_filename,
  Skip_not_in_dataset, Error_load, Fail_missing, Tested).

(** One row of the summary table. *)
Record row : Type :=
  { name : string; stmts : Z; miss : Z; branch : Z; brpart : Z;
    cover_pct : float; branch_pct : float; missing : string;
    tests : string; note : string }.

Record totals : Type :=
  { grand_total : Z; grand_pass : Z; grand_fail : Z;
    output : list printed; rows : list row }.

(** An exception seen by its type name only. *)
Definition by_type {A} (m : outcome exn A) : outcome string A :=
  match m with
  | Ok a => Ok a
  | Raise e => Raise (exn_type e)
  | Unmodelled => Unmodelled
  | OutOfFuel => OutOfFuel
  end.

(** The row built from the coverage entry of a solution file. *)
Definition coverage_row (cov_data : dict) (sol : solution)
    (tests : string) (note : cov_tuple -> string) : outcome string row :=
  found <- find_file_entry cov_data (sol_name sol) ;;
  let '(cov_path, cov_entry) := found in
  t <- summarize_entry cov_entry ;;
  let '(stmts, miss, branch, brpart, cover_pct, branch_pct, missing_lines) := t in
  let missing_str := compress_line_ranges missing_lines in
  Ok {| name := if String.eqb cov_path "" then sol_path sol else cov_path;
        stmts := stmts; miss := miss; branch := branch; brpart := brpart;
        cover_pct := cover_pct; branch_pct := branch_pct;
        missing := missing_str; tests := tests; note := note t |}.

Section host.

Variable extern_call : string -> list value -> outcome exn value.
Variable builtins : string -> option value.
Variable repr_text : value -> string.
Variable error_text : interp_error -> string.

(** The body of [for sol in files]. *)
Definition main_step (fuel : nat) (problems : Z -> option problem)
    (cov_data : dict) (t : totals) (sol : solution) : outcome string totals :=
  let print (line : printed) (fail_inc : Z) (new_rows : list row) : totals :=
    {| grand_total := grand_total t; grand_pass := grand_pass t;
       grand_fail := grand_fail t + fail_inc;
       output := output t ++ [line]; rows := rows t ++ new_rows |} in
  match sol_problem_id sol with
  | None => Ok (print (Skip_bad_filename (sol_name sol)) 0 [])
  | Some problem_id =>
      match problems problem_id with
      | None => Ok (print (Skip_not_in_dataset problem_id (sol_name sol)) 0 [])
      | Some p =>
          let entry_name := entry_point p in
          let test_code := test p in
          match sol_run_path sol with
          | inl e =>
              if is_Exception e then
                Ok (print (Error_load problem_id (sol_name sol) (exn_type e)) 1
                      [{| name := sol_path sol; stmts := 0; miss := 0; branch := 0;
                          brpart := 0; cover_pct := 0; branch_pct := 0;
                          missing := ""; tests := "0/0";
                          note := "Module import error: " +:+ exn_type e |}])
              else Raise (exn_type e)
          | inr module =>
              match module !! entry_name with
              | None =>
                  r <- coverage_row cov_data sol "0/0"
                         (fun _ => "Missing required entry_point function in solution.") ;;
                  Ok (print (Fail_missing problem_id (sol_name sol) entry_name) 1 [r])
              | Some candidate =>
                  res <- by_type (run_check_and_count_asserts extern_call builtins
                                    repr_text error_text fuel candidate test_code) ;;
                  let '(total, passed, failed, _) := res in
                  let status :=
                    if (failed =? 0) && (0 <? total) then "PASS" else "FAIL" in
                  r <- coverage_row cov_data sol
                         (py_str_int passed +:+ "/" +:+ py_str_int total)
                         (fun '(_, _, branch, brpart, cover_pct, _, _) =>
                            interpret_result passed total cover_pct branch brpart) ;;
                  Ok {| grand_total := grand_total t + 1;
                        grand_pass := grand_pass t + Z.b2z (String.eqb status "PASS");
                        grand_fail := grand_fail t + Z.b2z (String.eqb status "FAIL");
                        output := output t
                                  ++ [Tested problem_id (sol_name sol) passed total status];
                        rows := rows t ++ [r] |}
              end
          end
      end
  end.

Fixpoint main_loop (fuel : nat) (problems : Z -> option problem)
    (cov_data : dict) (t : totals) (files : list solution) : outcome string totals :=
  match files with
  | [] => Ok t
  | sol :: files' =>
      t' <- main_step fuel problems cov_data t sol ;;
      main_loop fuel problems cov_data t' files'
  end.

(** [main] up to the totals and the rows of the table; [cov_data] is
    the loaded coverage.json, or [{"files": {}}] when there is none. *)
Definition main (fuel : nat) (problems : Z -> option problem)
    (cov_data : dict) (files : list solution) : outcome string (option totals) :=
  match files with
  | [] => Ok None
  | _ =>
      t <- main_loop fuel problems cov_data
             {| grand_total := 0; grand_pass := 0; grand_fail := 0;
                output := []; rows := [] |}
             files ;;
      Ok (Some t)
  end.

End host.

End humaneval_coverage_summary.

(** ** [generate_summary.py] *)

Module generate_summary.

(** Lines 65-98. *)
Definition summarize_pytest_cov_style (entry : dict) : outcome string cov_tuple :=
  match entry with
  | [] => Ok (0, 0, 0, 0, 0%float, 0%float, [])
  | _ =>
      let summary := Py.dict_get entry "summary" (JObj []) in
      v <- Py.get summary "num_statements" (JInt 0) ;;
      stmts <- Py.int v ;;
      v <- Py.get summary "covered_lines" (JInt 0) ;;
      covered_lines <- Py.int v ;;
      let miss := Z.max (stmts - covered_lines) 0 in
      missing_lines <- Py.sorted (Py.dict_get entry "missing_lines" (JList [])) ;;
      v <- Py.get summary "num_branches" (JInt 0) ;;
      num_branches <- Py.int v ;;
      let missing_branches :=
        let m := Py.dict_get entry "missing_branches" (JList []) in
        if Py.truthy m then m else JList [] in
      brpart <- Py.len missing_branches ;;
      line_percent <- (if 0 <? stmts
                       then q <- Py.truediv covered_lines stmts ;; Ok (q * 100)%float
                       else Ok 0%float) ;;
      let covered_branches := num_branches - brpart in
      branch_percent <- (if 0 <? num_branches
                         then q <- Py.truediv covered_branches num_branches ;;
                              Ok (q * 100)%float
                         else Ok 0%float) ;;
      Ok (stmts, miss, num_branches, brpart, line_percent, branch_percent,
          missing_lines)
  end.

(** Lines 101-119. *)
Definition compress_line_ranges := Compress.compress_line_ranges.

(** Lines 56-62: the first file of [cov_data["files"]] whose path ends
    with [filename_suffix]. *)
Fixpoint first_match (files : dict) (norm_suffix : string) : string * json :=
  match files with
  | [] => ("", JObj [])
  | (path, entry) :: files' =>
      if endswith (replace_char "\" "/" path) norm_suffix then (path, entry)
      else first_match files' norm_suffix
  end.

Definition find_file_entry (cov_data : dict) (filename_suffix : string)
  : outcome string (string * json) :=
  match Py.dict_get cov_data "files" (JObj []) with
  | JObj files =>
      let norm_suffix := replace_char "\" "/" filename_suffix in
      Ok (first_match files norm_suffix)
  | _ => Raise "AttributeError"
  end.

(** Lines 122-149. *)
Definition interpret_result (tests_passed tests_total : Z) (line_pct : float)
    (branch_count brpart : Z) : string :=
  if tests_total =? 0 then "No HumanEval test cases executed."
  else if tests_passed <? tests_total then
    if PrimFloat.ltb line_pct 50 then
      "Many HumanEval cases failing with low line coverage – implementation likely incomplete."
    else
      "Some HumanEval cases failing despite decent coverage – check edge cases and logic."
  else if branch_count =? 0 then
    if PrimFloat.leb 90 line_pct then
      "All HumanEval cases passed with high line coverage (no branch data)."
    else
      "All HumanEval cases passed but some lines remain untested (no branch data)."
  else if (0 <? brpart) && PrimFloat.leb 90 line_pct then
    "All HumanEval cases passed with high line coverage, but some branches are only partially tested."
  else if 0 <? brpart then
    "All HumanEval cases passed; consider more tests to improve branch coverage."
  else "All HumanEval cases passed with strong line and branch coverage.".

End generate_summary.

(** ** [summarize_coverage_tests.py] *)

Module summarize_coverage_tests.

Definition PROBLEM_ID : Z := 106.

Section reader.

(** Python's [float(text)]; [None] when it raises [ValueError]. *)
Variable float_of_str : string -> option float.

(** [float(root.attrib.get(name, 0)) * 100] (lines 18-19); [None] when
    [float] raises.  The default is the integer 0, and [float(0)] is
    0.0. *)
Definition rate (attrib : gmap string string) (name : string) : option float :=
  match attrib !! name with
  | None => Some (0 * 100)%float
  | Some text =>
      match float_of_str text with
      | Some x => Some (x * 100)%float
      | None => None
      end
  end.

(** [xml_file.stem.split("_")[-1]] (line 20). *)
Definition iter_num (name : string) : string :=
  List.last (split_char "_" (stem name)) "".

(** The body of the loop (lines 16-23) for the file [name]: the row it
    appends, [None] when an exception is caught and the file is only
    reported. *)
Definition row (name : string) (file : convergence.xml_file)
  : option (string * float * float) :=
  match file with
  | convergence.Absent | convergence.ZeroSize | convergence.Malformed => None
  | convergence.Document attrib =>
      match rate attrib "line-rate" with
      | None => None
      | Some line_rate =>
          match rate attrib "branch-rate" with
          | None => None
          | Some branch_rate => Some (iter_num name, line_rate, branch_rate)
          end
      end
  end.

(** The rows after the loop; [files] is the sorted listing of
    [coverage_iter_*.xml]. *)
Definition rows (files : list (string * convergence.xml_file))
  : list (string * float * float) :=
  omap (fun f => row (fst f) (snd f)) files.

End reader.

End summarize_coverage_tests.

(** ** [test_humaneval_baseline.py] *)

Module test_humaneval_baseline.
Import Ast Interp.

Definition PROBLEM_NUMBERS : list Z :=
  [0; 1; 10; 11; 12; 13; 14; 15; 101; 102; 103; 104; 105; 106; 107; 108; 109;
   110; 111; 112; 113; 114; 115; 116; 117; 118; 119; 12; 120; 121;
   122; 123; 124; 125; 126; 127; 128; 129; 13; 130; 131].

(** The search directories, relative to [ROOT]. *)
Definition SEARCH_DIRS : list string := ["openai_solutions"].

(** [d / fname] for the file name of a problem (lines 67 and 69). *)
Definition solution_file (d : string) (problem_id : Z) : string :=
  d +:+ "/" +:+ "humaneval_" +:+ py_str_int problem_id
    +:+ "_openai_attempt_001_base.py".

(** [collect_solution_files] (lines 58-73); [exists_] tells which
    paths exist. *)
Definition collect_solution_files (exists_ : string -> bool) : list string :=
  flat_map
    (fun problem_id =>
       flat_map
         (fun d =>
            let fpath := solution_file d problem_id in
            if exists_ fpath then [fpath] else [])
         SEARCH_DIRS)
    PROBLEM_NUMBERS.

(** How a test ends when no exception leaves it: it passes, or
    [pytest.fail] or [pytest.skip] was called. *)
Inductive verdict : Type :=
| Passed
| Failed (reason : string)
| Skipped (reason : string).

(** A solution file as the test sees it: its name, the outcome of
    [int(solution_path.name.split("_")[1])] ([None] for an
    [IndexError] or a [ValueError]), and the outcome of the
    [load_module] of this file (lines 49-55): an exception or the
    attributes of the module. *)
Record solution : Type :=
  { file_name : string;
    file_problem_id : option Z;
    file_module : exn + gmap string value }.

Section host.

Variable extern_call : string -> list value -> outcome exn value.
Variable builtins : string -> option value.
Variable repr_text : value -> string.
Variable error_text : interp_error -> string.

(** [test_humaneval_base] (lines 88-121) for one solution file;
    [Raise e] when the exception [e] leaves the test. *)
Definition test_humaneval_base (fuel : nat)
    (problems : Z -> option run_humaneval_openai.problem)
    (solution_path : solution) : outcome exn verdict :=
  match file_problem_id solution_path with
  | None =>
      Ok (Failed ("Unexpected filename format: " +:+ file_name solution_path))
  | Some problem_id =>
      match problems problem_id with
      | None =>
          Ok (Skipped ("HumanEval dataset has no problem HumanEval/"
                       +:+ py_str_int problem_id))
      | Some problem =>
          let entry_name := run_humaneval_openai.entry_point problem in
          let test_code := run_humaneval_openai.test problem in
          match file_module solution_path with
          | inl e => Raise e
          | inr module =>
              match module !! entry_name with
              | None =>
                  Ok (Failed (file_name solution_path
                              +:+ " does not define `" +:+ entry_name +:+ "`"))
              | Some func =>
                  let exec_globals : state :=
                    {| globals := {[entry_name := func]};
                       scope := None; records := [] |} in
                  match test_code with
                  | ParseError type_name text =>
                      Raise {| exn_type := type_name; exn_text := text;
                               is_Exception := true |}
                  | Module tree =>
                      match compile error_text tree with
                      | Some e => Raise e
                      | None =>
                          match exec_block extern_call builtins repr_text
                                  error_text fuel tree exec_globals with
                          | (_, Ok _) => Ok Passed
                          | (_, Raise e) => Raise e
                          | (_, Unmodelled) => Unmodelled
                          | (_, OutOfFuel) => OutOfFuel
                          end
                      end
                  end
              end
          end
      end
  end.

End host.

End test_humaneval_baseline.

(** ** Sample inputs *)

Module Samples.

(** A file entry whose [covered_branches] disagrees with the number of
    listed missing branches. *)
Definition entry_disagree : dict :=
  [("summary", JObj [("num_statements", JInt 10); ("covered_lines", JInt 7);
                     ("num_branches", JInt 4); ("covered_branches", JInt 2)]);
   ("missing_lines", JList [JInt 9; JInt 3; JInt 4]);
   ("missing_branches", JList [JList [JInt 3; JInt 5]])].

(** The same entry with a consistent [covered_branches]. *)
Definition entry_agree : dict :=
  [("summary", JObj [("num_statements", JInt 10); ("covered_lines", JInt 7);
                     ("num_branches", JInt 4); ("covered_branches", JInt 3)]);
   ("missing_lines", JList [JInt 9; JInt 3; JInt 4]);
   ("missing_branches", JList [JList [JInt 3; JInt 5]])].

(** An entry of a file without statements. *)
Definition entry_no_statements : dict :=
  [("summary", JObj [("num_statements", JInt 0); ("covered_lines", JInt 0)]);
   ("missing_lines", JList [])].

(** [float(text)] on the few texts the sample documents use. *)
Definition float_of_str (s : string) : option float :=
  if String.eqb s "0" then Some 0%float
  else if String.eqb s "0.5" then Some 0.5%float
  else if String.eqb s "0.25" then Some 0.25%float
  else if String.eqb s "1" then Some 1%float
  else if String.eqb s "8" then Some 8%float
  else if String.eqb s "10" then Some 10%float
  else None.

(** A report whose rates and counts disagree. *)
Definition attrib_disagree : gmap string string :=
  <["line-rate" := "0.5"]> (<["branch-rate" := "0.25"]>
  (<["lines-valid" := "10"]> (<["lines-covered" := "10"]>
  (<["branches-valid" := "8"]> (<["branches-covered" := "8"]> ∅))))).

(** A report of a file without statements that carries no rates. *)
Definition attrib_no_statements : gmap string string :=
  <["lines-valid" := "0"]> (<["lines-covered" := "0"]> ∅).

(** The comparison [candidate(a) == b]. *)
Definition candidate_gives (a b : Z) : Ast.expr :=
  Ast.Compare (Ast.Call (Ast.Name "candidate") [Ast.Constant (Ast.CInt a)])
    Ast.Eq (Ast.Constant (Ast.CInt b)).

(** A test module with a [check] routine of two assertions, one of
    them under an [if] and with a message, and a helper routine with an
    assertion of its own. *)
Definition tree_with_helper : list Ast.stmt :=
  [Ast.FunctionDef "check" ["candidate"]
     [Ast.Assert (candidate_gives 1 1) None 2;
      Ast.If (Ast.Constant (Ast.CBool true))
        [Ast.Assert (candidate_gives 2 2) (Some (Ast.Constant (Ast.CStr "two"))) 4]
        []];
   Ast.FunctionDef "helper" ["x"]
     [Ast.Assert (Ast.Name "x") None 7]].

(** A [check] routine that itself calls the hook before its one
    assertion. *)
Definition body_with_hook : list Ast.stmt :=
  [Ast.Expr (Ast.Call (Ast.Name "__rec")
               [Ast.Constant (Ast.CBool true); Ast.Constant Ast.CNone;
                Ast.Constant (Ast.CInt 0)]);
   Ast.Assert (candidate_gives 1 1) None 3].

Definition tree_with_hook : list Ast.stmt :=
  [Ast.FunctionDef "check" ["candidate"] body_with_hook].

(** A host: the candidates [identity], [broken], which raises a
    [ValueError], and [quitting], which calls [sys.exit(1)]; no
    builtins. *)
Definition extern_call (name : string) (args : list Interp.value)
  : outcome Interp.exn Interp.value :=
  if String.eqb name "identity" then
    match args with
    | [v] => Ok v
    | _ => Raise {| Interp.exn_type := "TypeError";
                    Interp.exn_text := "identity() takes exactly one argument";
                    Interp.is_Exception := true |}
    end
  else if String.eqb name "broken" then
    Raise {| Interp.exn_type := "ValueError"; Interp.exn_text := "broken";
             Interp.is_Exception := true |}
  else if String.eqb name "quitting" then
    Raise {| Interp.exn_type := "SystemExit"; Interp.exn_text := "1";
             Interp.is_Exception := false |}
  else Unmodelled.

Definition builtins (id : string) : option Interp.value := None.

Definition repr_text (v : Interp.value) : string := "<object>".

Definition error_text (e : Interp.interp_error) : string :=
  match e with
  | Interp.NameNotDefined id => "name '" +:+ id +:+ "' is not defined"
  | Interp.ReturnOutsideFunction => "'return' outside function"
  | _ => "error"
  end.

Definition run_check :=
  run_humaneval_openai.run_check_and_count_asserts
    extern_call builtins repr_text error_text.

(** Five assertions; with the candidate [identity] the second and the
    fourth are false. *)
Definition five_asserts : list (Ast.expr * option Ast.expr * Z) :=
  [(candidate_gives 1 1, None, 2);
   (candidate_gives 2 3, None, 3);
   (candidate_gives 3 3, None, 4);
   (candidate_gives 4 5, Some (Ast.Constant (Ast.CStr "four")), 5);
   (candidate_gives 5 5, None, 6)].

Definition five_tree : list Ast.stmt :=
  [Ast.FunctionDef "check" ["candidate"]
     (map run_humaneval_openai.assert_stmt five_asserts)].

(** The namespace after [five_tree] has run. *)
Definition five_env : Interp.state :=
  {| Interp.globals :=
       <["check" := Interp.VFunction "check" ["candidate"]
                      (map run_humaneval_openai._AssertRecorder
                         (map run_humaneval_openai.assert_stmt five_asserts))]>
         {["__rec" := Interp.VHook]};
     Interp.scope := None; Interp.records := [] |}.

(** A dataset with the one problem 0, whose entry point is [f]. *)
Definition problems (problem_id : Z) : option run_humaneval_openai.problem :=
  if problem_id =? 0 then
    Some {| run_humaneval_openai.entry_point := "f";
            run_humaneval_openai.test := Ast.Module five_tree |}
  else None.

(** A solution file for problem 0 that loads and defines [g], not [f]. *)
Definition sol_without_entry : run_humaneval_openai.solution :=
  {| run_humaneval_openai.sol_name := "humaneval_0_openai_attempt_001_base.py";
     run_humaneval_openai.sol_path :=
       "/work/openai_solutions/humaneval_0_openai_attempt_001_base.py";
     run_humaneval_openai.sol_problem_id := Some 0;
     run_humaneval_openai.sol_module := inr {["g" := Interp.VExtern "identity"]};
     run_humaneval_openai.sol_run_path := inr {["g" := Interp.VExtern "identity"]} |}.

(** A dataset whose problem 0 has a [check] without assertions. *)
Definition problems_without_assertions (problem_id : Z)
  : option run_humaneval_openai.problem :=
  if problem_id =? 0 then
    Some {| run_humaneval_openai.entry_point := "f";
            run_humaneval_openai.test :=
              Ast.Module [Ast.FunctionDef "check" ["candidate"] [Ast.Pass]] |}
  else None.

(** A solution file for problem 0 that defines [f] as [identity]. *)
Definition sol_identity : run_humaneval_openai.solution :=
  {| run_humaneval_openai.sol_name := "humaneval_0_openai_attempt_001_base.py";
     run_humaneval_openai.sol_path :=
       "/work/openai_solutions/humaneval_0_openai_attempt_001_base.py";
     run_humaneval_openai.sol_problem_id := Some 0;
     run_humaneval_openai.sol_module := inr {["f" := Interp.VExtern "identity"]};
     run_humaneval_openai.sol_run_path := inr {["f" := Interp.VExtern "identity"]} |}.

(** The same file as the baseline test sees it. *)
Definition file_identity : test_humaneval_baseline.solution :=
  {| test_humaneval_baseline.file_name := "humaneval_0_openai_attempt_001_base.py";
     test_humaneval_baseline.file_problem_id := Some 0;
     test_humaneval_baseline.file_module := inr {["f" := Interp.VExtern "identity"]} |}.

(** A solution file whose name gives no problem number. *)
Definition sol_bad_name : run_humaneval_openai.solution :=
  {| run_humaneval_openai.sol_name := "humaneval_x_openai_attempt_001_base.py";
     run_humaneval_openai.sol_path :=
       "/work/openai_solutions/humaneval_x_openai_attempt_001_base.py";
     run_humaneval_openai.sol_problem_id := None;
     run_humaneval_openai.sol_module := inr {["f" := Interp.VExtern "identity"]};
     run_humaneval_openai.sol_run_path := inr {["f" := Interp.VExtern "identity"]} |}.

(** A solution file for problem 0 that raises while it is loaded. *)
Definition sol_broken : run_humaneval_openai.solution :=
  {| run_humaneval_openai.sol_name := "humaneval_0_openai_attempt_001_base.py";
     run_humaneval_openai.sol_path :=
       "/work/openai_solutions/humaneval_0_openai_attempt_001_base.py";
     run_humaneval_openai.sol_problem_id := Some 0;
     run_humaneval_openai.sol_module :=
       inl {| Interp.exn_type := "SyntaxError"; Interp.exn_text := "invalid syntax";
              Interp.is_Exception := true |};
     run_humaneval_openai.sol_run_path :=
       inl {| Interp.exn_type := "SyntaxError"; Interp.exn_text := "invalid syntax";
              Interp.is_Exception := true |} |}.

(** A solution file for problem 0 that calls [sys.exit(1)] while it is
    loaded. *)
Definition sol_exits : run_humaneval_openai.solution :=
  {| run_humaneval_openai.sol_name := "humaneval_0_openai_attempt_001_base.py";
     run_humaneval_openai.sol_path :=
       "/work/openai_solutions/humaneval_0_openai_attempt_001_base.py";
     run_humaneval_openai.sol_problem_id := Some 0;
     run_humaneval_openai.sol_module :=
       inl {| Interp.exn_type := "SystemExit"; Interp.exn_text := "1";
              Interp.is_Exception := false |};
     run_humaneval_openai.sol_run_path :=
       inl {| Interp.exn_type := "SystemExit"; Interp.exn_text := "1";
              Interp.is_Exception := false |} |}.

(** Coverage data of two files, the first under a Windows path. *)
Definition cov_files : dict :=
  [("C:\proj\openai_solutions\humaneval_7_openai_attempt_001_base.py",
    JObj entry_no_statements);
   ("/work/openai_solutions/humaneval_0_openai_attempt_001_base.py",
    JObj entry_agree)].

Definition cov_data_two : dict := [("files", JObj cov_files)].

(** A [check] that binds a name, asserts, asserts again in the branch
    taken of an [if] and in the one pass of a loop, and returns. *)
Definition mixed_body : list Ast.stmt :=
  [Ast.Assign "x" (Ast.Constant (Ast.CInt 1));
   Ast.Assert
     (Ast.Compare (Ast.Call (Ast.Name "candidate") [Ast.Name "x"])
        Ast.Eq (Ast.Constant (Ast.CInt 1)))
     None 3;
   Ast.If (candidate_gives 2 2)
     [Ast.Assert (candidate_gives 2 3) (Some (Ast.Constant (Ast.CStr "two"))) 5]
     [Ast.Pass];
   Ast.For "y" (Ast.List [Ast.Constant (Ast.CInt 4)])
     [Ast.Assert
        (Ast.Compare (Ast.Call (Ast.Name "candidate") [Ast.Name "y"])
           Ast.Eq (Ast.Name "y"))
        None 9]
     [];
   Ast.Return (Some (Ast.Name "x"))].

Definition mixed_tree : list Ast.stmt :=
  [Ast.FunctionDef "check" ["candidate"] mixed_body].

(** The namespace after [mixed_tree] has run. *)
Definition mixed_env : Interp.state :=
  {| Interp.globals :=
       <["check" := Interp.VFunction "check" ["candidate"]
                      (map run_humaneval_openai._AssertRecorder mixed_body)]>
         {["__rec" := Interp.VHook]};
     Interp.scope := None; Interp.records := [] |}.

(** The states of the call [check(identity)]: at its start, after
    [x = 1] and after [y] is bound by the loop. *)
Definition mixed_start : Interp.state :=
  run_humaneval_openai.entry_state mixed_env ["candidate"]
    [Interp.VExtern "identity"]
    (map run_humaneval_openai._AssertRecorder mixed_body).

Definition mixed_x : Interp.state :=
  run_humaneval_openai.assigned mixed_start "x" (Interp.VInt 1).

Definition mixed_y : Interp.state :=
  run_humaneval_openai.assigned mixed_x "y" (Interp.VInt 4).

(** The state at the start of the call [check(identity)] of
    [five_tree]. *)
Definition five_start : Interp.state :=
  run_humaneval_openai.entry_state five_env ["candidate"]
    [Interp.VExtern "identity"]
    (map run_humaneval_openai._AssertRecorder
       (map run_humaneval_openai.assert_stmt five_asserts)).

(** One assertion in a loop over three numbers. *)
Definition loop_tree : list Ast.stmt :=
  [Ast.FunctionDef "check" ["candidate"]
     [Ast.For "x"
        (Ast.List [Ast.Constant (Ast.CInt 1); Ast.Constant (Ast.CInt 2);
                   Ast.Constant (Ast.CInt 3)])
        [Ast.Assert
           (Ast.Compare (Ast.Call (Ast.Name "candidate") [Ast.Name "x"])
              Ast.Eq (Ast.Name "x"))
           None 3]
        []]].

(** One assertion in a branch that is not taken. *)
Definition skipped_tree : list Ast.stmt :=
  [Ast.FunctionDef "check" ["candidate"]
     [Ast.If (Ast.Constant (Ast.CBool false))
        [Ast.Assert (candidate_gives 1 1) None 3]
        []]].

(** A test module that defines a helper and no [check]. *)
Definition no_check_tree : list Ast.stmt :=
  [Ast.FunctionDef "helper" ["x"] [Ast.Assert (Ast.Name "x") None 7]].

(** A test module that fails while it is loaded. *)
Definition failing_tree : list Ast.stmt :=
  [Ast.Assert (Ast.Constant (Ast.CBool false))
     (Some (Ast.Constant (Ast.CStr "boom"))) 1;
   Ast.FunctionDef "check" ["candidate"] [Ast.Assert (candidate_gives 1 1) None 3]].

(** A test file of 1500 characters. *)
Definition body_1500 : string := string_of_list_ascii (repeat "x"%char 1500).

End Samples.

(** * Properties *)

(** ** Generic facts *)

Lemma obind_Ok {E A B} (m : outcome E A) (k : A -> outcome E B) (b : B) :
  obind m k = Ok b -> exists a, m = Ok a /\ k a = Ok b.
Proof. destruct m; simpl; intros H; try discriminate. eauto. Qed.

(** ** Missing-line compression *)

Module CompressFacts.
Import Compress.

Lemma runs_cons a l : runs (a :: l) = merge_run (a, a) (runs l).
Proof. simpl. destruct (runs l) as [|[c d] rs]; reflexivity. Qed.

Lemma merge_run_step s p ln rs :
  ln = p + 1 -> merge_run (s, p) (merge_run (ln, ln) rs) = merge_run (s, ln) rs.
Proof.
  intros ->. destruct rs as [|[c d] rs]; simpl.
  - rewrite Z.eqb_refl. reflexivity.
  - destruct (c =? p + 1 + 1); simpl; rewrite Z.eqb_refl; reflexivity.
Qed.

Lemma merge_run_break s p ln rs :
  ln <> p + 1 -> merge_run (s, p) (merge_run (ln, ln) rs) = (s, p) :: merge_run (ln, ln) rs.
Proof.
  intros Hne. apply Z.eqb_neq in Hne.
  destruct rs as [|[c d] rs]; simpl.
  - rewrite Hne. reflexivity.
  - destruct (c =? ln + 1); simpl; rewrite Hne; reflexivity.
Qed.

Lemma render_range_run s p : render_range s p = render_run (s, p).
Proof. reflexivity. Qed.

Lemma compress_loop_runs rest : forall start prev ranges,
  compress_loop rest start prev ranges
  = ranges ++ map render_run (merge_run (start, prev) (runs rest)).
Proof.
  induction rest as [|ln rest IH]; intros start prev ranges.
  - reflexivity.
  - cbn [compress_loop]. rewrite runs_cons.
    destruct (Z.eqb_spec ln (prev + 1)) as [E|E].
    + rewrite IH, merge_run_step by exact E. reflexivity.
    + rewrite IH, merge_run_break by exact E.
      rewrite <- app_assoc. reflexivity.
Qed.

Lemma runs_ordered l : Forall (fun r => fst r <= snd r) (runs l).
Proof.
  induction l as [|a l IH]; [constructor|].
  rewrite runs_cons. destruct (runs l) as [|[c d] rs]; simpl.
  - repeat constructor. simpl. lia.
  - inversion IH as [|? ? Hcd Hrs]; subst. simpl in Hcd.
    destruct (Z.eqb_spec c (a + 1)).
    + constructor; [simpl; lia | assumption].
    + constructor; [simpl; lia | constructor; assumption].
Qed.

Lemma runs_expand l : concat (map expand (runs l)) = l.
Proof.
  induction l as [|a l IH]; [reflexivity|].
  rewrite runs_cons. pose proof (runs_ordered l) as Hord.
  destruct (runs l) as [|[c d] rs]; simpl in *.
  - subst l. unfold expand. simpl. replace (a - a + 1) with 1 by lia. reflexivity.
  - inversion Hord as [|? ? Hcd _]; subst. simpl in Hcd.
    destruct (Z.eqb_spec c (a + 1)) as [->|Hne]; simpl.
    + unfold expand at 1. simpl. rewrite seqZ_cons by lia.
      unfold expand at 1. simpl.
      replace (Z.succ a) with (a + 1) by lia.
      replace (Z.pred (d - a + 1)) with (d - (a + 1) + 1) by lia. reflexivity.
    + unfold expand at 1. simpl. replace (a - a + 1) with 1 by lia. reflexivity.
Qed.

Lemma runs_maximal l : maximal (runs l).
Proof.
  induction l as [|a l IH]; [exact I|].
  rewrite runs_cons. destruct (runs l) as [|[c d] rs]; simpl; [exact I|].
  destruct (Z.eqb_spec c (a + 1)) as [->|Hne].
  - destruct rs; simpl in *; tauto.
  - simpl. split; [exact Hne | exact IH].
Qed.

End CompressFacts.

(** C9: [compress_line_ranges] renders the maximal runs of consecutive
    numbers of its argument, each run [a..b] as "a-b" and each single
    number as "a", joined by a comma and a space.  The runs cover the
    list in order, each run is non-empty, and no two neighbouring runs
    could be merged.  The list [2,3,4,7,8,10] gives "2-4, 7-8, 10", the
    empty list gives the empty text and [5] gives "5"; both source files
    hold the same function. *)
Theorem compress_line_ranges_runs (lines : list Z) :
  humaneval_coverage_summary.compress_line_ranges lines
    = Compress.compress_spec lines
  /\ generate_summary.compress_line_ranges lines
    = humaneval_coverage_summary.compress_line_ranges lines
  /\ concat (map Compress.expand (Compress.runs lines)) = lines
  /\ Forall (fun r => fst r <= snd r) (Compress.runs lines)
  /\ Compress.maximal (Compress.runs lines)
  /\ humaneval_coverage_summary.compress_line_ranges [2; 3; 4; 7; 8; 10]
     = "2-4, 7-8, 10"
  /\ humaneval_coverage_summary.compress_line_ranges [] = ""
  /\ humaneval_coverage_summary.compress_line_ranges [5] = "5".
Proof.
  split; [|split; [reflexivity|]].
  - unfold humaneval_coverage_summary.compress_line_ranges,
      Compress.compress_line_ranges, Compress.compress_spec.
    destruct lines as [|l0 rest]; [reflexivity|].
    rewrite CompressFacts.compress_loop_runs, CompressFacts.runs_cons.
    reflexivity.
  - split; [apply CompressFacts.runs_expand|].
    split; [apply CompressFacts.runs_ordered|].
    split; [apply CompressFacts.runs_maximal|].
    repeat split; reflexivity.
Qed.

(** ** The two coverage summaries *)

Module SummaryFacts.

(** The two ways of counting the listed missing branches agree whenever
    the first one returns. *)
Lemma brpart_agree (m : json) (b : Z) :
  match m with JNull => Ok 0 | _ => Py.len m end = @Ok string Z b ->
  Py.len (if Py.truthy m then m else JList []) = Ok b.
Proof.
  destruct m as [|c|z|f|s|l|kvs]; simpl; try discriminate; try (intros H; exact H).
  - destruct s; simpl; intros H; exact H.
  - destruct l; simpl; intros H; exact H.
  - destruct kvs; simpl; intros H; exact H.
Qed.

Ltac invert_binds H :=
  repeat match type of H with
         | obind _ _ = Ok _ =>
             let a := fresh "a" in
             let Ha := fresh "Ha" in
             apply obind_Ok in H; destruct H as (a & Ha & H)
         end.

(** What a successful run of the first summary tells about its steps. *)
Lemma humaneval_steps (p : string * json) (e : dict)
    (stmts miss nb brpart : Z) (lp bp : float) (ml : list Z) :
  humaneval_coverage_summary.summarize_pytest_cov_style (p :: e)
    = Ok (stmts, miss, nb, brpart, lp, bp, ml) ->
  let entry := p :: e in
  let summary := Py.dict_get entry "summary" (JObj []) in
  exists covered_lines covered_branches,
    (v <- Py.get summary "num_statements" (JInt 0) ;; Py.int v) = Ok stmts
    /\ (v <- Py.get summary "covered_lines" (JInt 0) ;; Py.int v) = Ok covered_lines
    /\ miss = Z.max (stmts - covered_lines) 0
    /\ Py.sorted (Py.dict_get entry "missing_lines" (JList [])) = Ok ml
    /\ (v <- Py.get summary "num_branches" (JInt 0) ;; Py.int v) = Ok nb
    /\ humaneval_coverage_summary.covered_branches_field entry = Ok covered_branches
    /\ Py.len (let m := Py.dict_get entry "missing_branches" (JList []) in
               if Py.truthy m then m else JList []) = Ok brpart
    /\ (if 0 <? stmts
        then q <- Py.truediv covered_lines stmts ;; Ok (q * 100)%float
        else Ok 0%float) = Ok lp
    /\ (if 0 <? nb
        then q <- Py.truediv covered_branches nb ;; Ok (q * 100)%float
        else Ok 0%float) = Ok bp.
Proof.
  intros H entry summary.
  unfold humaneval_coverage_summary.summarize_pytest_cov_style in H.
  fold entry in H. fold summary in H.
  invert_binds H. injection H as E1 E2 E3 E4 E5 E6 E7. subst.
  exists a2, a7.
  unfold humaneval_coverage_summary.covered_branches_field.
  fold entry. fold summary.
  rewrite Ha, Ha1, Ha4, Ha6. cbn [obind].
  repeat split; try assumption.
  apply brpart_agree. assumption.
Qed.

End SummaryFacts.

(** C10 (as amended): on every coverage.json file entry on which the
    summary of [humaneval_coverage_summary.py] returns, the summary of
    [generate_summary.py] can only return the same statements, misses,
    branches, partial branches, line percentage and missing lines; it
    returns the same branch percentage as well, hence the same tuple,
    when the entry has no branches or its [covered_branches] equals
    [num_branches] minus the number of listed missing branches. *)
Theorem summaries_agree (entry : dict)
    (stmts miss nb brpart : Z) (lp bp : float) (ml : list Z) :
  humaneval_coverage_summary.summarize_pytest_cov_style entry
    = Ok (stmts, miss, nb, brpart, lp, bp, ml) ->
  (forall t2, generate_summary.summarize_pytest_cov_style entry = Ok t2 ->
     exists bp2, t2 = (stmts, miss, nb, brpart, lp, bp2, ml))
  /\ (nb <= 0
      \/ humaneval_coverage_summary.covered_branches_field entry = Ok (nb - brpart) ->
      generate_summary.summarize_pytest_cov_style entry
        = Ok (stmts, miss, nb, brpart, lp, bp, ml)).
Proof.
  intros H. destruct entry as [|p e].
  - cbn in H. injection H as <- <- <- <- <- <- <-.
    split; [intros t2 H2; cbn in H2; injection H2 as <-; eauto | reflexivity].
  - apply SummaryFacts.humaneval_steps in H.
    destruct H as (cl & cb & Hs & Hc & -> & Hml & Hnb & Hcb & Hbr & Hlp & Hbp).
    unfold generate_summary.summarize_pytest_cov_style.
    set (entry := p :: e) in *.
    set (summary := Py.dict_get entry "summary" (JObj [])) in *.
    apply obind_Ok in Hs as (v1 & Hv1 & Hs).
    apply obind_Ok in Hc as (v2 & Hv2 & Hc).
    apply obind_Ok in Hnb as (v3 & Hv3 & Hnb).
    rewrite Hv1; cbn [obind]; rewrite Hs; cbn [obind].
    rewrite Hv2; cbn [obind]; rewrite Hc; cbn [obind].
    rewrite Hml; cbn [obind].
    rewrite Hv3; cbn [obind]; rewrite Hnb; cbn [obind].
    cbv zeta in Hbr. rewrite Hbr; cbn [obind].
    rewrite Hlp; cbn [obind].
    split.
    + intros t2 H2. apply obind_Ok in H2 as (bp2 & _ & H2).
      injection H2 as <-. eauto.
    + intros [Hle | Heq].
      * assert (E : (0 <? nb) = false) by (apply Z.ltb_ge; exact Hle).
        rewrite E in Hbp |- *. cbn [obind]. injection Hbp as <-. reflexivity.
      * rewrite Hcb in Heq. injection Heq as <-.
        rewrite Hbp. reflexivity.
Qed.

(** The two summaries on an entry with a consistent [covered_branches]. *)
Lemma summaries_agree_witness :
  humaneval_coverage_summary.summarize_pytest_cov_style Samples.entry_agree
    = Ok (10, 3, 4, 1, 70%float, 75%float, [3; 4; 9])
  /\ generate_summary.summarize_pytest_cov_style Samples.entry_agree
    = Ok (10, 3, 4, 1, 70%float, 75%float, [3; 4; 9]).
Proof.
  assert (H : humaneval_coverage_summary.summarize_pytest_cov_style Samples.entry_agree
              = Ok (10, 3, 4, 1, 70%float, 75%float, [3; 4; 9]))
    by (vm_compute; reflexivity).
  split; [exact H|].
  apply (proj2 (summaries_agree _ _ _ _ _ _ _ _ H)).
  right. vm_compute. reflexivity.
Defined.

(** C10 fails as stated: on [Samples.entry_disagree] the first summary
    reports 50 percent of the branches and the second 75 percent. *)
Lemma summaries_differ :
  humaneval_coverage_summary.summarize_pytest_cov_style Samples.entry_disagree
    = Ok (10, 3, 4, 1, 70%float, 50%float, [3; 4; 9])
  /\ generate_summary.summarize_pytest_cov_style Samples.entry_disagree
    = Ok (10, 3, 4, 1, 70%float, 75%float, [3; 4; 9])
  /\ humaneval_coverage_summary.summarize_pytest_cov_style Samples.entry_disagree
     <> generate_summary.summarize_pytest_cov_style Samples.entry_disagree.
Proof.
  split; [vm_compute; reflexivity|].
  split; [vm_compute; reflexivity|].
  intros H.
  set (below_60 := fun o : outcome string cov_tuple =>
         match o with
         | Ok (_, _, _, _, _, b, _) => PrimFloat.ltb b 60
         | _ => false
         end).
  assert (E : below_60 (humaneval_coverage_summary.summarize_pytest_cov_style
                          Samples.entry_disagree)
              = below_60 (generate_summary.summarize_pytest_cov_style
                            Samples.entry_disagree))
    by (rewrite H; reflexivity).
  vm_compute in E. discriminate E.
Qed.

(** ** The coverage readers *)

(** C2 (as amended): for a coverage.json file entry without statements
    both summaries return the line percentage 0.0, a number and not an
    undefined value; the XML reader leaves the line percentage undefined
    when the report has no [line-rate] attribute and its [lines-valid]
    count is not a positive number. *)
Theorem zero_statements_line_percent :
  (forall entry stmts miss nb brpart lp bp ml,
      humaneval_coverage_summary.summarize_pytest_cov_style entry
        = Ok (stmts, miss, nb, brpart, lp, bp, ml) ->
      stmts <= 0 -> lp = 0%float)
  /\ (forall entry stmts miss nb brpart lp bp ml,
      generate_summary.summarize_pytest_cov_style entry
        = Ok (stmts, miss, nb, brpart, lp, bp, ml) ->
      stmts <= 0 -> lp = 0%float)
  /\ (forall float_of_str attrib,
      attrib !! "line-rate" = None ->
      (forall valid,
          float_of_str (default "0" (attrib !! "lines-valid")) = Some valid ->
          PrimFloat.ltb 0 valid = false) ->
      exists branch_pct,
        convergence.parse_coverage_xml float_of_str (convergence.Document attrib)
        = Ok (None, branch_pct)).
Proof.
  assert (first : forall entry stmts miss nb brpart lp bp ml,
      humaneval_coverage_summary.summarize_pytest_cov_style entry
        = Ok (stmts, miss, nb, brpart, lp, bp, ml) ->
      stmts <= 0 -> lp = 0%float).
  { intros entry stmts miss nb brpart lp bp ml H Hs.
    destruct entry as [|p e].
    - cbn in H. injection H as <- <- <- <- <- <- <-. reflexivity.
    - apply SummaryFacts.humaneval_steps in H.
      destruct H as (cl & cb & _ & _ & _ & _ & _ & _ & _ & Hlp & _).
      assert (E : (0 <? stmts) = false) by (apply Z.ltb_ge; exact Hs).
      rewrite E in Hlp. injection Hlp as <-. reflexivity. }
  split; [exact first|]. split.
  - intros entry stmts miss nb brpart lp bp ml H Hs.
    destruct entry as [|p e].
    + cbn in H. injection H as <- <- <- <- <- <- <-. reflexivity.
    + unfold generate_summary.summarize_pytest_cov_style in H.
      SummaryFacts.invert_binds H.
      injection H as E1 E2 E3 E4 E5 E6 E7. subst.
      assert (E : (0 <? stmts) = false) by (apply Z.ltb_ge; exact Hs).
      rewrite E in Ha7. injection Ha7 as <-. reflexivity.
  - intros float_of_str attrib Hrate Hvalid.
    unfold convergence.parse_coverage_xml, convergence.to_pct at 1.
    rewrite Hrate. unfold convergence.from_counts at 1.
    destruct (float_of_str (default "0" (attrib !! "lines-valid"))) as [valid|] eqn:Ev.
    + rewrite (Hvalid valid eq_refl).
      destruct (float_of_str (default "0" (attrib !! "lines-covered"))); eauto.
    + eauto.
Qed.

(** A report without statements and without rates, and an entry without
    statements. *)
Lemma zero_statements_line_percent_witness :
  (exists branch_pct,
      convergence.parse_coverage_xml Samples.float_of_str
        (convergence.Document Samples.attrib_no_statements)
      = Ok (None, branch_pct))
  /\ humaneval_coverage_summary.summarize_pytest_cov_style Samples.entry_no_statements
     = Ok (0, 0, 0, 0, 0%float, 0%float, [])
  /\ 0%float = 0%float.
Proof.
  assert (H : humaneval_coverage_summary.summarize_pytest_cov_style
                Samples.entry_no_statements
              = Ok (0, 0, 0, 0, 0%float, 0%float, []))
    by (vm_compute; reflexivity).
  split; [|split; [exact H|]].
  - apply (proj2 (proj2 zero_statements_line_percent)).
    + vm_compute. reflexivity.
    + intros valid Hv. vm_compute in Hv. injection Hv as <-. vm_compute. reflexivity.
  - apply (proj1 zero_statements_line_percent Samples.entry_no_statements
             0 0 0 0 0%float 0%float [] H). lia.
Defined.

(** C2 fails as stated: for an entry with [num_statements] equal to 0
    the summary returns the number 0.0 as line percentage. *)
Lemma zero_statements_gives_zero :
  humaneval_coverage_summary.summarize_pytest_cov_style Samples.entry_no_statements
  = Ok (0, 0, 0, 0, 0%float, 0%float, []).
Proof. vm_compute. reflexivity. Qed.

(** C5: when the root element carries [line-rate] and [branch-rate]
    attributes that [float] accepts, the reader returns exactly these
    two numbers times 100, whatever the other attributes of the root
    are: a report that agrees on the two rates gives the same result,
    also when its counts say otherwise. *)
Theorem parse_coverage_xml_direct
    (float_of_str : string -> option float) (attrib : gmap string string)
    (lr br : string) (x y : float) :
  attrib !! "line-rate" = Some lr -> float_of_str lr = Some x ->
  attrib !! "branch-rate" = Some br -> float_of_str br = Some y ->
  convergence.parse_coverage_xml float_of_str (convergence.Document attrib)
    = Ok (Some (x * 100)%float, Some (y * 100)%float)
  /\ forall attrib' : gmap string string,
      attrib' !! "line-rate" = Some lr -> attrib' !! "branch-rate" = Some br ->
      convergence.parse_coverage_xml float_of_str (convergence.Document attrib')
      = convergence.parse_coverage_xml float_of_str (convergence.Document attrib).
Proof.
  intros Hl Hx Hb Hy.
  assert (direct : forall a : gmap string string,
             a !! "line-rate" = Some lr -> a !! "branch-rate" = Some br ->
             convergence.parse_coverage_xml float_of_str (convergence.Document a)
             = Ok (Some (x * 100)%float, Some (y * 100)%float)).
  { intros a Ha Hb'. unfold convergence.parse_coverage_xml, convergence.to_pct.
    rewrite Ha, Hb', Hx, Hy. reflexivity. }
  split; [apply direct; assumption|].
  intros attrib' Hl' Hb'. rewrite (direct attrib' Hl' Hb'), (direct attrib Hl Hb).
  reflexivity.
Qed.

(** A report whose rates say 50 and 25 percent and whose counts say 100
    percent: the rates win. *)
Lemma parse_coverage_xml_direct_witness :
  convergence.parse_coverage_xml Samples.float_of_str
    (convergence.Document Samples.attrib_disagree)
  = Ok (Some 50%float, Some 25%float).
Proof.
  refine (proj1 (parse_coverage_xml_direct Samples.float_of_str
                   Samples.attrib_disagree "0.5" "0.25" 0.5%float 0.25%float
                   _ _ _ _)); vm_compute; reflexivity.
Defined.

(** ** Prior-test collection *)

Module CollectFacts.
Import convergence.

Lemma len_nonneg s : 0 <= len s.
Proof. unfold len. lia. Qed.

Lemma total_len_nonneg ts : 0 <= total_len ts.
Proof.
  induction ts as [|t ts IH]; simpl; [lia|]. pose proof (len_nonneg t). lia.
Qed.

Lemma total_len_app ts1 ts2 :
  total_len (ts1 ++ ts2) = total_len ts1 + total_len ts2.
Proof.
  induction ts1 as [|t ts1 IH]; cbn; [reflexivity|].
  fold (total_len (ts1 ++ ts2)). fold (total_len ts1). lia.
Qed.

Lemma prior_texts_spec_fits budget t ts :
  len t <= budget ->
  prior_texts_spec budget (t :: ts) = t :: prior_texts_spec (budget - len t) ts.
Proof.
  intros Hfit. unfold prior_texts_spec. cbn [whole_prefix].
  apply Z.leb_le in Hfit. rewrite Hfit.
  destruct (whole_prefix (budget - len t) ts) as [kept rest].
  cbn [total_len fold_right]. fold (total_len kept).
  replace (budget - (len t + total_len kept)) with (budget - len t - total_len kept) by lia.
  reflexivity.
Qed.

Lemma prior_texts_spec_over budget t ts :
  budget < len t ->
  prior_texts_spec budget (t :: ts)
  = if 200 <? budget then [truncated t budget] else [].
Proof.
  intros Hover. unfold prior_texts_spec. cbn [whole_prefix].
  apply Z.leb_gt in Hover. rewrite Hover. cbn [total_len fold_right app].
  rewrite Z.sub_0_r. reflexivity.
Qed.

(** The loop computes the texts of the description, for the files it
    does not skip and the budget that is left. *)
Lemma collect_loop_spec sfx files : forall texts total,
  collect_loop sfx files texts total
  = texts ++ prior_texts_spec (PRIOR_TESTS_CHAR_BUDGET - total)
               (map with_header
                  (filter (fun f => endswith (fst f) sfx = false) files)).
Proof.
  induction files as [|f files IH]; intros texts total.
  - cbn. rewrite app_nil_r. reflexivity.
  - cbn [collect_loop]. rewrite filter_cons.
    destruct (endswith (fst f) sfx) eqn:Hskip.
    + rewrite decide_False by discriminate. apply IH.
    + rewrite decide_True by reflexivity. cbn [map].
      destruct (Z.ltb_spec PRIOR_TESTS_CHAR_BUDGET (total + len (with_header f)))
        as [Hover|Hfit].
      * rewrite prior_texts_spec_over by lia.
        destruct (200 <? PRIOR_TESTS_CHAR_BUDGET - total);
          [reflexivity | rewrite app_nil_r; reflexivity].
      * rewrite prior_texts_spec_fits by lia.
        rewrite IH, <- app_assoc. cbn [app].
        replace (PRIOR_TESTS_CHAR_BUDGET - (total + len (with_header f)))
          with (PRIOR_TESTS_CHAR_BUDGET - total - len (with_header f)) by lia.
        reflexivity.
Qed.

Lemma collect_prior_tests_text_spec i files :
  collect_prior_tests_text i files
  = prior_tests_spec
      (map with_header
         (filter (fun f => endswith (fst f) (fmt_02d i +:+ ".py") = false) files)).
Proof.
  unfold collect_prior_tests_text, prior_tests_spec.
  rewrite collect_loop_spec. rewrite Z.sub_0_r. cbn [app].
  destruct (prior_texts_spec _ _); reflexivity.
Qed.

(** The whole texts kept are a prefix within the budget, and the next
    text, when there is one, would exceed it. *)
Lemma whole_prefix_spec ts : forall budget kept rest,
  0 <= budget ->
  whole_prefix budget ts = (kept, rest) ->
  ts = kept ++ rest
  /\ total_len kept <= budget
  /\ match rest with
     | [] => True
     | t :: _ => budget < total_len kept + len t
     end.
Proof.
  induction ts as [|t ts IH]; intros budget kept rest Hb H.
  - cbn in H. injection H as <- <-. cbn. repeat split; lia.
  - cbn [whole_prefix] in H. destruct (Z.leb_spec (len t) budget) as [Hfit|Hover].
    + destruct (whole_prefix (budget - len t) ts) as [k r] eqn:E.
      injection H as <- <-.
      destruct (IH (budget - len t) k r ltac:(lia) E) as (-> & Hk & Hr).
      cbn [total_len fold_right]. fold (total_len k).
      repeat split; [lia|]. destruct r; [exact I | lia].
    + injection H as <- <-. cbn. repeat split; lia.
Qed.

(** No file of an earlier round is taken for the file of the current
    round. *)
Lemma earlier_files_kept i bodies :
  1 <= i <= ITERATIONS -> Z.of_nat (length bodies) = i - 1 ->
  filter (fun f => endswith (fst f) (fmt_02d i +:+ ".py") = false)
    (earlier_files bodies)
  = earlier_files bodies.
Proof.
  intros Hi Hlen. unfold ITERATIONS in Hi.
  assert (Hcases : i = 1 \/ i = 2 \/ i = 3) by lia.
  destruct Hcases as [-> | [-> | ->]].
  - destruct bodies; [reflexivity | cbn in Hlen; lia].
  - destruct bodies as [|b1 [|b2 bodies]]; cbn in Hlen; try lia. reflexivity.
  - destruct bodies as [|b1 [|b2 [|b3 bodies]]]; cbn in Hlen; try lia. reflexivity.
Qed.

End CollectFacts.

(** C6 (as amended): whatever the test directory holds, in round [i]
    [collect_prior_tests_text] takes the files whose name does not end
    with the suffix [{i:02d}.py] of the round, in the order of the
    listing, each under the header comment ["# " + name + "\n"].  Whole
    texts are kept as long as their cumulative character count stays
    within 6000; the first text that would exceed it is cut to the
    characters that remain and followed by the marker
    ["\n# ... (truncated)\n"] when more than 200 characters remain, and
    is left out otherwise; nothing follows it.  The texts are joined by
    a blank line; without any the result is "None".  When all texts fit
    the budget, all are included whole.  In the rounds 1 to 3 of a run
    that started with an empty directory, the files taken are those of
    the earlier rounds. *)
Theorem collect_prior_tests_text_budget (i : Z) (files : list (string * string)) :
  let others :=
    filter (fun f => endswith (fst f) (convergence.fmt_02d i +:+ ".py") = false)
      files in
  let ts := map (fun f => "# " +:+ fst f +:+ nl +:+ snd f) others in
  let result := convergence.collect_prior_tests_text i files in
  (exists kept rest : list string,
      ts = kept ++ rest
      /\ convergence.total_len kept <= 6000
      /\ match rest with
         | [] =>
             result = match kept with
                      | [] => "None"
                      | _ => py_join (nl +:+ nl) kept
                      end
         | t :: _ =>
             6000 < convergence.total_len kept + len t
             /\ let remaining := 6000 - convergence.total_len kept in
                result
                = if 200 <? remaining
                  then py_join (nl +:+ nl)
                         (kept ++ [substring 0 (Z.to_nat remaining) t +:+ nl
                                   +:+ "# ... (truncated)" +:+ nl])
                  else match kept with
                       | [] => "None"
                       | _ => py_join (nl +:+ nl) kept
                       end
         end)
  /\ (others = [] -> result = "None")
  /\ (others <> [] -> convergence.total_len ts <= 6000 ->
      result = py_join (nl +:+ nl) ts)
  /\ (forall bodies : list string,
      1 <= i <= convergence.ITERATIONS ->
      Z.of_nat (length bodies) = i - 1 ->
      files = convergence.earlier_files bodies ->
      others = files).
Proof.
  intros others ts result.
  assert (Hresult : result = convergence.prior_tests_spec ts).
  { subst result ts others. apply CollectFacts.collect_prior_tests_text_spec. }
  assert (Hsplit : exists kept rest : list string,
      convergence.whole_prefix 6000 ts = (kept, rest)
      /\ ts = kept ++ rest
      /\ convergence.total_len kept <= 6000
      /\ match rest with
         | [] => True
         | t :: _ => 6000 < convergence.total_len kept + len t
         end).
  { destruct (convergence.whole_prefix 6000 ts) as [kept rest] eqn:E.
    exists kept, rest. split; [reflexivity|].
    apply (CollectFacts.whole_prefix_spec ts 6000 kept rest); [lia | exact E]. }
  destruct Hsplit as (kept & rest & Hwhole & Hts & Hkept & Hrest).
  assert (Hspec : convergence.prior_tests_spec ts
                  = match kept ++ match rest with
                                  | [] => []
                                  | t :: _ =>
                                      if 200 <? 6000 - convergence.total_len kept
                                      then [convergence.truncated t
                                              (6000 - convergence.total_len kept)]
                                      else []
                                  end with
                    | [] => "None"
                    | texts => py_join (nl +:+ nl) texts
                    end).
  { unfold convergence.prior_tests_spec, convergence.prior_texts_spec.
    change convergence.PRIOR_TESTS_CHAR_BUDGET with 6000. rewrite Hwhole.
    reflexivity. }
  split; [|split; [|split]].
  - exists kept, rest. split; [exact Hts|]. split; [exact Hkept|].
    rewrite Hresult, Hspec. destruct rest as [|t rest'].
    + rewrite app_nil_r. destruct kept; reflexivity.
    + split; [exact Hrest|]. cbv zeta.
      destruct (200 <? 6000 - convergence.total_len kept).
      * unfold convergence.truncated. destruct kept; reflexivity.
      * rewrite app_nil_r. destruct kept; reflexivity.
  - intros Hnone. rewrite Hresult. subst ts. rewrite Hnone. reflexivity.
  - intros Hsome Hfit. rewrite Hresult, Hspec.
    assert (Hrest_nil : rest = []).
    { destruct rest as [|t rest']; [reflexivity|]. exfalso.
      pose proof (f_equal convergence.total_len Hts) as Htot.
      rewrite CollectFacts.total_len_app in Htot. cbn in Htot.
      fold (convergence.total_len rest') in Htot.
      pose proof (CollectFacts.total_len_nonneg rest'). lia. }
    rewrite Hrest_nil in *. rewrite app_nil_r in *. rewrite <- Hts.
    destruct ts as [|t ts'] eqn:Ets; [|reflexivity].
    exfalso. apply Hsome. subst ts. destruct others; [reflexivity | discriminate].
  - intros bodies Hi Hlen ->. subst others.
    apply CollectFacts.earlier_files_kept; assumption.
Qed.

(** Round 2 with one earlier test file of 1500 characters: the file is
    shown whole under its header comment, without a truncation marker. *)
Lemma collect_prior_tests_text_budget_witness :
  convergence.collect_prior_tests_text 2
    [("test_humaneval_106_llm_iter_01.py", Samples.body_1500)]
  = "# test_humaneval_106_llm_iter_01.py" +:+ nl +:+ Samples.body_1500.
Proof.
  refine (proj1 (proj2 (proj2
            (collect_prior_tests_text_budget 2
               [("test_humaneval_106_llm_iter_01.py", Samples.body_1500)]))) _ _).
  - vm_compute. discriminate.
  - vm_compute. discriminate.
Defined.

(** C6 fails as stated: in round 1, which has no earlier round, a file
    that an earlier run left for round 2 is read, and the text is not
    "None". *)
Lemma later_round_file_is_read :
  convergence.collect_prior_tests_text 1
    [("test_humaneval_106_llm_iter_02.py", "assert f(2) == 2")]
  = "# test_humaneval_106_llm_iter_02.py" +:+ nl +:+ "assert f(2) == 2"
  /\ convergence.collect_prior_tests_text 1
       [("test_humaneval_106_llm_iter_02.py", "assert f(2) == 2")] <> "None".
Proof. split; [vm_compute; reflexivity | vm_compute; discriminate]. Qed.

(** ** Assertion rewriting *)

Module RewriteFacts.
Import Ast run_humaneval_openai.

(** Induction over statements and the statements of their blocks. *)
Lemma stmt_nested_ind (P : stmt -> Prop) :
  (forall test msg lineno, P (Assert test msg lineno)) ->
  (forall value, P (Expr value)) ->
  (forall target value, P (Assign target value)) ->
  (forall value, P (Return value)) ->
  P Pass ->
  (forall test body orelse, Forall P body -> Forall P orelse -> P (If test body orelse)) ->
  (forall target iter body orelse,
      Forall P body -> Forall P orelse -> P (For target iter body orelse)) ->
  (forall test body orelse,
      Forall P body -> Forall P orelse -> P (While test body orelse)) ->
  (forall name args body, Forall P body -> P (FunctionDef name args body)) ->
  forall s, P s.
Proof.
  intros HAssert HExpr HAssign HReturn HPass HIf HFor HWhile HDef.
  fix IH 1. intros s.
  assert (all : forall ss : list stmt, Forall P ss).
  { fix IHss 1. intros [|x ss]; constructor; [apply IH | apply IHss]. }
  destruct s.
  - apply HAssert.
  - apply HExpr.
  - apply HAssign.
  - apply HReturn.
  - apply HPass.
  - apply HIf; apply all.
  - apply HFor; apply all.
  - apply HWhile; apply all.
  - apply HDef; apply all.
Qed.

Lemma recorder_block_no_asserts (ss : list stmt) :
  Forall (fun s => count_asserts (_AssertRecorder s) = O) ss ->
  count_asserts_block (map _AssertRecorder ss) = O.
Proof.
  induction 1 as [|s ss Hs _ IH]; cbn; [reflexivity|].
  rewrite Hs, IH. reflexivity.
Qed.

(** No assertion is left in a rewritten statement, at any depth. *)
Lemma recorder_no_asserts (s : stmt) : count_asserts (_AssertRecorder s) = O.
Proof.
  induction s as [test msg lineno | | | | | test body orelse Hb Ho
                 | target iter body orelse Hb Ho | test body orelse Hb Ho
                 | name args body Hb] using stmt_nested_ind;
    try reflexivity.
  - change (count_asserts_block (map _AssertRecorder body)
            + count_asserts_block (map _AssertRecorder orelse) = 0)%nat.
    rewrite !recorder_block_no_asserts by assumption. reflexivity.
  - change (count_asserts_block (map _AssertRecorder body)
            + count_asserts_block (map _AssertRecorder orelse) = 0)%nat.
    rewrite !recorder_block_no_asserts by assumption. reflexivity.
  - change (count_asserts_block (map _AssertRecorder body)
            + count_asserts_block (map _AssertRecorder orelse) = 0)%nat.
    rewrite !recorder_block_no_asserts by assumption. reflexivity.
  - change (count_asserts_block (map _AssertRecorder body) = 0)%nat.
    apply recorder_block_no_asserts. assumption.
Qed.

Lemma recorder_block_hook_calls (ss : list stmt) :
  Forall (fun s => hook_calls s = [] ->
                   hook_calls (_AssertRecorder s) = map recorded_args (asserts_of s)) ss ->
  hook_calls_block ss = [] ->
  hook_calls_block (map _AssertRecorder ss) = map recorded_args (asserts_of_block ss).
Proof.
  induction 1 as [|s ss Hs _ IH]; cbn; [reflexivity|].
  intros Hnil. apply app_eq_nil in Hnil as [H1 H2].
  rewrite map_app, Hs, IH by assumption. reflexivity.
Qed.

(** In a statement without calls of the hook, the calls of the hook in
    the rewritten statement are those made for its assertions. *)
Lemma recorder_hook_calls (s : stmt) :
  hook_calls s = [] ->
  hook_calls (_AssertRecorder s) = map recorded_args (asserts_of s).
Proof.
  induction s as [test msg lineno | | | | | test body orelse Hb Ho
                 | target iter body orelse Hb Ho | test body orelse Hb Ho
                 | name args body Hb] using stmt_nested_ind;
    try (intros H; exact H).
  - intros _. destruct msg; reflexivity.
  - intros H.
    change (hook_calls_block body ++ hook_calls_block orelse = []) in H.
    apply app_eq_nil in H as [H1 H2].
    change (hook_calls_block (map _AssertRecorder body)
            ++ hook_calls_block (map _AssertRecorder orelse)
            = map recorded_args (asserts_of_block body ++ asserts_of_block orelse)).
    rewrite map_app, !recorder_block_hook_calls by assumption. reflexivity.
  - intros H.
    change (hook_calls_block body ++ hook_calls_block orelse = []) in H.
    apply app_eq_nil in H as [H1 H2].
    change (hook_calls_block (map _AssertRecorder body)
            ++ hook_calls_block (map _AssertRecorder orelse)
            = map recorded_args (asserts_of_block body ++ asserts_of_block orelse)).
    rewrite map_app, !recorder_block_hook_calls by assumption. reflexivity.
  - intros H.
    change (hook_calls_block body ++ hook_calls_block orelse = []) in H.
    apply app_eq_nil in H as [H1 H2].
    change (hook_calls_block (map _AssertRecorder body)
            ++ hook_calls_block (map _AssertRecorder orelse)
            = map recorded_args (asserts_of_block body ++ asserts_of_block orelse)).
    rewrite map_app, !recorder_block_hook_calls by assumption. reflexivity.
  - intros H. change (hook_calls_block body = []) in H.
    change (hook_calls_block (map _AssertRecorder body)
            = map recorded_args (asserts_of_block body)).
    apply recorder_block_hook_calls; assumption.
Qed.

Lemma asserts_of_length (s : stmt) : length (asserts_of s) = count_asserts s.
Proof.
  assert (block : forall ss, Forall (fun s => length (asserts_of s) = count_asserts s) ss ->
                             length (asserts_of_block ss) = count_asserts_block ss).
  { induction 1 as [|x ss Hx _ IH]; cbn; [reflexivity|].
    rewrite length_app, Hx, IH. reflexivity. }
  induction s as [test msg lineno | | | | | test body orelse Hb Ho
                 | target iter body orelse Hb Ho | test body orelse Hb Ho
                 | name args body Hb] using stmt_nested_ind;
    try reflexivity.
  - change (length (asserts_of_block body ++ asserts_of_block orelse)
            = (count_asserts_block body + count_asserts_block orelse)%nat).
    rewrite length_app, !block by assumption. reflexivity.
  - change (length (asserts_of_block body ++ asserts_of_block orelse)
            = (count_asserts_block body + count_asserts_block orelse)%nat).
    rewrite length_app, !block by assumption. reflexivity.
  - change (length (asserts_of_block body ++ asserts_of_block orelse)
            = (count_asserts_block body + count_asserts_block orelse)%nat).
    rewrite length_app, !block by assumption. reflexivity.
  - change (length (asserts_of_block body) = count_asserts_block body).
    apply block. assumption.
Qed.

(** The statements standing directly in a rewritten block. *)
Lemma recorder_direct (ss : list stmt) :
  direct_hook_calls ss = [] ->
  direct_asserts (map _AssertRecorder ss) = []
  /\ direct_hook_calls (map _AssertRecorder ss) = map recorded_args (direct_asserts ss).
Proof.
  unfold direct_asserts, direct_hook_calls.
  induction ss as [|s ss IH]; [intros _; split; reflexivity|].
  cbn [omap map list_omap]. intros H.
  destruct s as [test msg lineno | value | | | | | | | ].
  - cbn in H. destruct (IH H) as [IH1 IH2]. cbn. rewrite IH1, IH2.
    split; [reflexivity | destruct msg; reflexivity].
  - cbn [_AssertRecorder]. destruct (hook_call_args (Expr value)) eqn:E.
    + discriminate H.
    + destruct (IH H) as [IH1 IH2]. cbn [mbind option_bind]. rewrite IH1, IH2.
      split; reflexivity.
  - destruct (IH H) as [IH1 IH2]. cbn. rewrite IH1, IH2. split; reflexivity.
  - destruct (IH H) as [IH1 IH2]. cbn. rewrite IH1, IH2. split; reflexivity.
  - destruct (IH H) as [IH1 IH2]. cbn. rewrite IH1, IH2. split; reflexivity.
  - destruct (IH H) as [IH1 IH2]. cbn. rewrite IH1, IH2. split; reflexivity.
  - destruct (IH H) as [IH1 IH2]. cbn. rewrite IH1, IH2. split; reflexivity.
  - destruct (IH H) as [IH1 IH2]. cbn. rewrite IH1, IH2. split; reflexivity.
  - destruct (IH H) as [IH1 IH2]. cbn. rewrite IH1, IH2. split; reflexivity.
Qed.

(** Every assertion adds one call of the hook to those already there. *)
Lemma recorder_hook_count (s : stmt) :
  length (hook_calls (_AssertRecorder s))
  = (count_asserts s + length (hook_calls s))%nat.
Proof.
  assert (block : forall ss,
             Forall (fun s => length (hook_calls (_AssertRecorder s))
                              = (count_asserts s + length (hook_calls s))%nat) ss ->
             length (hook_calls_block (map _AssertRecorder ss))
             = (count_asserts_block ss + length (hook_calls_block ss))%nat).
  { induction 1 as [|x ss Hx _ IH]; cbn; [reflexivity|].
    rewrite !length_app, Hx, IH. lia. }
  induction s as [test msg lineno | | | | | test body orelse Hb Ho
                 | target iter body orelse Hb Ho | test body orelse Hb Ho
                 | name args body Hb] using stmt_nested_ind;
    try reflexivity.
  - change (length (hook_calls_block (map _AssertRecorder body)
                    ++ hook_calls_block (map _AssertRecorder orelse))
            = (count_asserts_block body + count_asserts_block orelse
               + length (hook_calls_block body ++ hook_calls_block orelse))%nat).
    rewrite !length_app, !block by assumption. lia.
  - change (length (hook_calls_block (map _AssertRecorder body)
                    ++ hook_calls_block (map _AssertRecorder orelse))
            = (count_asserts_block body + count_asserts_block orelse
               + length (hook_calls_block body ++ hook_calls_block orelse))%nat).
    rewrite !length_app, !block by assumption. lia.
  - change (length (hook_calls_block (map _AssertRecorder body)
                    ++ hook_calls_block (map _AssertRecorder orelse))
            = (count_asserts_block body + count_asserts_block orelse
               + length (hook_calls_block body ++ hook_calls_block orelse))%nat).
    rewrite !length_app, !block by assumption. lia.
  - change (length (hook_calls_block (map _AssertRecorder body))
            = (count_asserts_block body + length (hook_calls_block body))%nat).
    apply block. assumption.
Qed.

(** Every assertion that stands directly in a block adds one call of
    the hook to those that stand there. *)
Lemma recorder_direct_count (ss : list stmt) :
  length (direct_hook_calls (map _AssertRecorder ss))
  = (length (direct_asserts ss) + length (direct_hook_calls ss))%nat.
Proof.
  unfold direct_asserts, direct_hook_calls.
  induction ss as [|s ss IH]; [reflexivity|].
  cbn [omap map list_omap].
  destruct s as [test msg lineno | value | | | | | | | ];
    try (cbn; exact IH).
  - cbn. rewrite IH. reflexivity.
  - cbn [_AssertRecorder]. destruct (hook_call_args (Expr value)); cbn;
      rewrite IH; lia.
Qed.

Lemma recorder_direct_asserts (ss : list stmt) :
  direct_asserts (map _AssertRecorder ss) = [].
Proof.
  unfold direct_asserts.
  induction ss as [|s ss IH]; [reflexivity|].
  cbn [omap map list_omap]. rewrite IH. destruct s; reflexivity.
Qed.

Lemma no_hook_calls_direct (ss : list stmt) :
  hook_calls_block ss = [] -> direct_hook_calls ss = [].
Proof.
  unfold direct_hook_calls.
  induction ss as [|s ss IH]; [reflexivity|].
  cbn [hook_calls_block omap list_omap]. intros H.
  apply app_eq_nil in H as [H1 H2].
  destruct (hook_call_args s) as [a|] eqn:E.
  - exfalso. destruct s; try discriminate E.
    cbn [hook_calls] in H1. rewrite E in H1. discriminate H1.
  - apply IH. exact H2.
Qed.

Lemma is_check_spec (name : string) (args : list string) :
  is_check name args = true <-> name = "check" /\ In "candidate" args.
Proof.
  unfold is_check. rewrite andb_true_iff, String.eqb_eq, existsb_exists.
  split.
  - intros [-> (x & Hin & Hx)]. apply String.eqb_eq in Hx. subst x. auto.
  - intros [-> Hin]. split; [reflexivity|].
    exists "candidate". split; [exact Hin | reflexivity].
Qed.

End RewriteFacts.




(** ** Rewriting twice *)

Module RewriteTwiceFacts.
Import Ast run_humaneval_openai.

Lemma count_asserts_block_app_zero (ss : list stmt) :
  count_asserts_block ss = O -> Forall (fun s => count_asserts s = O) ss.
Proof.
  induction ss as [|s ss IH]; cbn; [constructor|].
  intros H. constructor; [lia | apply IH; lia].
Qed.

Lemma map_fixed {A} (f : A -> A) (l : list A) :
  Forall (fun x => f x = x) l -> map f l = l.
Proof. induction 1 as [|x l Hx _ IH]; cbn; [reflexivity | rewrite Hx, IH; reflexivity]. Qed.

Lemma Forall_imp_zero (P : stmt -> Prop) (ss : list stmt) :
  Forall (fun s => count_asserts s = O -> P s) ss ->
  count_asserts_block ss = O -> Forall P ss.
Proof.
  intros Himp Hzero. apply count_asserts_block_app_zero in Hzero.
  induction Himp as [|s ss Hs _ IH]; [constructor|].
  inversion Hzero; subst. constructor; auto.
Qed.

(** A statement without assertions is left as it is by the recorder. *)
Lemma recorder_fixed (s : stmt) : count_asserts s = O -> _AssertRecorder s = s.
Proof.
  induction s as [test msg lineno | | | | | test body orelse Hb Ho
                 | target iter body orelse Hb Ho | test body orelse Hb Ho
                 | name args body Hb] using RewriteFacts.stmt_nested_ind;
    try reflexivity.
  - discriminate.
  - intros H.
    change (count_asserts_block body + count_asserts_block orelse = 0)%nat in H.
    cbn [_AssertRecorder].
    rewrite (map_fixed _ body), (map_fixed _ orelse);
      [reflexivity | apply Forall_imp_zero; [assumption | lia] ..].
  - intros H.
    change (count_asserts_block body + count_asserts_block orelse = 0)%nat in H.
    cbn [_AssertRecorder].
    rewrite (map_fixed _ body), (map_fixed _ orelse);
      [reflexivity | apply Forall_imp_zero; [assumption | lia] ..].
  - intros H.
    change (count_asserts_block body + count_asserts_block orelse = 0)%nat in H.
    cbn [_AssertRecorder].
    rewrite (map_fixed _ body), (map_fixed _ orelse);
      [reflexivity | apply Forall_imp_zero; [assumption | lia] ..].
  - intros H. change (count_asserts_block body = 0)%nat in H.
    cbn [_AssertRecorder].
    rewrite (map_fixed _ body); [reflexivity | apply Forall_imp_zero; assumption].
Qed.

(** A statement without assertions is left as it is by the rewriting. *)
Lemma check_only_fixed (s : stmt) : count_asserts s = O -> _CheckOnly s = s.
Proof.
  induction s as [test msg lineno | | | | | test body orelse Hb Ho
                 | target iter body orelse Hb Ho | test body orelse Hb Ho
                 | name args body Hb] using RewriteFacts.stmt_nested_ind;
    try reflexivity.
  - intros H.
    change (count_asserts_block body + count_asserts_block orelse = 0)%nat in H.
    cbn [_CheckOnly].
    rewrite (map_fixed _ body), (map_fixed _ orelse);
      [reflexivity | apply Forall_imp_zero; [assumption | lia] ..].
  - intros H.
    change (count_asserts_block body + count_asserts_block orelse = 0)%nat in H.
    cbn [_CheckOnly].
    rewrite (map_fixed _ body), (map_fixed _ orelse);
      [reflexivity | apply Forall_imp_zero; [assumption | lia] ..].
  - intros H.
    change (count_asserts_block body + count_asserts_block orelse = 0)%nat in H.
    cbn [_CheckOnly].
    rewrite (map_fixed _ body), (map_fixed _ orelse);
      [reflexivity | apply Forall_imp_zero; [assumption | lia] ..].
  - intros H. cbn [_CheckOnly]. destruct (is_check name args); [|reflexivity].
    apply recorder_fixed. exact H.
Qed.

Lemma check_only_twice (s : stmt) : _CheckOnly (_CheckOnly s) = _CheckOnly s.
Proof.
  induction s as [test msg lineno | | | | | test body orelse Hb Ho
                 | target iter body orelse Hb Ho | test body orelse Hb Ho
                 | name args body Hb] using RewriteFacts.stmt_nested_ind;
    try reflexivity.
  - cbn [_CheckOnly]. rewrite !map_map. f_equal; apply map_ext_Forall; assumption.
  - cbn [_CheckOnly]. rewrite !map_map. f_equal; apply map_ext_Forall; assumption.
  - cbn [_CheckOnly]. rewrite !map_map. f_equal; apply map_ext_Forall; assumption.
  - cbn [_CheckOnly]. destruct (is_check name args) eqn:E; cbn [_AssertRecorder _CheckOnly];
      rewrite E; [|reflexivity].
    change (_AssertRecorder (_AssertRecorder (FunctionDef name args body))
            = _AssertRecorder (FunctionDef name args body)).
    apply recorder_fixed. apply RewriteFacts.recorder_no_asserts.
Qed.

End RewriteTwiceFacts.

(** ** Instrumented execution *)

Module RunFacts.
Import Ast Interp run_humaneval_openai.

(** The counts of any list of records. *)
Lemma tally_counts (recs : list record) :
  let '(total, passed, failed, failures_detail) := tally recs in
  total = Z.of_nat (length recs)
  /\ passed + failed = total
  /\ failed = Z.of_nat (length failures_detail)
  /\ failures_detail = List.filter (fun '(_, ok, _) => negb ok) recs.
Proof.
  unfold tally, count. repeat split.
  - f_equal. f_equal. induction recs as [|[[ln ok] msg] recs IH]; cbn; [reflexivity|].
    rewrite IH. reflexivity.
  - induction recs as [|[[ln ok] msg] recs IH]; cbn; [reflexivity|].
    unfold isinstance_bool in *. cbn in *. destruct ok; cbn; lia.
Qed.

(** One more failing record adds one to [total] and one to [failed]. *)
Lemma tally_snoc_failure (recs : list record) (ln : value) (msg : option string) :
  let '(total, passed, failed, _) := tally recs in
  let '(total', passed', failed', failures_detail') :=
    tally (recs ++ [(ln, false, msg)]) in
  total' = total + 1 /\ passed' = passed /\ failed' = failed + 1
  /\ last failures_detail' = Some (ln, false, msg).
Proof.
  unfold tally, count. rewrite !List.filter_app, !length_app. cbn.
  repeat split; try lia. rewrite last_snoc. reflexivity.
Qed.

End RunFacts.

(** C8: when the rewritten test module has run and the namespace holds
    no [check], or holds under that name something that is not a
    function, the executor returns [total = 0], [passed = 0],
    [failed = 1] and the single record that says that [check] is
    missing. *)
Theorem missing_check_result
    (extern_call : string -> list Interp.value -> outcome Interp.exn Interp.value)
    (builtins : string -> option Interp.value)
    (repr_text : Interp.value -> string)
    (error_text : Interp.interp_error -> string)
    (fuel : nat) (candidate_func : Interp.value) (test_code : Ast.parsed)
    (env : Interp.state) :
  run_humaneval_openai.load_test_module extern_call builtins repr_text error_text
    fuel test_code = (env, Ok tt) ->
  (Interp.globals env !! "check" = None
   \/ exists v, Interp.globals env !! "check" = Some v
                /\ run_humaneval_openai.isinstance_FunctionType v = Some false) ->
  run_humaneval_openai.run_check_and_count_asserts extern_call builtins repr_text
    error_text fuel candidate_func test_code
  = Ok (0, 0, 1, [(Interp.VInt 0, false, Some "Missing check(candidate) in test")]).
Proof.
  intros Hload Hcheck. unfold run_humaneval_openai.run_check_and_count_asserts.
  rewrite Hload. destruct Hcheck as [Hnone | (v & Hsome & Hnot)].
  - rewrite Hnone. reflexivity.
  - rewrite Hsome, Hnot. reflexivity.
Qed.

(** A test module with a helper routine only. *)
Lemma missing_check_result_witness :
  Samples.run_check 5 (Interp.VExtern "identity") (Ast.Module Samples.no_check_tree)
  = Ok (0, 0, 1, [(Interp.VInt 0, false, Some "Missing check(candidate) in test")]).
Proof.
  refine (missing_check_result Samples.extern_call Samples.builtins
            Samples.repr_text Samples.error_text 5 (Interp.VExtern "identity")
            (Ast.Module Samples.no_check_tree)
            {| Interp.globals :=
                 <["helper" := Interp.VFunction "helper" ["x"]
                                 [Ast.Assert (Ast.Name "x") None 7]]>
                   {["__rec" := Interp.VHook]};
               Interp.scope := None; Interp.records := [] |} _ _).
  - vm_compute. reflexivity.
  - left. vm_compute. reflexivity.
Defined.

(** C4 (as amended): when the executor reaches the call of [check] and
    [check] returns, or raises an exception that is an instance of
    [Exception], the counts it returns satisfy
    [passed + failed = total], where [total] is the number of all
    records, [failed] the number of failing records listed; the record
    appended when [check] raises is one of them: it is counted in
    [total] and in [failed].  When the test module cannot be loaded
    because of such an exception the executor returns [total = 0],
    [passed = 0] and [failed = 1].  An exception that is not an
    instance of [Exception] is not caught: it leaves the executor. *)
Theorem counts_of_a_run
    (extern_call : string -> list Interp.value -> outcome Interp.exn Interp.value)
    (builtins : string -> option Interp.value)
    (repr_text : Interp.value -> string)
    (error_text : Interp.interp_error -> string)
    (fuel : nat) (candidate_func : Interp.value) (test_code : Ast.parsed) :
  let run :=
    run_humaneval_openai.run_check_and_count_asserts extern_call builtins
      repr_text error_text fuel candidate_func test_code in
  let load :=
    run_humaneval_openai.load_test_module extern_call builtins repr_text
      error_text fuel test_code in
  (forall env e, load = (env, Raise e) ->
     (Interp.is_Exception e = true ->
      exists text, run = Ok (0, 0, 1, [(Interp.VInt 0, false, Some text)]))
     /\ (Interp.is_Exception e = false -> run = Raise e))
  /\ (forall env check,
        load = (env, Ok tt) ->
        Interp.globals env !! "check" = Some check ->
        run_humaneval_openai.isinstance_FunctionType check = Some true ->
        let called :=
          Interp.call extern_call builtins repr_text error_text fuel check
            [candidate_func] env in
        (forall env' v, called = (env', Ok v) ->
           exists total passed failed failures_detail,
             run = Ok (total, passed, failed, failures_detail)
             /\ passed + failed = total
             /\ total = Z.of_nat (length (Interp.records env'))
             /\ failed = Z.of_nat (length failures_detail))
        /\ (forall env' e, called = (env', Raise e) ->
              (Interp.is_Exception e = true ->
               exists total passed failed failures_detail text,
                 run = Ok (total, passed, failed, failures_detail)
                 /\ passed + failed = total
                 /\ total = Z.of_nat (length (Interp.records env')) + 1
                 /\ failed = Z.of_nat (length failures_detail)
                 /\ last failures_detail = Some (Interp.VInt 0, false, Some text))
              /\ (Interp.is_Exception e = false -> run = Raise e))).
Proof.
  intros run load. subst run load.
  unfold run_humaneval_openai.run_check_and_count_asserts. split.
  - intros env e ->. split; intros ->; eauto.
  - intros env check -> -> ->. cbv zeta. split.
    + intros env' v ->.
      pose proof (RunFacts.tally_counts (Interp.records env')) as H.
      destruct (run_humaneval_openai.tally (Interp.records env'))
        as [[[total passed] failed] detail].
      destruct H as (Ht & Hs & Hf & _).
      exists total, passed, failed, detail. auto.
    + intros env' e ->. split; intros ->; [|reflexivity].
      set (text := "Runtime error: " +:+ Interp.exn_type e +:+ ": "
                   +:+ Interp.exn_text e).
      pose proof (RunFacts.tally_counts
                    (Interp.records env' ++ [(Interp.VInt 0, false, Some text)])) as H.
      pose proof (RunFacts.tally_snoc_failure (Interp.records env')
                    (Interp.VInt 0) (Some text)) as H'.
      pose proof (RunFacts.tally_counts (Interp.records env')) as H0.
      destruct (run_humaneval_openai.tally (Interp.records env'))
        as [[[total0 passed0] failed0] detail0].
      destruct (run_humaneval_openai.tally
                  (Interp.records env' ++ [(Interp.VInt 0, false, Some text)]))
        as [[[total passed] failed] detail].
      destruct H as (Ht & Hs & Hf & _). destruct H' as (Ht' & _ & _ & Hlast).
      destruct H0 as (Ht0 & _).
      exists total, passed, failed, detail, text.
      repeat split; try assumption. lia.
Qed.

(** A candidate that raises a [ValueError] under a [check] of five
    assertions, a test module that fails while it is loaded, and a
    candidate that calls [sys.exit]. *)
Lemma counts_of_a_run_witness :
  (exists total passed failed failures_detail text,
      Samples.run_check 10 (Interp.VExtern "broken") (Ast.Module Samples.five_tree)
      = Ok (total, passed, failed, failures_detail)
      /\ passed + failed = total
      /\ total = 0 + 1
      /\ failed = Z.of_nat (length failures_detail)
      /\ last failures_detail = Some (Interp.VInt 0, false, Some text))
  /\ (exists text,
      Samples.run_check 10 (Interp.VExtern "identity")
        (Ast.Module Samples.failing_tree)
      = Ok (0, 0, 1, [(Interp.VInt 0, false, Some text)]))
  /\ Samples.run_check 10 (Interp.VExtern "quitting") (Ast.Module Samples.five_tree)
     = Raise {| Interp.exn_type := "SystemExit"; Interp.exn_text := "1";
                Interp.is_Exception := false |}.
Proof.
  pose proof (counts_of_a_run Samples.extern_call Samples.builtins
                Samples.repr_text Samples.error_text 10) as H.
  split; [|split].
  - destruct (H (Interp.VExtern "broken") (Ast.Module Samples.five_tree))
      as [_ Hcall].
    refine (proj1 (proj2 (Hcall Samples.five_env _ _ _ _) Samples.five_env
              {| Interp.exn_type := "ValueError"; Interp.exn_text := "broken";
                 Interp.is_Exception := true |} _) _).
    + vm_compute. reflexivity.
    + vm_compute. reflexivity.
    + reflexivity.
    + vm_compute. reflexivity.
    + reflexivity.
  - destruct (H (Interp.VExtern "identity") (Ast.Module Samples.failing_tree))
      as [Hload _].
    apply (Hload run_humaneval_openai.initial_state
             {| Interp.exn_type := "AssertionError"; Interp.exn_text := "boom";
                Interp.is_Exception := true |}).
    + vm_compute. reflexivity.
    + reflexivity.
  - destruct (H (Interp.VExtern "quitting") (Ast.Module Samples.five_tree))
      as [_ Hcall].
    refine (proj2 (proj2 (Hcall Samples.five_env _ _ _ _) Samples.five_env
              {| Interp.exn_type := "SystemExit"; Interp.exn_text := "1";
                 Interp.is_Exception := false |} _) _).
    + vm_compute. reflexivity.
    + vm_compute. reflexivity.
    + reflexivity.
    + vm_compute. reflexivity.
    + reflexivity.
Defined.

(** C4 fails as stated: a test module that cannot be loaded gives
    [passed + failed = 1] and [total = 0]; and the record made for a
    candidate that raises is counted in [total]. *)
Lemma counts_with_error_records :
  Samples.run_check 10 (Interp.VExtern "identity") (Ast.Module Samples.failing_tree)
  = Ok (0, 0, 1,
        [(Interp.VInt 0, false, Some "Test import error: AssertionError: boom")])
  /\ 0 + 1 <> 0
  /\ Samples.run_check 10 (Interp.VExtern "broken") (Ast.Module Samples.five_tree)
     = Ok (1, 0, 1,
           [(Interp.VInt 0, false, Some "Runtime error: ValueError: broken")]).
Proof.
  split; [vm_compute; reflexivity|].
  split; [lia | vm_compute; reflexivity].
Qed.

(** ** Assertions that run once *)

Module OnceFacts.
Import Ast Interp run_humaneval_openai.

Lemma bind_Ok {A B} (m : M A) (k : A -> M B) (s s' : state) (a : A) :
  m s = (s', Ok a) -> bind m k s = k a s'.
Proof. intros H. unfold bind. rewrite H. reflexivity. Qed.

(** The blocks of a compound statement are counted as blocks. *)
Lemma count_block (ss : list stmt) :
  (fix block (ss : list stmt) : nat :=
     match ss with
     | [] => O
     | s :: ss' => (count_asserts s + block ss')%nat
     end) ss = count_asserts_block ss.
Proof. induction ss as [|s ss IH]; [reflexivity|]. cbn. rewrite IH. reflexivity. Qed.

Lemma asserts_block (ss : list stmt) :
  (fix block (ss : list stmt) :=
     match ss with
     | [] => []
     | s :: ss' => asserts_of s ++ block ss'
     end) ss = asserts_of_block ss.
Proof. induction ss as [|s ss IH]; [reflexivity|]. cbn. rewrite IH. reflexivity. Qed.

Lemma asserts_of_block_length (ss : list stmt) :
  length (asserts_of_block ss) = count_asserts_block ss.
Proof.
  induction ss as [|s ss IH]; [reflexivity|].
  cbn. rewrite length_app, RewriteFacts.asserts_of_length, IH. reflexivity.
Qed.

Lemma no_asserts (s : stmt) : count_asserts s = O -> asserts_of s = [].
Proof.
  intros H. apply length_zero_iff_nil. rewrite RewriteFacts.asserts_of_length.
  exact H.
Qed.

Lemma no_asserts_block (ss : list stmt) :
  count_asserts_block ss = O -> asserts_of_block ss = [].
Proof.
  intros H. apply length_zero_iff_nil. rewrite asserts_of_block_length. exact H.
Qed.

Section host.
Variable extern_call : string -> list value -> outcome exn value.
Variable builtins : string -> option value.
Variable repr_text : value -> string.
Variable error_text : interp_error -> string.

#[local] Abbreviation eval_expr' := (eval_expr extern_call builtins repr_text error_text).
#[local] Abbreviation exec_stmt' := (exec_stmt extern_call builtins repr_text error_text).
#[local] Abbreviation exec_block' := (exec_block extern_call builtins repr_text error_text).
#[local] Abbreviation run_block' := (run_block extern_call builtins repr_text error_text).
#[local] Abbreviation eval_list' := (eval_list extern_call builtins repr_text error_text).
#[local] Abbreviation call' := (call extern_call builtins repr_text error_text).

Lemma eval_Name (m : nat) (id : string) :
  eval_expr' (S m) (Name id) = lookup_name builtins error_text id.
Proof. reflexivity. Qed.

Lemma eval_Call (m : nat) (func : expr) (args : list expr) :
  eval_expr' (S m) (Call func args)
  = (f <~ eval_expr' m func ;; vs <~ eval_list' m args ;; call' m f vs).
Proof. reflexivity. Qed.

Lemma eval_list_cons (m : nat) (e : expr) (es : list expr) :
  eval_list' m (e :: es)
  = (v <~ eval_expr' m e ;; vs <~ eval_list' m es ;; ret (v :: vs)).
Proof. reflexivity. Qed.

Lemma exec_Expr (m : nat) (e : expr) :
  exec_stmt' (S m) (Expr e) = (_ <~ eval_expr' m e ;; ret None).
Proof. reflexivity. Qed.

Lemma exec_If (m : nat) (test : expr) (body orelse : list stmt) :
  exec_stmt' (S m) (If test body orelse)
  = (v <~ eval_expr' m test ;;
     if truthy v then exec_block' m body else exec_block' m orelse).
Proof. reflexivity. Qed.

Lemma exec_For (m : nat) (target : string) (iter : expr) (body orelse : list stmt) :
  exec_stmt' (S m) (For target iter body orelse)
  = (it <~ eval_expr' m iter ;;
     match items it with
     | None => raise error_text "TypeError" (NotIterable it)
     | Some xs =>
         (fix loop (xs : list value) : M (option value) :=
            match xs with
            | [] => exec_block' m orelse
            | x :: xs' =>
                _ <~ assign target x ;;
                r <~ exec_block' m body ;;
                match r with
                | Some v => ret (Some v)
                | None => loop xs'
                end
            end) xs
     end).
Proof. reflexivity. Qed.

Lemma exec_While (m : nat) (test : expr) (body orelse : list stmt) :
  exec_stmt' (S m) (While test body orelse)
  = (v <~ eval_expr' m test ;;
     if truthy v then
       r <~ exec_block' m body ;;
       match r with
       | Some v => ret (Some v)
       | None => exec_stmt' m (While test body orelse)
       end
     else exec_block' m orelse).
Proof. reflexivity. Qed.

Lemma exec_block_S (m : nat) (ss : list stmt) :
  exec_block' (S m) ss = run_block' m ss.
Proof. reflexivity. Qed.

Lemma run_block_cons (m : nat) (st : stmt) (ss : list stmt) :
  run_block' m (st :: ss)
  = (r <~ exec_stmt' m st ;;
     match r with
     | Some v => ret (Some v)
     | None => run_block' m ss
     end).
Proof. reflexivity. Qed.

Lemma call_hook (m : nat) (tv mv : value) (lineno : Z) (s : state)
    (recs : list record) :
  call' (S m) VHook [tv; mv; VInt lineno] (with_records s recs)
  = (with_records s (recs ++ [record_of repr_text lineno tv mv]), Ok VNone).
Proof. reflexivity. Qed.

Lemma call_function (m : nat) (name : string) (params : list string)
    (body : list stmt) (args : list value) (s : state) :
  length params = length args ->
  call' (S m) (VFunction name params body) args s
  = match exec_block' m body (entry_state s params args body) with
    | (s', Ok (Some v)) => (set_scope s' (scope s), Ok v)
    | (s', Ok None) => (set_scope s' (scope s), Ok VNone)
    | (s', Raise e) => (set_scope s' (scope s), Raise e)
    | (s', Unmodelled) => (set_scope s' (scope s), Unmodelled)
    | (s', OutOfFuel) => (set_scope s' (scope s), OutOfFuel)
    end.
Proof.
  intros H. cbn [call]. apply Nat.eqb_eq in H. rewrite H. reflexivity.
Qed.

Lemma assign_with_records (target : string) (v : value) (s : state)
    (recs : list record) :
  assign target v (with_records s recs)
  = (with_records (assigned s target v) recs, Ok tt).
Proof. unfold assigned, assign, with_records. cbn. destruct (scope s); reflexivity. Qed.

(** The statement that replaces an assertion records its outcome. *)
Lemma hook_call_runs (s s1 s2 : state) (test : expr) (msg : option expr)
    (lineno : Z) (tv mv : value) :
  hook_bound builtins error_text s ->
  evaluates_to extern_call builtins repr_text error_text s test tv s1 ->
  evaluates_to extern_call builtins repr_text error_text s1 (msg_expr msg) mv s2 ->
  exists n : nat, forall (fuel : nat) (recs : list record),
    (n <= fuel)%nat ->
    exec_stmt' fuel (hook_call test msg lineno) (with_records s recs)
    = (with_records s2 (recs ++ [record_of repr_text lineno tv mv]), Ok None).
Proof.
  intros Hrec [n1 Ht] [n2 Hm].
  exists (S (S (S (Nat.max n1 n2)))). intros fuel recs Hfuel.
  destruct fuel as [|[|[|m]]]; try lia.
  assert (H1 : (n1 <= S m)%nat) by lia.
  assert (H2 : (n2 <= S m)%nat) by lia.
  assert (Hargs : eval_list' (S m) [test; msg_expr msg; Constant (CInt lineno)]
                    (with_records s recs)
                  = (with_records s2 recs, Ok [tv; mv; VInt lineno])).
  { rewrite eval_list_cons, (bind_Ok _ _ _ _ _ (Ht _ recs H1)).
    rewrite (bind_Ok _ _ _ (with_records s2 recs) [mv; VInt lineno]); [reflexivity|].
    rewrite eval_list_cons, (bind_Ok _ _ _ _ _ (Hm _ recs H2)).
    reflexivity. }
  change (hook_call test msg lineno)
    with (Expr (Call (Name "__rec") [test; msg_expr msg; Constant (CInt lineno)])).
  rewrite exec_Expr, eval_Call.
  unfold bind at 1. unfold bind at 1.
  rewrite eval_Name, (Hrec recs).
  unfold bind at 1. rewrite Hargs, call_hook. reflexivity.
Qed.


Lemma records_of_app (a1 a2 : list (expr * option expr * Z))
    (v1 v2 : list (value * value)) :
  length v1 = length a1 ->
  records_of repr_text (a1 ++ a2) (v1 ++ v2)
  = records_of repr_text a1 v1 ++ records_of repr_text a2 v2.
Proof.
  intros H. unfold records_of. apply zip_with_app. symmetry. exact H.
Qed.

Lemma records_of_nil_r (a : list (expr * option expr * Z)) :
  records_of repr_text a [] = [].
Proof. destruct a; reflexivity. Qed.

#[local] Abbreviation runs_once_stmt s st vals r s' :=
  (length vals = count_asserts st
   /\ exists n : nat, forall (fuel : nat) (recs : list record),
        (n <= fuel)%nat ->
        exec_stmt' fuel (_AssertRecorder st) (with_records s recs)
        = (with_records s' (recs ++ records_of repr_text (asserts_of st) vals),
           Ok r)).

#[local] Abbreviation runs_once_block s ss vals r s' :=
  (length vals = count_asserts_block ss
   /\ exists n : nat, forall (fuel : nat) (recs : list record),
        (n <= fuel)%nat ->
        run_block' fuel (map _AssertRecorder ss) (with_records s recs)
        = (with_records s' (recs ++ records_of repr_text (asserts_of_block ss) vals),
           Ok r)).


Lemma count_compound (body orelse : list stmt) (test : expr) (target : string)
    (iter : expr) :
  count_asserts (If test body orelse)
  = (count_asserts_block body + count_asserts_block orelse)%nat
  /\ count_asserts (For target iter body orelse)
     = (count_asserts_block body + count_asserts_block orelse)%nat
  /\ count_asserts (While test body orelse)
     = (count_asserts_block body + count_asserts_block orelse)%nat.
Proof. cbn [count_asserts]. rewrite !count_block. auto. Qed.

Lemma asserts_compound (body orelse : list stmt) (test : expr) (target : string)
    (iter : expr) :
  asserts_of (If test body orelse) = asserts_of_block body ++ asserts_of_block orelse
  /\ asserts_of (For target iter body orelse)
     = asserts_of_block body ++ asserts_of_block orelse
  /\ asserts_of (While test body orelse)
     = asserts_of_block body ++ asserts_of_block orelse.
Proof. cbn [asserts_of]. rewrite !asserts_block. auto. Qed.

(** The records of a compound statement that ran its body and its
    [else] part. *)
Lemma records_of_both (body orelse : list stmt) (vals1 vals2 : list (value * value)) :
  length vals1 = count_asserts_block body ->
  records_of repr_text (asserts_of_block body ++ asserts_of_block orelse)
    (vals1 ++ vals2)
  = records_of repr_text (asserts_of_block body) vals1
    ++ records_of repr_text (asserts_of_block orelse) vals2.
Proof.
  intros H. apply records_of_app. rewrite asserts_of_block_length. exact H.
Qed.

Lemma once_case_assert (s : state) (test : expr) (msg : option expr) (lineno : Z)
    (tv mv : value) (s1 s2 : state) :
  hook_bound builtins error_text s ->
  evaluates_to extern_call builtins repr_text error_text s test tv s1 ->
  evaluates_to extern_call builtins repr_text error_text s1 (msg_expr msg) mv s2 ->
  runs_once_stmt s (Assert test msg lineno) [(tv, mv)] None s2.
Proof.
  intros Hrec Ht Hm. split; [reflexivity|].
  exact (hook_call_runs s s1 s2 test msg lineno tv mv Hrec Ht Hm).
Qed.

Lemma once_case_plain (s : state) (st : stmt) (r : option value) (s' : state) :
  count_asserts st = O ->
  runs_to extern_call builtins repr_text error_text s st r s' ->
  runs_once_stmt s st (@nil (value * value)) r s'.
Proof.
  intros Hnone [n Hrun]. split; [symmetry; exact Hnone|].
  exists n. intros fuel recs Hfuel.
  rewrite (RewriteTwiceFacts.recorder_fixed st Hnone), records_of_nil_r, app_nil_r.
  exact (Hrun fuel recs Hfuel).
Qed.

Lemma once_case_if (s : state) (test : expr) (body orelse : list stmt) (v : value)
    (s1 : state) (vals : list (value * value)) (r : option value) (s2 : state) :
  evaluates_to extern_call builtins repr_text error_text s test v s1 ->
  count_asserts_block (if truthy v then orelse else body) = O ->
  runs_once_block s1 (if truthy v then body else orelse) vals r s2 ->
  runs_once_stmt s (If test body orelse) vals r s2.
Proof.
  intros [n1 Ht] Hnone [Hlen [n2 Hrun]].
  destruct (count_compound body orelse test "" test) as (Hc & _ & _).
  destruct (asserts_compound body orelse test "" test) as (Ha & _ & _).
  rewrite Hc, Ha. split.
  - destruct (truthy v); lia.
  - exists (S (S (Nat.max n1 n2))). intros fuel recs Hfuel.
    destruct fuel as [|[|m]]; try lia.
    change (_AssertRecorder (If test body orelse))
      with (If test (map _AssertRecorder body) (map _AssertRecorder orelse)).
    rewrite exec_If, (bind_Ok _ _ _ _ _ (Ht (S m) recs ltac:(lia))).
    rewrite !exec_block_S.
    destruct (truthy v).
    + rewrite (Hrun m recs ltac:(lia)), (no_asserts_block orelse Hnone), app_nil_r.
      reflexivity.
    + rewrite (Hrun m recs ltac:(lia)), (no_asserts_block body Hnone).
      reflexivity.
Qed.

Lemma once_case_for_pass (s : state) (target : string) (iter : expr)
    (body orelse : list stmt) (it x : value) (s1 : state)
    (vals1 : list (value * value)) (s2 : state) (vals2 : list (value * value))
    (r : option value) (s3 : state) :
  evaluates_to extern_call builtins repr_text error_text s iter it s1 ->
  items it = Some [x] ->
  runs_once_block (assigned s1 target x) body vals1 None s2 ->
  runs_once_block s2 orelse vals2 r s3 ->
  runs_once_stmt s (For target iter body orelse) (vals1 ++ vals2) r s3.
Proof.
  intros [n0 Hit] Hitems [Hlen1 [n1 Hbody]] [Hlen2 [n2 Helse]].
  destruct (count_compound body orelse iter target iter) as (_ & Hc & _).
  destruct (asserts_compound body orelse iter target iter) as (_ & Ha & _).
  rewrite Hc, Ha, length_app. split; [lia|].
  exists (S (S (Nat.max n0 (Nat.max n1 n2)))). intros fuel recs Hfuel.
  destruct fuel as [|[|m]]; try lia.
  change (_AssertRecorder (For target iter body orelse))
    with (For target iter (map _AssertRecorder body) (map _AssertRecorder orelse)).
  rewrite exec_For, (bind_Ok _ _ _ _ _ (Hit (S m) recs ltac:(lia))), Hitems.
  rewrite (bind_Ok _ _ _ _ _ (assign_with_records target x s1 recs)).
  rewrite !exec_block_S.
  rewrite (bind_Ok _ _ _ _ _ (Hbody m recs ltac:(lia))).
  rewrite (Helse m _ ltac:(lia)), <- app_assoc, records_of_both by exact Hlen1.
  reflexivity.
Qed.

Lemma once_case_for_return (s : state) (target : string) (iter : expr)
    (body orelse : list stmt) (it x : value) (xs : list value) (s1 : state)
    (vals : list (value * value)) (v : value) (s2 : state) :
  evaluates_to extern_call builtins repr_text error_text s iter it s1 ->
  items it = Some (x :: xs) ->
  runs_once_block (assigned s1 target x) body vals (Some v) s2 ->
  count_asserts_block orelse = O ->
  runs_once_stmt s (For target iter body orelse) vals (Some v) s2.
Proof.
  intros [n0 Hit] Hitems [Hlen1 [n1 Hbody]] Hnone.
  destruct (count_compound body orelse iter target iter) as (_ & Hc & _).
  destruct (asserts_compound body orelse iter target iter) as (_ & Ha & _).
  rewrite Hc, Ha. split; [lia|].
  exists (S (S (Nat.max n0 n1))). intros fuel recs Hfuel.
  destruct fuel as [|[|m]]; try lia.
  change (_AssertRecorder (For target iter body orelse))
    with (For target iter (map _AssertRecorder body) (map _AssertRecorder orelse)).
  rewrite exec_For, (bind_Ok _ _ _ _ _ (Hit (S m) recs ltac:(lia))), Hitems.
  rewrite (bind_Ok _ _ _ _ _ (assign_with_records target x s1 recs)).
  rewrite !exec_block_S.
  rewrite (bind_Ok _ _ _ _ _ (Hbody m recs ltac:(lia))).
  rewrite (no_asserts_block orelse Hnone), app_nil_r. reflexivity.
Qed.

Lemma once_case_for_else (s : state) (target : string) (iter : expr)
    (body orelse : list stmt) (it : value) (s1 : state)
    (vals : list (value * value)) (r : option value) (s2 : state) :
  evaluates_to extern_call builtins repr_text error_text s iter it s1 ->
  items it = Some [] ->
  count_asserts_block body = O ->
  runs_once_block s1 orelse vals r s2 ->
  runs_once_stmt s (For target iter body orelse) vals r s2.
Proof.
  intros [n0 Hit] Hitems Hnone [Hlen [n1 Helse]].
  destruct (count_compound body orelse iter target iter) as (_ & Hc & _).
  destruct (asserts_compound body orelse iter target iter) as (_ & Ha & _).
  rewrite Hc, Ha. split; [lia|].
  exists (S (S (Nat.max n0 n1))). intros fuel recs Hfuel.
  destruct fuel as [|[|m]]; try lia.
  change (_AssertRecorder (For target iter body orelse))
    with (For target iter (map _AssertRecorder body) (map _AssertRecorder orelse)).
  rewrite exec_For, (bind_Ok _ _ _ _ _ (Hit (S m) recs ltac:(lia))), Hitems.
  rewrite !exec_block_S, (Helse m recs ltac:(lia)), (no_asserts_block body Hnone).
  reflexivity.
Qed.

Lemma once_case_while_pass (s : state) (test : expr) (body orelse : list stmt)
    (v1 : value) (s1 : state) (vals1 : list (value * value)) (s2 : state)
    (v2 : value) (s3 : state) (vals2 : list (value * value)) (r : option value)
    (s4 : state) :
  evaluates_to extern_call builtins repr_text error_text s test v1 s1 ->
  truthy v1 = true ->
  runs_once_block s1 body vals1 None s2 ->
  evaluates_to extern_call builtins repr_text error_text s2 test v2 s3 ->
  truthy v2 = false ->
  runs_once_block s3 orelse vals2 r s4 ->
  runs_once_stmt s (While test body orelse) (vals1 ++ vals2) r s4.
Proof.
  intros [n0 Ht1] Htrue [Hlen1 [n1 Hbody]] [n2 Ht2] Hfalse [Hlen2 [n3 Helse]].
  destruct (count_compound body orelse test "" test) as (_ & _ & Hc).
  destruct (asserts_compound body orelse test "" test) as (_ & _ & Ha).
  rewrite Hc, Ha, length_app. split; [lia|].
  exists (S (S (S (Nat.max (Nat.max n0 n1) (Nat.max n2 n3))))).
  intros fuel recs Hfuel.
  destruct fuel as [|[|[|m]]]; try lia.
  change (_AssertRecorder (While test body orelse))
    with (While test (map _AssertRecorder body) (map _AssertRecorder orelse)).
  rewrite exec_While, (bind_Ok _ _ _ _ _ (Ht1 (S (S m)) recs ltac:(lia))), Htrue.
  rewrite exec_block_S, (bind_Ok _ _ _ _ _ (Hbody (S m) recs ltac:(lia))).
  rewrite exec_While, (bind_Ok _ _ _ _ _ (Ht2 (S m) _ ltac:(lia))), Hfalse.
  rewrite exec_block_S, (Helse m _ ltac:(lia)), <- app_assoc, records_of_both
    by exact Hlen1.
  reflexivity.
Qed.

Lemma once_case_while_return (s : state) (test : expr) (body orelse : list stmt)
    (v1 : value) (s1 : state) (vals : list (value * value)) (v : value)
    (s2 : state) :
  evaluates_to extern_call builtins repr_text error_text s test v1 s1 ->
  truthy v1 = true ->
  runs_once_block s1 body vals (Some v) s2 ->
  count_asserts_block orelse = O ->
  runs_once_stmt s (While test body orelse) vals (Some v) s2.
Proof.
  intros [n0 Ht1] Htrue [Hlen1 [n1 Hbody]] Hnone.
  destruct (count_compound body orelse test "" test) as (_ & _ & Hc).
  destruct (asserts_compound body orelse test "" test) as (_ & _ & Ha).
  rewrite Hc, Ha. split; [lia|].
  exists (S (S (Nat.max n0 n1))). intros fuel recs Hfuel.
  destruct fuel as [|[|m]]; try lia.
  change (_AssertRecorder (While test body orelse))
    with (While test (map _AssertRecorder body) (map _AssertRecorder orelse)).
  rewrite exec_While, (bind_Ok _ _ _ _ _ (Ht1 (S m) recs ltac:(lia))), Htrue.
  rewrite exec_block_S, (bind_Ok _ _ _ _ _ (Hbody m recs ltac:(lia))).
  rewrite (no_asserts_block orelse Hnone), app_nil_r. reflexivity.
Qed.

Lemma once_case_while_else (s : state) (test : expr) (body orelse : list stmt)
    (v : value) (s1 : state) (vals : list (value * value)) (r : option value)
    (s2 : state) :
  evaluates_to extern_call builtins repr_text error_text s test v s1 ->
  truthy v = false ->
  count_asserts_block body = O ->
  runs_once_block s1 orelse vals r s2 ->
  runs_once_stmt s (While test body orelse) vals r s2.
Proof.
  intros [n0 Ht] Hfalse Hnone [Hlen [n1 Helse]].
  destruct (count_compound body orelse test "" test) as (_ & _ & Hc).
  destruct (asserts_compound body orelse test "" test) as (_ & _ & Ha).
  rewrite Hc, Ha. split; [lia|].
  exists (S (S (Nat.max n0 n1))). intros fuel recs Hfuel.
  destruct fuel as [|[|m]]; try lia.
  change (_AssertRecorder (While test body orelse))
    with (While test (map _AssertRecorder body) (map _AssertRecorder orelse)).
  rewrite exec_While, (bind_Ok _ _ _ _ _ (Ht (S m) recs ltac:(lia))), Hfalse.
  rewrite exec_block_S, (Helse m recs ltac:(lia)), (no_asserts_block body Hnone).
  reflexivity.
Qed.

Lemma once_case_next (s : state) (st : stmt) (vals1 : list (value * value))
    (s1 : state) (rest : list stmt) (vals2 : list (value * value))
    (r : option value) (s2 : state) :
  runs_once_stmt s st vals1 None s1 ->
  runs_once_block s1 rest vals2 r s2 ->
  runs_once_block s (st :: rest) (vals1 ++ vals2) r s2.
Proof.
  intros [Hlen1 [n1 Hst]] [Hlen2 [n2 Hrest]].
  cbn [count_asserts_block asserts_of_block map]. rewrite length_app.
  split; [lia|].
  exists (Nat.max n1 n2). intros fuel recs Hfuel.
  rewrite run_block_cons, (bind_Ok _ _ _ _ _ (Hst fuel recs ltac:(lia))).
  rewrite (Hrest fuel _ ltac:(lia)), <- app_assoc, records_of_app; [reflexivity|].
  rewrite RewriteFacts.asserts_of_length. exact Hlen1.
Qed.

Lemma once_case_return (s : state) (st : stmt) (vals : list (value * value))
    (v : value) (s1 : state) (rest : list stmt) :
  runs_once_stmt s st vals (Some v) s1 ->
  count_asserts_block rest = O ->
  runs_once_block s (st :: rest) vals (Some v) s1.
Proof.
  intros [Hlen [n Hst]] Hnone.
  cbn [count_asserts_block asserts_of_block map]. split; [lia|].
  exists n. intros fuel recs Hfuel.
  rewrite run_block_cons, (bind_Ok _ _ _ _ _ (Hst fuel recs Hfuel)).
  rewrite (no_asserts_block rest Hnone), app_nil_r. reflexivity.
Qed.

(** A block in which every assertion is executed once leaves, when it
    is run rewritten, one record for each of its assertions, in source
    order. *)
Lemma once_block_runs (s : state) (ss : list stmt) (vals : list (value * value))
    (r : option value) (s' : state) :
  once_block extern_call builtins repr_text error_text s ss vals r s' ->
  runs_once_block s ss vals r s'.
Proof.
  revert s ss vals r s'.
  apply (once_block_mut extern_call builtins repr_text error_text
           (fun s st vals r s' => runs_once_stmt s st vals r s')
           (fun s ss vals r s' => runs_once_block s ss vals r s')).
  - intros. apply once_case_assert with s1; assumption.
  - intros. apply once_case_plain; assumption.
  - intros. apply once_case_if with v s1; assumption.
  - intros. apply once_case_for_pass with it x s1 s2; assumption.
  - intros. apply once_case_for_return with it x xs s1; assumption.
  - intros. apply once_case_for_else with it s1; assumption.
  - intros. apply once_case_while_pass with v1 s1 s2 v2 s3; assumption.
  - intros. apply once_case_while_return with v1 s1; assumption.
  - intros. apply once_case_while_else with v s1; assumption.
  - intros s. split; [reflexivity|]. exists O. intros fuel recs _.
    cbn. rewrite app_nil_r. reflexivity.
  - intros. apply once_case_next with s1; assumption.
  - intros. apply once_case_return; assumption.
Qed.


Lemma records_of_counts (asserts : list (expr * option expr * Z))
    (vals : list (value * value)) :
  length asserts = length vals ->
  tally (records_of repr_text asserts vals)
  = (Z.of_nat (length asserts),
     Z.of_nat (length (List.filter (fun tv => truthy (fst tv)) vals)),
     Z.of_nat (length (List.filter (fun tv => negb (truthy (fst tv))) vals)),
     List.filter (fun '(_, ok, _) => negb ok) (records_of repr_text asserts vals)).
Proof.
  intros Hlen. unfold tally, count. repeat f_equal.
  - revert vals Hlen. induction asserts as [|a asserts IH]; intros [|v vals] Hlen;
      try discriminate Hlen; [reflexivity|].
    cbn. f_equal. apply IH. cbn in Hlen. lia.
  - revert vals Hlen. induction asserts as [|a asserts IH]; intros [|v vals] Hlen;
      try discriminate Hlen; [reflexivity|].
    cbn. destruct (truthy (fst v)); cbn; [f_equal|]; apply IH; cbn in Hlen; lia.
  - revert vals Hlen. induction asserts as [|a asserts IH]; intros [|v vals] Hlen;
      try discriminate Hlen; [reflexivity|].
    cbn. destruct (truthy (fst v)); cbn; [|f_equal]; apply IH; cbn in Hlen; lia.
Qed.

End host.
End OnceFacts.


Module WitnessFacts.
Import Ast Interp run_humaneval_openai.

Ltac run_for n :=
  exists n; intros fuel recs Hfuel;
  repeat (destruct fuel as [|fuel]; [lia|]); reflexivity.

#[local] Abbreviation evaluates_to' :=
  (evaluates_to Samples.extern_call Samples.builtins Samples.repr_text
     Samples.error_text).
#[local] Abbreviation runs_to' :=
  (runs_to Samples.extern_call Samples.builtins Samples.repr_text
     Samples.error_text).
#[local] Abbreviation once_stmt' :=
  (once_stmt Samples.extern_call Samples.builtins Samples.repr_text
     Samples.error_text).
#[local] Abbreviation once_block' :=
  (once_block Samples.extern_call Samples.builtins Samples.repr_text
     Samples.error_text).

(** With the candidate [identity], [candidate(a) == b] evaluates to
    the truth value of [a = b]. *)
Lemma candidate_gives_evaluates (a b : Z) :
  evaluates_to' Samples.five_start (Samples.candidate_gives a b) (VBool (a =? b))
    Samples.five_start.
Proof. run_for 4%nat. Qed.

Lemma constant_evaluates (c : constant) :
  evaluates_to' Samples.five_start (Constant c) (value_of_constant c)
    Samples.five_start.
Proof. run_for 1%nat. Qed.

Lemma five_hook_bound : hook_bound Samples.builtins Samples.error_text Samples.five_start.
Proof. intros recs. reflexivity. Qed.

(** An assertion of [Samples.five_tree]. *)
Lemma five_assert (a b : Z) (msg : option expr) (mv : value) (lineno : Z) :
  evaluates_to' Samples.five_start (msg_expr msg) mv Samples.five_start ->
  once_stmt' Samples.five_start (Assert (Samples.candidate_gives a b) msg lineno)
    [(VBool (a =? b), mv)] None Samples.five_start.
Proof.
  intros Hm. apply once_assert with Samples.five_start.
  - exact five_hook_bound.
  - apply candidate_gives_evaluates.
  - exact Hm.
Qed.

Lemma five_once :
  once_block' Samples.five_start
    (map assert_stmt Samples.five_asserts)
    [(VBool true, VNone); (VBool false, VNone); (VBool true, VNone);
     (VBool false, VStr "four"); (VBool true, VNone)]
    None Samples.five_start.
Proof.
  apply (once_next _ _ _ _ _ _ [(VBool true, VNone)] Samples.five_start);
    [apply (five_assert 1 1 None VNone 2), (constant_evaluates CNone)|].
  apply (once_next _ _ _ _ _ _ [(VBool false, VNone)] Samples.five_start);
    [apply (five_assert 2 3 None VNone 3), (constant_evaluates CNone)|].
  apply (once_next _ _ _ _ _ _ [(VBool true, VNone)] Samples.five_start);
    [apply (five_assert 3 3 None VNone 4), (constant_evaluates CNone)|].
  apply (once_next _ _ _ _ _ _ [(VBool false, VStr "four")] Samples.five_start);
    [apply (five_assert 4 5 (Some (Constant (CStr "four"))) (VStr "four") 5),
       (constant_evaluates (CStr "four"))|].
  apply (once_next _ _ _ _ _ _ [(VBool true, VNone)] Samples.five_start _ []);
    [apply (five_assert 5 5 None VNone 6), (constant_evaluates CNone)|].
  apply once_nil.
Qed.

(** The run of [check(identity)] of [Samples.mixed_tree]. *)
Lemma mixed_once :
  once_block' Samples.mixed_start Samples.mixed_body
    [(VBool true, VNone); (VBool false, VStr "two"); (VBool true, VNone)]
    (Some (VInt 1)) Samples.mixed_y.
Proof.
  unfold Samples.mixed_body.
  apply (once_next _ _ _ _ _ _ [] Samples.mixed_x).
  { apply once_plain; [reflexivity|]. run_for 3%nat. }
  apply (once_next _ _ _ _ _ _ [(VBool true, VNone)] Samples.mixed_x).
  { apply once_assert with Samples.mixed_x.
    - intros recs. reflexivity.
    - run_for 4%nat.
    - run_for 1%nat. }
  apply (once_next _ _ _ _ _ _ [(VBool false, VStr "two")] Samples.mixed_x).
  { apply once_if with (VBool true) Samples.mixed_x.
    - run_for 4%nat.
    - reflexivity.
    - apply (once_next _ _ _ _ _ _ [(VBool false, VStr "two")] Samples.mixed_x _ []);
        [|apply once_nil].
      apply once_assert with Samples.mixed_x.
      + intros recs. reflexivity.
      + run_for 4%nat.
      + run_for 1%nat. }
  apply (once_next _ _ _ _ _ _ [(VBool true, VNone)] Samples.mixed_y _ []).
  { apply (once_for_pass _ _ _ _ _ _ _ _ _ (VList [VInt 4]) (VInt 4) Samples.mixed_x
             [(VBool true, VNone)] Samples.mixed_y [] None Samples.mixed_y).
    - run_for 3%nat.
    - reflexivity.
    - apply (once_next _ _ _ _ _ _ [(VBool true, VNone)] Samples.mixed_y _ []);
        [|apply once_nil].
      apply once_assert with Samples.mixed_y.
      + intros recs. reflexivity.
      + run_for 4%nat.
      + run_for 1%nat.
    - apply once_nil. }
  apply once_return; [|reflexivity].
  apply once_plain; [reflexivity|]. run_for 2%nat.
Qed.

End WitnessFacts.



(** ** The batch runners *)

(** C7 (as amended): a solution file that loads and does not define
    the entry point of its problem is not tested; both runners print
    for it a line with the status FAIL that names the missing entry
    point, add one to the count of failures and leave the counts of
    problems tested and passed as they are; the runner with coverage
    adds a row with the tests "0/0" for it. *)
Theorem missing_entry_point_is_counted
    (extern_call : string -> list Interp.value -> outcome Interp.exn Interp.value)
    (builtins : string -> option Interp.value)
    (repr_text : Interp.value -> string)
    (error_text : Interp.interp_error -> string)
    (fuel : nat) (problems : Z -> option run_humaneval_openai.problem)
    (sol : run_humaneval_openai.solution) (problem_id : Z)
    (p : run_humaneval_openai.problem) :
  run_humaneval_openai.sol_problem_id sol = Some problem_id ->
  problems problem_id = Some p ->
  (forall (module : gmap string Interp.value) (t : run_humaneval_openai.totals),
      run_humaneval_openai.sol_module sol = inr module ->
      module !! run_humaneval_openai.entry_point p = None ->
      run_humaneval_openai.main_step extern_call builtins repr_text error_text
        fuel problems t sol
      = Ok {| run_humaneval_openai.grand_total := run_humaneval_openai.grand_total t;
              run_humaneval_openai.grand_pass := run_humaneval_openai.grand_pass t;
              run_humaneval_openai.grand_fail := run_humaneval_openai.grand_fail t + 1;
              run_humaneval_openai.output :=
                run_humaneval_openai.output t
                ++ [run_humaneval_openai.Fail_missing problem_id
                      (run_humaneval_openai.sol_name sol)
                      (run_humaneval_openai.entry_point p)] |})
  /\ (forall (module : gmap string Interp.value) (cov_data : dict)
             (t : humaneval_coverage_summary.totals)
             (r : humaneval_coverage_summary.row),
      run_humaneval_openai.sol_run_path sol = inr module ->
      module !! run_humaneval_openai.entry_point p = None ->
      humaneval_coverage_summary.coverage_row cov_data sol "0/0"
        (fun _ => "Missing required entry_point function in solution.") = Ok r ->
      humaneval_coverage_summary.main_step extern_call builtins repr_text error_text
        fuel problems cov_data t sol
      = Ok {| humaneval_coverage_summary.grand_total :=
                humaneval_coverage_summary.grand_total t;
              humaneval_coverage_summary.grand_pass :=
                humaneval_coverage_summary.grand_pass t;
              humaneval_coverage_summary.grand_fail :=
                humaneval_coverage_summary.grand_fail t + 1;
              humaneval_coverage_summary.output :=
                humaneval_coverage_summary.output t
                ++ [run_humaneval_openai.Fail_missing problem_id
                      (run_humaneval_openai.sol_name sol)
                      (run_humaneval_openai.entry_point p)];
              humaneval_coverage_summary.rows :=
                humaneval_coverage_summary.rows t ++ [r] |}
         /\ humaneval_coverage_summary.tests r = "0/0").
Proof.
  intros Hid Hp. split.
  - intros module t Hmod Hentry. unfold run_humaneval_openai.main_step.
    rewrite Hid, Hp, Hmod, Hentry. reflexivity.
  - intros module cov_data t r Hmod Hentry Hrow. split.
    + unfold humaneval_coverage_summary.main_step.
      rewrite Hid, Hp, Hmod, Hentry, Hrow. reflexivity.
    + unfold humaneval_coverage_summary.coverage_row in Hrow.
      apply obind_Ok in Hrow as ([cov_path cov_entry] & _ & Hrow).
      apply obind_Ok in Hrow as (tuple & _ & Hrow).
      destruct tuple as [[[[[[? ?] ?] ?] ?] ?] ?].
      injection Hrow as <-. reflexivity.
Qed.

(** The two runners on [Samples.sol_without_entry], from empty totals
    and without coverage data. *)
Lemma missing_entry_point_is_counted_witness :
  run_humaneval_openai.main_step Samples.extern_call Samples.builtins
    Samples.repr_text Samples.error_text 10 Samples.problems
    {| run_humaneval_openai.grand_total := 0; run_humaneval_openai.grand_pass := 0;
       run_humaneval_openai.grand_fail := 0; run_humaneval_openai.output := [] |}
    Samples.sol_without_entry
  = Ok {| run_humaneval_openai.grand_total := 0; run_humaneval_openai.grand_pass := 0;
          run_humaneval_openai.grand_fail := 0 + 1;
          run_humaneval_openai.output :=
            [run_humaneval_openai.Fail_missing 0
               "humaneval_0_openai_attempt_001_base.py" "f"] |}.
Proof.
  apply (proj1 (missing_entry_point_is_counted Samples.extern_call Samples.builtins
                  Samples.repr_text Samples.error_text 10 Samples.problems
                  Samples.sol_without_entry 0
                  {| run_humaneval_openai.entry_point := "f";
                     run_humaneval_openai.test := Ast.Module Samples.five_tree |}
                  eq_refl eq_refl)
           {["g" := Interp.VExtern "identity"]}
           {| run_humaneval_openai.grand_total := 0;
              run_humaneval_openai.grand_pass := 0;
              run_humaneval_openai.grand_fail := 0;
              run_humaneval_openai.output := [] |}
           eq_refl eq_refl).
Defined.

(** C7 fails as stated: a batch of the one file
    [Samples.sol_without_entry] ends with one failure counted, in both
    runners. *)
Lemma missing_entry_point_counts_as_failure :
  run_humaneval_openai.main Samples.extern_call Samples.builtins
    Samples.repr_text Samples.error_text 10 Samples.problems
    [Samples.sol_without_entry]
  = Ok (Some {| run_humaneval_openai.grand_total := 0;
                run_humaneval_openai.grand_pass := 0;
                run_humaneval_openai.grand_fail := 1;
                run_humaneval_openai.output :=
                  [run_humaneval_openai.Fail_missing 0
                     "humaneval_0_openai_attempt_001_base.py" "f"] |})
  /\ (exists t,
        humaneval_coverage_summary.main Samples.extern_call Samples.builtins
          Samples.repr_text Samples.error_text 10 Samples.problems
          [("files", JObj [])] [Samples.sol_without_entry]
        = Ok (Some t)
        /\ humaneval_coverage_summary.grand_fail t = 1
        /\ humaneval_coverage_summary.grand_total t = 0).
Proof.
  split; [vm_compute; reflexivity|].
  eexists. split; [vm_compute; reflexivity|]. split; reflexivity.
Qed.

(** * Further properties of the code *)


(** X1: rewriting a tree that was already rewritten changes nothing,
    and a tree without assertions is not changed at all. *)
Theorem instrument_idempotent (tree : list Ast.stmt) :
  run_humaneval_openai._instrument_test_code
    (run_humaneval_openai._instrument_test_code tree)
  = run_humaneval_openai._instrument_test_code tree
  /\ (Ast.count_asserts_block tree = O ->
      run_humaneval_openai._instrument_test_code tree = tree).
Proof.
  unfold run_humaneval_openai._instrument_test_code. split.
  - rewrite map_map. apply map_ext. intros s.
    apply RewriteTwiceFacts.check_only_twice.
  - intros H. apply RewriteTwiceFacts.map_fixed.
    apply RewriteTwiceFacts.count_asserts_block_app_zero in H.
    eapply Forall_impl; [exact H|]. intros s Hs.
    apply RewriteTwiceFacts.check_only_fixed. exact Hs.
Qed.

(** ** Every way the executor returns *)

(** X2: whatever the test module and the candidate are, when the
    executor returns, [failed] is the number of failing records it
    returns, each of them has the outcome [False], the counts are not
    negative, and [passed + failed] is [total] or [total + 1]. *)
Theorem run_result_shape
    (extern_call : string -> list Interp.value -> outcome Interp.exn Interp.value)
    (builtins : string -> option Interp.value)
    (repr_text : Interp.value -> string)
    (error_text : Interp.interp_error -> string)
    (fuel : nat) (candidate_func : Interp.value) (test_code : Ast.parsed)
    (total passed failed : Z) (failures_detail : list Interp.record) :
  run_humaneval_openai.run_check_and_count_asserts extern_call builtins repr_text
    error_text fuel candidate_func test_code
  = Ok (total, passed, failed, failures_detail) ->
  failed = Z.of_nat (length failures_detail)
  /\ Forall (fun r : Interp.record => snd (fst r) = false) failures_detail
  /\ 0 <= total /\ 0 <= passed
  /\ total <= passed + failed <= total + 1.
Proof.
  assert (early : forall text : string,
             @Ok Interp.exn run_humaneval_openai.check_result
               (0, 0, 1, [(Interp.VInt 0, false, Some text)])
             = Ok (total, passed, failed, failures_detail) ->
             failed = Z.of_nat (length failures_detail)
             /\ Forall (fun r : Interp.record => snd (fst r) = false) failures_detail
             /\ 0 <= total /\ 0 <= passed
             /\ total <= passed + failed <= total + 1).
  { intros text H. injection H as <- <- <- <-. cbn.
    repeat split; try lia. repeat constructor. }
  assert (tallied : forall recs : list Interp.record,
             @Ok Interp.exn run_humaneval_openai.check_result
               (run_humaneval_openai.tally recs)
             = Ok (total, passed, failed, failures_detail) ->
             failed = Z.of_nat (length failures_detail)
             /\ Forall (fun r : Interp.record => snd (fst r) = false) failures_detail
             /\ 0 <= total /\ 0 <= passed
             /\ total <= passed + failed <= total + 1).
  { intros recs H. pose proof (RunFacts.tally_counts recs) as Hc.
    assert (Hp : let '(_, p, _, _) := run_humaneval_openai.tally recs in 0 <= p)
      by (unfold run_humaneval_openai.tally, run_humaneval_openai.count; lia).
    destruct (run_humaneval_openai.tally recs) as [[[t p] f] d].
    injection H as -> -> -> ->. destruct Hc as (Ht & Hs & Hf & Hd).
    split; [exact Hf|]. split.
    - rewrite Hd. clear. induction recs as [|[[ln ok] msg] recs IH]; cbn;
        [constructor|]. destruct ok; cbn; [exact IH | constructor; [reflexivity | exact IH]].
    - lia. }
  unfold run_humaneval_openai.run_check_and_count_asserts.
  destruct (run_humaneval_openai.load_test_module _ _ _ _ _ _) as [env [[]|e| |]];
    try discriminate;
    [|destruct (Interp.is_Exception e); [apply early | discriminate]].
  destruct (Interp.globals env !! "check") as [check|]; [|apply early].
  destruct (run_humaneval_openai.isinstance_FunctionType check) as [[|]|];
    try discriminate; [|apply early].
  destruct (Interp.call _ _ _ _ _ _ _ _) as [env' [v|e| |]]; try discriminate;
    [|destruct (Interp.is_Exception e); [|discriminate]]; apply tallied.
Qed.

(** The counts of [Samples.five_tree] run with the candidate [identity]. *)
Lemma run_result_shape_witness :
  2 = Z.of_nat (length [(Interp.VInt 3, false, @None string);
                        (Interp.VInt 5, false, Some "four")])
  /\ Forall (fun r : Interp.record => snd (fst r) = false)
       [(Interp.VInt 3, false, None); (Interp.VInt 5, false, Some "four")]
  /\ 0 <= 5 /\ 0 <= 3 /\ 5 <= 3 + 2 <= 5 + 1.
Proof.
  apply (run_result_shape Samples.extern_call Samples.builtins Samples.repr_text
           Samples.error_text 10 (Interp.VExtern "identity")
           (Ast.Module Samples.five_tree)).
  vm_compute. reflexivity.
Defined.

(** ** The loops of the batch runners *)

Module BatchFacts.
Import Interp.

Section host.
Variable extern_call : string -> list value -> outcome exn value.
Variable builtins : string -> option value.
Variable repr_text : value -> string.
Variable error_text : interp_error -> string.

(** What one file can do to the totals of the plain runner. *)
Lemma main_step_effect (fuel : nat)
    (problems : Z -> option run_humaneval_openai.problem)
    (t t' : run_humaneval_openai.totals) (sol : run_humaneval_openai.solution) :
  run_humaneval_openai.main_step extern_call builtins repr_text error_text
    fuel problems t sol = Ok t' ->
  let dt := run_humaneval_openai.grand_total t' - run_humaneval_openai.grand_total t in
  let dp := run_humaneval_openai.grand_pass t' - run_humaneval_openai.grand_pass t in
  let df := run_humaneval_openai.grand_fail t' - run_humaneval_openai.grand_fail t in
  0 <= dp <= dt /\ 0 <= df /\ dt <= dp + df <= 1
  /\ length (run_humaneval_openai.output t')
     = S (length (run_humaneval_openai.output t)).
Proof.
  unfold run_humaneval_openai.main_step.
  destruct (run_humaneval_openai.sol_problem_id sol) as [problem_id|].
  2:{ intros H. injection H as <-. cbn. rewrite length_app. cbn. lia. }
  destruct (problems problem_id) as [p|].
  2:{ intros H. injection H as <-. cbn. rewrite length_app. cbn. lia. }
  destruct (run_humaneval_openai.sol_module sol) as [e|module].
  { destruct (is_Exception e); [|discriminate].
    intros H. injection H as <-. cbn. rewrite length_app. cbn. lia. }
  destruct (module !! run_humaneval_openai.entry_point p) as [candidate|].
  2:{ intros H. injection H as <-. cbn. rewrite length_app. cbn. lia. }
  destruct (run_humaneval_openai.run_check_and_count_asserts _ _ _ _ _ _ _)
    as [[[[total passed] failed] detail]|e| |]; cbn [obind]; try discriminate.
  intros H. injection H as <-. cbn.
  rewrite length_app. cbn.
  destruct ((failed =? 0) && (0 <? total)); cbn; lia.
Qed.

Lemma main_loop_invariant (fuel : nat)
    (problems : Z -> option run_humaneval_openai.problem)
    (files : list run_humaneval_openai.solution) :
  forall t t' : run_humaneval_openai.totals,
  run_humaneval_openai.main_loop extern_call builtins repr_text error_text
    fuel problems t files = Ok t' ->
  let dt := run_humaneval_openai.grand_total t' - run_humaneval_openai.grand_total t in
  let dp := run_humaneval_openai.grand_pass t' - run_humaneval_openai.grand_pass t in
  let df := run_humaneval_openai.grand_fail t' - run_humaneval_openai.grand_fail t in
  0 <= dp <= dt /\ 0 <= df /\ dt <= dp + df <= Z.of_nat (length files)
  /\ length (run_humaneval_openai.output t')
     = (length (run_humaneval_openai.output t) + length files)%nat.
Proof.
  induction files as [|sol files IH]; intros t t' H.
  - cbn in H. injection H as <-. cbn. lia.
  - cbn [run_humaneval_openai.main_loop] in H.
    apply obind_Ok in H as (t1 & H1 & H2).
    apply main_step_effect in H1. apply IH in H2.
    cbv zeta in *. cbn [length]. lia.
Qed.

(** What one file can do to the totals and rows of the runner with
    coverage. *)
Lemma coverage_main_step_effect (fuel : nat)
    (problems : Z -> option run_humaneval_openai.problem) (cov_data : dict)
    (t t' : humaneval_coverage_summary.totals)
    (sol : run_humaneval_openai.solution) :
  humaneval_coverage_summary.main_step extern_call builtins repr_text error_text
    fuel problems cov_data t sol = Ok t' ->
  let dt := humaneval_coverage_summary.grand_total t'
            - humaneval_coverage_summary.grand_total t in
  let dp := humaneval_coverage_summary.grand_pass t'
            - humaneval_coverage_summary.grand_pass t in
  let df := humaneval_coverage_summary.grand_fail t'
            - humaneval_coverage_summary.grand_fail t in
  0 <= dp <= dt /\ 0 <= df /\ dt <= dp + df <= 1
  /\ Z.of_nat (length (humaneval_coverage_summary.rows t'))
     = Z.of_nat (length (humaneval_coverage_summary.rows t)) + dp + df
  /\ length (humaneval_coverage_summary.output t')
     = S (length (humaneval_coverage_summary.output t)).
Proof.
  unfold humaneval_coverage_summary.main_step.
  destruct (run_humaneval_openai.sol_problem_id sol) as [problem_id|].
  2:{ intros H. injection H as <-. cbn. rewrite !length_app. cbn. lia. }
  destruct (problems problem_id) as [p|].
  2:{ intros H. injection H as <-. cbn. rewrite !length_app. cbn. lia. }
  destruct (run_humaneval_openai.sol_run_path sol) as [e|module].
  { destruct (is_Exception e); [|discriminate].
    intros H. injection H as <-. cbn. rewrite !length_app. cbn. lia. }
  destruct (module !! run_humaneval_openai.entry_point p) as [candidate|].
  2:{ intros H. apply obind_Ok in H as (r & _ & H). injection H as <-. cbn.
      rewrite !length_app. cbn. lia. }
  intros H. apply obind_Ok in H as ([[[total passed] failed] detail] & _ & H).
  apply obind_Ok in H as (r & _ & H). injection H as <-. cbn.
  rewrite !length_app. cbn.
  destruct ((failed =? 0) && (0 <? total)); cbn; lia.
Qed.

Lemma coverage_main_loop_invariant (fuel : nat)
    (problems : Z -> option run_humaneval_openai.problem) (cov_data : dict)
    (files : list run_humaneval_openai.solution) :
  forall t t' : humaneval_coverage_summary.totals,
  humaneval_coverage_summary.main_loop extern_call builtins repr_text error_text
    fuel problems cov_data t files = Ok t' ->
  let dt := humaneval_coverage_summary.grand_total t'
            - humaneval_coverage_summary.grand_total t in
  let dp := humaneval_coverage_summary.grand_pass t'
            - humaneval_coverage_summary.grand_pass t in
  let df := humaneval_coverage_summary.grand_fail t'
            - humaneval_coverage_summary.grand_fail t in
  0 <= dp <= dt /\ 0 <= df /\ dt <= dp + df <= Z.of_nat (length files)
  /\ Z.of_nat (length (humaneval_coverage_summary.rows t'))
     = Z.of_nat (length (humaneval_coverage_summary.rows t)) + dp + df
  /\ length (humaneval_coverage_summary.output t')
     = (length (humaneval_coverage_summary.output t) + length files)%nat.
Proof.
  induction files as [|sol files IH]; intros t t' H.
  - cbn in H. injection H as <-. cbn. lia.
  - cbn [humaneval_coverage_summary.main_loop] in H.
    apply obind_Ok in H as (t1 & H1 & H2).
    apply coverage_main_step_effect in H1. apply IH in H2.
    cbv zeta in *. cbn [length]. lia.
Qed.

End host.
End BatchFacts.

(** X3: when the plain batch runner ends, the problems passed are among
    the problems tested, every problem tested is counted as passed or
    as failed, passes and failures together do not exceed the number of
    solution files, and one line was printed for each file. *)
Theorem batch_totals_invariant
    (extern_call : string -> list Interp.value -> outcome Interp.exn Interp.value)
    (builtins : string -> option Interp.value)
    (repr_text : Interp.value -> string)
    (error_text : Interp.interp_error -> string)
    (fuel : nat) (problems : Z -> option run_humaneval_openai.problem)
    (files : list run_humaneval_openai.solution) (t : run_humaneval_openai.totals) :
  run_humaneval_openai.main extern_call builtins repr_text error_text
    fuel problems files = Ok (Some t) ->
  0 <= run_humaneval_openai.grand_pass t <= run_humaneval_openai.grand_total t
  /\ 0 <= run_humaneval_openai.grand_fail t
  /\ run_humaneval_openai.grand_total t
     <= run_humaneval_openai.grand_pass t + run_humaneval_openai.grand_fail t
     <= Z.of_nat (length files)
  /\ length (run_humaneval_openai.output t) = length files.
Proof.
  unfold run_humaneval_openai.main. destruct files as [|sol files]; [discriminate|].
  intros H. apply obind_Ok in H as (t' & H & Heq). injection Heq as ->.
  apply BatchFacts.main_loop_invariant in H. cbn in H. cbn [length]. lia.
Qed.

(** The batch of the one file [Samples.sol_without_entry]. *)
Lemma batch_totals_invariant_witness :
  0 <= 0 <= 0 /\ 0 <= 1 /\ 0 <= 0 + 1 <= Z.of_nat 1
  /\ length [run_humaneval_openai.Fail_missing 0
               "humaneval_0_openai_attempt_001_base.py" "f"] = 1%nat.
Proof.
  apply (batch_totals_invariant Samples.extern_call Samples.builtins
           Samples.repr_text Samples.error_text 10 Samples.problems
           [Samples.sol_without_entry]
           {| run_humaneval_openai.grand_total := 0;
              run_humaneval_openai.grand_pass := 0;
              run_humaneval_openai.grand_fail := 1;
              run_humaneval_openai.output :=
                [run_humaneval_openai.Fail_missing 0
                   "humaneval_0_openai_attempt_001_base.py" "f"] |}).
  vm_compute. reflexivity.
Defined.

(** X4: when the batch runner with coverage ends, its totals satisfy
    the same relations, and the table has one row for each file counted
    as passed or failed: a skipped file has no row. *)
Theorem coverage_batch_rows_invariant
    (extern_call : string -> list Interp.value -> outcome Interp.exn Interp.value)
    (builtins : string -> option Interp.value)
    (repr_text : Interp.value -> string)
    (error_text : Interp.interp_error -> string)
    (fuel : nat) (problems : Z -> option run_humaneval_openai.problem)
    (cov_data : dict) (files : list run_humaneval_openai.solution)
    (t : humaneval_coverage_summary.totals) :
  humaneval_coverage_summary.main extern_call builtins repr_text error_text
    fuel problems cov_data files = Ok (Some t) ->
  0 <= humaneval_coverage_summary.grand_pass t
    <= humaneval_coverage_summary.grand_total t
  /\ humaneval_coverage_summary.grand_total t
     <= humaneval_coverage_summary.grand_pass t
        + humaneval_coverage_summary.grand_fail t
     <= Z.of_nat (length files)
  /\ Z.of_nat (length (humaneval_coverage_summary.rows t))
     = humaneval_coverage_summary.grand_pass t
       + humaneval_coverage_summary.grand_fail t
  /\ length (humaneval_coverage_summary.output t) = length files.
Proof.
  unfold humaneval_coverage_summary.main. destruct files as [|sol files];
    [discriminate|].
  intros H. apply obind_Ok in H as (t' & H & Heq). injection Heq as ->.
  apply BatchFacts.coverage_main_loop_invariant in H. cbn in H. cbn [length]. lia.
Qed.

(** The batch with coverage of the one file [Samples.sol_without_entry],
    without coverage data. *)
Lemma coverage_batch_rows_invariant_witness :
  exists t : humaneval_coverage_summary.totals,
    humaneval_coverage_summary.main Samples.extern_call Samples.builtins
      Samples.repr_text Samples.error_text 10 Samples.problems
      [("files", JObj [])] [Samples.sol_without_entry] = Ok (Some t)
    /\ Z.of_nat (length (humaneval_coverage_summary.rows t))
       = humaneval_coverage_summary.grand_pass t
         + humaneval_coverage_summary.grand_fail t.
Proof.
  eexists. split; [vm_compute; reflexivity|].
  refine (proj1 (proj2 (proj2
            (coverage_batch_rows_invariant Samples.extern_call Samples.builtins
               Samples.repr_text Samples.error_text 10 Samples.problems
               [("files", JObj [])] [Samples.sol_without_entry] _ _)))).
  vm_compute. reflexivity.
Defined.

(** X5: a solution file whose name gives no problem number, or whose
    number is not in the dataset, is skipped by both runners: a line is
    printed for it, the three totals stay as they are, and the runner
    with coverage adds no row. *)
Theorem skipped_files_not_counted
    (extern_call : string -> list Interp.value -> outcome Interp.exn Interp.value)
    (builtins : string -> option Interp.value)
    (repr_text : Interp.value -> string)
    (error_text : Interp.interp_error -> string)
    (fuel : nat) (problems : Z -> option run_humaneval_openai.problem)
    (cov_data : dict) (sol : run_humaneval_openai.solution)
    (t : run_humaneval_openai.totals) (t2 : humaneval_coverage_summary.totals) :
  (run_humaneval_openai.sol_problem_id sol = None
   \/ exists problem_id,
        run_humaneval_openai.sol_problem_id sol = Some problem_id
        /\ problems problem_id = None) ->
  exists line : run_humaneval_openai.printed,
    (line = run_humaneval_openai.Skip_bad_filename (run_humaneval_openai.sol_name sol)
     \/ exists problem_id,
          line = run_humaneval_openai.Skip_not_in_dataset problem_id
                   (run_humaneval_openai.sol_name sol))
    /\ run_humaneval_openai.main_step extern_call builtins repr_text error_text
         fuel problems t sol
       = Ok {| run_humaneval_openai.grand_total := run_humaneval_openai.grand_total t;
               run_humaneval_openai.grand_pass := run_humaneval_openai.grand_pass t;
               run_humaneval_openai.grand_fail := run_humaneval_openai.grand_fail t;
               run_humaneval_openai.output :=
                 run_humaneval_openai.output t ++ [line] |}
    /\ exists t2',
         humaneval_coverage_summary.main_step extern_call builtins repr_text
           error_text fuel problems cov_data t2 sol = Ok t2'
         /\ humaneval_coverage_summary.grand_total t2'
            = humaneval_coverage_summary.grand_total t2
         /\ humaneval_coverage_summary.grand_pass t2'
            = humaneval_coverage_summary.grand_pass t2
         /\ humaneval_coverage_summary.grand_fail t2'
            = humaneval_coverage_summary.grand_fail t2
         /\ humaneval_coverage_summary.rows t2' = humaneval_coverage_summary.rows t2
         /\ humaneval_coverage_summary.output t2'
            = humaneval_coverage_summary.output t2 ++ [line].
Proof.
  intros [Hbad | (problem_id & Hid & Hnone)].
  - exists (run_humaneval_openai.Skip_bad_filename (run_humaneval_openai.sol_name sol)).
    split; [left; reflexivity|].
    unfold run_humaneval_openai.main_step, humaneval_coverage_summary.main_step.
    rewrite Hbad. split; [reflexivity|].
    eexists. split; [reflexivity|]. cbn. rewrite Z.add_0_r, app_nil_r. auto.
  - exists (run_humaneval_openai.Skip_not_in_dataset problem_id
              (run_humaneval_openai.sol_name sol)).
    split; [right; eauto|].
    unfold run_humaneval_openai.main_step, humaneval_coverage_summary.main_step.
    rewrite Hid, Hnone. split; [reflexivity|].
    eexists. split; [reflexivity|]. cbn. rewrite Z.add_0_r, app_nil_r. auto.
Qed.

(** A file whose name gives no problem number. *)
Lemma skipped_files_not_counted_witness :
  exists line : run_humaneval_openai.printed,
    run_humaneval_openai.main_step Samples.extern_call Samples.builtins
      Samples.repr_text Samples.error_text 10 Samples.problems
      {| run_humaneval_openai.grand_total := 0; run_humaneval_openai.grand_pass := 0;
         run_humaneval_openai.grand_fail := 0; run_humaneval_openai.output := [] |}
      Samples.sol_bad_name
    = Ok {| run_humaneval_openai.grand_total := 0; run_humaneval_openai.grand_pass := 0;
            run_humaneval_openai.grand_fail := 0;
            run_humaneval_openai.output := [line] |}.
Proof.
  destruct (skipped_files_not_counted Samples.extern_call Samples.builtins
              Samples.repr_text Samples.error_text 10 Samples.problems
              [("files", JObj [])] Samples.sol_bad_name
              {| run_humaneval_openai.grand_total := 0;
                 run_humaneval_openai.grand_pass := 0;
                 run_humaneval_openai.grand_fail := 0;
                 run_humaneval_openai.output := [] |}
              {| humaneval_coverage_summary.grand_total := 0;
                 humaneval_coverage_summary.grand_pass := 0;
                 humaneval_coverage_summary.grand_fail := 0;
                 humaneval_coverage_summary.output := [];
                 humaneval_coverage_summary.rows := [] |}
              (or_introl eq_refl)) as (line & _ & Hstep & _).
  exists line. exact Hstep.
Defined.

(** X6: a solution file whose loading raises an instance of
    [Exception] is not tested; the runner that loaded it prints a line
    for it and adds one to the failures only, and the runner with
    coverage adds a row of zeros with the tests "0/0" and a note that
    names the type of the error.  An exception that is not an instance
    of [Exception] (a file that calls [sys.exit] while it is loaded) is
    not caught: it ends the run of the runner. *)
Theorem load_error_counted_as_failure
    (extern_call : string -> list Interp.value -> outcome Interp.exn Interp.value)
    (builtins : string -> option Interp.value)
    (repr_text : Interp.value -> string)
    (error_text : Interp.interp_error -> string)
    (fuel : nat) (problems : Z -> option run_humaneval_openai.problem)
    (cov_data : dict) (sol : run_humaneval_openai.solution) (problem_id : Z)
    (p : run_humaneval_openai.problem) (e : Interp.exn)
    (t : run_humaneval_openai.totals) (t2 : humaneval_coverage_summary.totals) :
  run_humaneval_openai.sol_problem_id sol = Some problem_id ->
  problems problem_id = Some p ->
  let line := run_humaneval_openai.Error_load problem_id
                (run_humaneval_openai.sol_name sol) (Interp.exn_type e) in
  (run_humaneval_openai.sol_module sol = inl e ->
   run_humaneval_openai.main_step extern_call builtins repr_text error_text
     fuel problems t sol
   = if Interp.is_Exception e then
       Ok {| run_humaneval_openai.grand_total := run_humaneval_openai.grand_total t;
             run_humaneval_openai.grand_pass := run_humaneval_openai.grand_pass t;
             run_humaneval_openai.grand_fail := run_humaneval_openai.grand_fail t + 1;
             run_humaneval_openai.output := run_humaneval_openai.output t ++ [line] |}
     else Raise e)
  /\ (run_humaneval_openai.sol_run_path sol = inl e ->
      humaneval_coverage_summary.main_step extern_call builtins repr_text
        error_text fuel problems cov_data t2 sol
      = if Interp.is_Exception e then
          Ok {| humaneval_coverage_summary.grand_total :=
                  humaneval_coverage_summary.grand_total t2;
                humaneval_coverage_summary.grand_pass :=
                  humaneval_coverage_summary.grand_pass t2;
                humaneval_coverage_summary.grand_fail :=
                  humaneval_coverage_summary.grand_fail t2 + 1;
                humaneval_coverage_summary.output :=
                  humaneval_coverage_summary.output t2 ++ [line];
                humaneval_coverage_summary.rows :=
                  humaneval_coverage_summary.rows t2
                  ++ [{| humaneval_coverage_summary.name :=
                           run_humaneval_openai.sol_path sol;
                         humaneval_coverage_summary.stmts := 0;
                         humaneval_coverage_summary.miss := 0;
                         humaneval_coverage_summary.branch := 0;
                         humaneval_coverage_summary.brpart := 0;
                         humaneval_coverage_summary.cover_pct := 0;
                         humaneval_coverage_summary.branch_pct := 0;
                         humaneval_coverage_summary.missing := "";
                         humaneval_coverage_summary.tests := "0/0";
                         humaneval_coverage_summary.note :=
                           "Module import error: " +:+ Interp.exn_type e |}] |}
        else Raise (Interp.exn_type e)).
Proof.
  intros Hid Hp line.
  unfold run_humaneval_openai.main_step, humaneval_coverage_summary.main_step.
  rewrite Hid, Hp. split; intros ->; destruct (Interp.is_Exception e); reflexivity.
Qed.

(** A file for problem 0 that raises a syntax error while it is
    loaded, and one that calls [sys.exit]. *)
Lemma load_error_counted_as_failure_witness :
  run_humaneval_openai.main_step Samples.extern_call Samples.builtins
    Samples.repr_text Samples.error_text 10 Samples.problems
    {| run_humaneval_openai.grand_total := 0; run_humaneval_openai.grand_pass := 0;
       run_humaneval_openai.grand_fail := 0; run_humaneval_openai.output := [] |}
    Samples.sol_broken
  = Ok {| run_humaneval_openai.grand_total := 0; run_humaneval_openai.grand_pass := 0;
          run_humaneval_openai.grand_fail := 0 + 1;
          run_humaneval_openai.output :=
            [run_humaneval_openai.Error_load 0
               "humaneval_0_openai_attempt_001_base.py" "SyntaxError"] |}
  /\ humaneval_coverage_summary.main_step Samples.extern_call Samples.builtins
       Samples.repr_text Samples.error_text 10 Samples.problems [("files", JObj [])]
       {| humaneval_coverage_summary.grand_total := 0;
          humaneval_coverage_summary.grand_pass := 0;
          humaneval_coverage_summary.grand_fail := 0;
          humaneval_coverage_summary.output := [];
          humaneval_coverage_summary.rows := [] |}
       Samples.sol_exits
     = Raise "SystemExit".
Proof.
  split.
  - apply (proj1 (load_error_counted_as_failure Samples.extern_call Samples.builtins
                    Samples.repr_text Samples.error_text 10 Samples.problems
                    [("files", JObj [])] Samples.sol_broken 0
                    {| run_humaneval_openai.entry_point := "f";
                       run_humaneval_openai.test := Ast.Module Samples.five_tree |}
                    {| Interp.exn_type := "SyntaxError";
                       Interp.exn_text := "invalid syntax";
                       Interp.is_Exception := true |}
                    {| run_humaneval_openai.grand_total := 0;
                       run_humaneval_openai.grand_pass := 0;
                       run_humaneval_openai.grand_fail := 0;
                       run_humaneval_openai.output := [] |}
                    {| humaneval_coverage_summary.grand_total := 0;
                       humaneval_coverage_summary.grand_pass := 0;
                       humaneval_coverage_summary.grand_fail := 0;
                       humaneval_coverage_summary.output := [];
                       humaneval_coverage_summary.rows := [] |}
                    eq_refl eq_refl) eq_refl).
  - apply (proj2 (load_error_counted_as_failure Samples.extern_call Samples.builtins
                    Samples.repr_text Samples.error_text 10 Samples.problems
                    [("files", JObj [])] Samples.sol_exits 0
                    {| run_humaneval_openai.entry_point := "f";
                       run_humaneval_openai.test := Ast.Module Samples.five_tree |}
                    {| Interp.exn_type := "SystemExit";
                       Interp.exn_text := "1";
                       Interp.is_Exception := false |}
                    {| run_humaneval_openai.grand_total := 0;
                       run_humaneval_openai.grand_pass := 0;
                       run_humaneval_openai.grand_fail := 0;
                       run_humaneval_openai.output := [] |}
                    {| humaneval_coverage_summary.grand_total := 0;
                       humaneval_coverage_summary.grand_pass := 0;
                       humaneval_coverage_summary.grand_fail := 0;
                       humaneval_coverage_summary.output := [];
                       humaneval_coverage_summary.rows := [] |}
                    eq_refl eq_refl) eq_refl).
Defined.

(** X7: a solution that is tested counts as passed only when the
    executor reports no failure and at least one record; with no record
    at all it counts as failed.  Each tested solution adds one to the
    problems tested and one to either the passes or the failures. *)
Theorem tested_file_pass_or_fail
    (extern_call : string -> list Interp.value -> outcome Interp.exn Interp.value)
    (builtins : string -> option Interp.value)
    (repr_text : Interp.value -> string)
    (error_text : Interp.interp_error -> string)
    (fuel : nat) (problems : Z -> option run_humaneval_openai.problem)
    (sol : run_humaneval_openai.solution) (problem_id : Z)
    (p : run_humaneval_openai.problem) (module : gmap string Interp.value)
    (candidate : Interp.value) (total passed failed : Z)
    (failures_detail : list Interp.record) (t : run_humaneval_openai.totals) :
  run_humaneval_openai.sol_problem_id sol = Some problem_id ->
  problems problem_id = Some p ->
  run_humaneval_openai.sol_module sol = inr module ->
  module !! run_humaneval_openai.entry_point p = Some candidate ->
  run_humaneval_openai.run_check_and_count_asserts extern_call builtins repr_text
    error_text fuel candidate (run_humaneval_openai.test p)
  = Ok (total, passed, failed, failures_detail) ->
  exists t',
    run_humaneval_openai.main_step extern_call builtins repr_text error_text
      fuel problems t sol = Ok t'
    /\ run_humaneval_openai.grand_total t' = run_humaneval_openai.grand_total t + 1
    /\ ((failed = 0 /\ 0 < total
         /\ run_humaneval_openai.grand_pass t' = run_humaneval_openai.grand_pass t + 1
         /\ run_humaneval_openai.grand_fail t' = run_humaneval_openai.grand_fail t
         /\ run_humaneval_openai.output t'
            = run_humaneval_openai.output t
              ++ [run_humaneval_openai.Tested problem_id
                    (run_humaneval_openai.sol_name sol) passed total "PASS"])
        \/ ((failed <> 0 \/ total <= 0)
            /\ run_humaneval_openai.grand_pass t' = run_humaneval_openai.grand_pass t
            /\ run_humaneval_openai.grand_fail t'
               = run_humaneval_openai.grand_fail t + 1
            /\ run_humaneval_openai.output t'
               = run_humaneval_openai.output t
                 ++ [run_humaneval_openai.Tested problem_id
                       (run_humaneval_openai.sol_name sol) passed total "FAIL"])).
Proof.
  intros Hid Hp Hmod Hentry Hrun.
  unfold run_humaneval_openai.main_step.
  rewrite Hid, Hp, Hmod, Hentry, Hrun. cbn [obind].
  eexists. split; [reflexivity|]. cbn. split; [reflexivity|].
  destruct (Z.eqb_spec failed 0) as [Hf|Hf]; destruct (Z.ltb_spec 0 total) as [Ht|Ht];
    cbn; [left | right | right | right]; repeat split; auto; lia.
Qed.

(** A [check] without assertions: the solution is tested and counted
    as failed. *)
Lemma tested_file_pass_or_fail_witness :
  exists t',
    run_humaneval_openai.main_step Samples.extern_call Samples.builtins
      Samples.repr_text Samples.error_text 10 Samples.problems_without_assertions
      {| run_humaneval_openai.grand_total := 0; run_humaneval_openai.grand_pass := 0;
         run_humaneval_openai.grand_fail := 0; run_humaneval_openai.output := [] |}
      Samples.sol_identity = Ok t'
    /\ run_humaneval_openai.grand_total t' = 1
    /\ run_humaneval_openai.grand_pass t' = 0
    /\ run_humaneval_openai.grand_fail t' = 1.
Proof.
  destruct (tested_file_pass_or_fail Samples.extern_call Samples.builtins
              Samples.repr_text Samples.error_text 10
              Samples.problems_without_assertions Samples.sol_identity 0
              {| run_humaneval_openai.entry_point := "f";
                 run_humaneval_openai.test :=
                   Ast.Module [Ast.FunctionDef "check" ["candidate"] [Ast.Pass]] |}
              {["f" := Interp.VExtern "identity"]} (Interp.VExtern "identity")
              0 0 0 []
              {| run_humaneval_openai.grand_total := 0;
                 run_humaneval_openai.grand_pass := 0;
                 run_humaneval_openai.grand_fail := 0;
                 run_humaneval_openai.output := [] |}
              eq_refl eq_refl eq_refl eq_refl)
    as (t' & Hstep & Htotal & [(_ & Hlt & _) | (_ & Hpass & Hfail & _)]).
  - vm_compute. reflexivity.
  - lia.
  - exists t'. split; [exact Hstep|]. split; [exact Htotal|].
    split; [exact Hpass | exact Hfail].
Defined.

(** ** Text *)

Module StringFacts.

#[local] Arguments String.append : simpl nomatch.

Lemma length_append (a b : string) :
  String.length (a +:+ b) = (String.length a + String.length b)%nat.
Proof. induction a as [|c a IH]; cbn; [reflexivity | rewrite IH; reflexivity]. Qed.

Lemma append_nil_r (a : string) : a +:+ "" = a.
Proof. induction a as [|c a IH]; cbn; [reflexivity | rewrite IH; reflexivity]. Qed.

Lemma append_assoc (a b c : string) : (a +:+ b) +:+ c = a +:+ (b +:+ c).
Proof. induction a as [|x a IH]; cbn; [reflexivity | rewrite IH; reflexivity]. Qed.

Lemma substring_all (b : string) : substring 0 (String.length b) b = b.
Proof. induction b as [|c b IH]; cbn; [reflexivity | rewrite IH; reflexivity]. Qed.

Lemma substring_suffix (a b : string) :
  substring (String.length a) (String.length b) (a +:+ b) = b.
Proof. induction a as [|c a IH]; cbn; [apply substring_all | exact IH]. Qed.

Lemma substring_split (s : string) : forall n : nat,
  (n <= String.length s)%nat ->
  s = substring 0 n s +:+ substring n (String.length s - n) s.
Proof.
  induction s as [|c s IH]; intros [|n] Hn; cbn in *; try lia.
  - reflexivity.
  - rewrite substring_all. reflexivity.
  - rewrite <- IH by lia. reflexivity.
Qed.

(** [endswith] holds exactly of the texts that are some text followed
    by the suffix. *)
Lemma endswith_spec (s suffix : string) :
  endswith s suffix = true <-> exists pre, s = pre +:+ suffix.
Proof.
  unfold endswith. rewrite andb_true_iff, Nat.leb_le, String.eqb_eq. split.
  - intros [Hlen Hsub].
    exists (substring 0 (String.length s - String.length suffix) s).
    pose proof (substring_split s (String.length s - String.length suffix)
                  ltac:(lia)) as E.
    replace (String.length s - (String.length s - String.length suffix))%nat
      with (String.length suffix) in E by lia.
    rewrite Hsub in E. exact E.
  - intros [pre ->]. rewrite length_append. split; [lia|].
    replace (String.length pre + String.length suffix - String.length suffix)%nat
      with (String.length pre) by lia.
    apply substring_suffix.
Qed.

Lemma endswith_shorter (s a b : string) :
  endswith s (a +:+ b) = true -> endswith s b = true.
Proof.
  rewrite !endswith_spec. intros [pre ->]. exists (pre +:+ a).
  rewrite append_assoc. reflexivity.
Qed.

Lemma replace_char_append (old new : ascii) (a b : string) :
  replace_char old new (a +:+ b) = replace_char old new a +:+ replace_char old new b.
Proof. induction a as [|c a IH]; cbn; [reflexivity | rewrite IH; reflexivity]. Qed.

End StringFacts.

(** ** Finding the coverage entry of a solution file *)

Module FindFacts.

Lemma first_match_same (files : dict) (solution_name : string) :
  humaneval_coverage_summary.first_match files
    (replace_char "\" "/" solution_name)
    (replace_char "\" "/"
       (humaneval_coverage_summary.DEFAULT_DIR +:+ "/" +:+ solution_name))
  = generate_summary.first_match files (replace_char "\" "/" solution_name).
Proof.
  induction files as [|[path entry] files IH]; [reflexivity|].
  cbn [humaneval_coverage_summary.first_match generate_summary.first_match].
  rewrite IH.
  destruct (endswith (replace_char "\" "/" path)
              (replace_char "\" "/" solution_name)) eqn:E1.
  - rewrite orb_true_r. reflexivity.
  - rewrite orb_false_r.
    destruct (endswith (replace_char "\" "/" path)
                (replace_char "\" "/"
                   (humaneval_coverage_summary.DEFAULT_DIR +:+ "/" +:+ solution_name)))
      eqn:E2; [|reflexivity].
    exfalso.
    rewrite <- StringFacts.append_assoc, StringFacts.replace_char_append in E2.
    apply StringFacts.endswith_shorter in E2. congruence.
Qed.

(** The result of the search: the first entry whose path ends with the
    suffix, or the empty path and entry when there is none. *)
Lemma first_match_spec (files : dict) (norm_suffix : string) :
  let matches (kv : string * json) :=
    endswith (replace_char "\" "/" (fst kv)) norm_suffix in
  (exists before path entry after,
      files = before ++ (path, entry) :: after
      /\ Forall (fun kv => matches kv = false) before
      /\ matches (path, entry) = true
      /\ generate_summary.first_match files norm_suffix = (path, entry))
  \/ (Forall (fun kv => matches kv = false) files
      /\ generate_summary.first_match files norm_suffix = ("", JObj [])).
Proof.
  intros matches. induction files as [|[path entry] files IH].
  - right. split; [constructor | reflexivity].
  - cbn [generate_summary.first_match].
    destruct (endswith (replace_char "\" "/" path) norm_suffix) eqn:E.
    + left. exists [], path, entry, files. repeat split; [constructor | exact E].
    + destruct IH as [(before & p & e & after & -> & Hb & Hm & Hr) | [Hall Hr]].
      * left. exists ((path, entry) :: before), p, e, after.
        repeat split; [constructor; assumption | exact Hm | exact Hr].
      * right. split; [constructor; assumption | exact Hr].
Qed.

(** The two searches together. *)
Lemma find_file_entry_both (cov_data : dict) (solution_name : string) :
  humaneval_coverage_summary.find_file_entry cov_data solution_name
  = generate_summary.find_file_entry cov_data solution_name
  /\ forall files : dict,
      Py.dict_get cov_data "files" (JObj []) = JObj files ->
      let matches (kv : string * json) :=
        endswith (replace_char "\" "/" (fst kv))
          (replace_char "\" "/" solution_name) in
      (exists before path entry after,
          files = before ++ (path, entry) :: after
          /\ Forall (fun kv => matches kv = false) before
          /\ matches (path, entry) = true
          /\ generate_summary.find_file_entry cov_data solution_name
             = Ok (path, entry))
      \/ (Forall (fun kv => matches kv = false) files
          /\ generate_summary.find_file_entry cov_data solution_name
             = Ok ("", JObj [])).
Proof.
  unfold humaneval_coverage_summary.find_file_entry, generate_summary.find_file_entry.
  split.
  - destruct (Py.dict_get cov_data "files" (JObj [])); try reflexivity.
    rewrite first_match_same. reflexivity.
  - intros files Hfiles. rewrite Hfiles. cbv zeta.
    destruct (first_match_spec files (replace_char "\" "/" solution_name))
      as [(before & p & e & after & Hf & Hb & Hm & Hr) | [Hall Hr]].
    + left. exists before, p, e, after. rewrite Hr. auto.
    + right. rewrite Hr. auto.
Qed.

End FindFacts.

(** X8: the two [find_file_entry] functions return the same path and
    entry for the name of a solution file (the test of the path against
    "openai_solutions/<name>" adds nothing to the test against the
    name): the first entry of [cov_data["files"]], in the order of the
    file, whose path with slashes ends with the name, and the empty
    path with an empty entry when no path does. *)
Theorem find_file_entry_first_match (cov_data : dict) (solution_name : string) :
  humaneval_coverage_summary.find_file_entry cov_data solution_name
  = generate_summary.find_file_entry cov_data solution_name
  /\ forall files : dict,
      Py.dict_get cov_data "files" (JObj []) = JObj files ->
      let matches (kv : string * json) :=
        endswith (replace_char "\" "/" (fst kv))
          (replace_char "\" "/" solution_name) in
      (exists before path entry after,
          files = before ++ (path, entry) :: after
          /\ Forall (fun kv => matches kv = false) before
          /\ matches (path, entry) = true
          /\ generate_summary.find_file_entry cov_data solution_name
             = Ok (path, entry))
      \/ (Forall (fun kv => matches kv = false) files
          /\ generate_summary.find_file_entry cov_data solution_name
             = Ok ("", JObj [])).
Proof. apply FindFacts.find_file_entry_both. Qed.

(** The entry of a solution file found behind an entry with a Windows
    path of another file. *)
Lemma find_file_entry_first_match_witness :
  (exists before path entry after,
      Samples.cov_files = before ++ (path, entry) :: after
      /\ Forall (fun kv : string * json =>
                   endswith (replace_char "\" "/" (fst kv))
                     (replace_char "\" "/" "humaneval_0_openai_attempt_001_base.py")
                   = false) before
      /\ endswith (replace_char "\" "/" (fst (path, entry)))
           (replace_char "\" "/" "humaneval_0_openai_attempt_001_base.py") = true
      /\ generate_summary.find_file_entry Samples.cov_data_two
           "humaneval_0_openai_attempt_001_base.py" = Ok (path, entry))
  \/ (Forall (fun kv : string * json =>
                endswith (replace_char "\" "/" (fst kv))
                  (replace_char "\" "/" "humaneval_0_openai_attempt_001_base.py")
                = false) Samples.cov_files
      /\ generate_summary.find_file_entry Samples.cov_data_two
           "humaneval_0_openai_attempt_001_base.py" = Ok ("", JObj [])).
Proof.
  apply (proj2 (find_file_entry_first_match Samples.cov_data_two
                  "humaneval_0_openai_attempt_001_base.py") Samples.cov_files).
  reflexivity.
Defined.

(** X9: when no path of the coverage data ends with the name of the
    solution file (in particular when there is no coverage data at
    all), the row built for the file carries its own path as name,
    zero statements, misses, branches and partial branches, the
    percentages 0.0 and no missing lines. *)
Theorem coverage_row_without_entry (cov_data files : dict)
    (sol : run_humaneval_openai.solution) (tests : string)
    (note : cov_tuple -> string) :
  Py.dict_get cov_data "files" (JObj []) = JObj files ->
  Forall (fun kv : string * json =>
            endswith (replace_char "\" "/" (fst kv))
              (replace_char "\" "/" (run_humaneval_openai.sol_name sol)) = false)
    files ->
  humaneval_coverage_summary.coverage_row cov_data sol tests note
  = Ok {| humaneval_coverage_summary.name := run_humaneval_openai.sol_path sol;
          humaneval_coverage_summary.stmts := 0;
          humaneval_coverage_summary.miss := 0;
          humaneval_coverage_summary.branch := 0;
          humaneval_coverage_summary.brpart := 0;
          humaneval_coverage_summary.cover_pct := 0;
          humaneval_coverage_summary.branch_pct := 0;
          humaneval_coverage_summary.missing := "";
          humaneval_coverage_summary.tests := tests;
          humaneval_coverage_summary.note := note (0, 0, 0, 0, 0%float, 0%float, []) |}.
Proof.
  intros Hfiles Hnone.
  destruct (proj2 (FindFacts.find_file_entry_both cov_data
                     (run_humaneval_openai.sol_name sol)) files Hfiles)
    as [(before & p & e & after & -> & Hb & Hm & _) | [_ Hfind]].
  - exfalso. rewrite Forall_app in Hnone. destruct Hnone as [_ Hnone].
    inversion Hnone as [|? ? Hp _]; subst. congruence.
  - unfold humaneval_coverage_summary.coverage_row.
    rewrite (proj1 (FindFacts.find_file_entry_both cov_data
                      (run_humaneval_openai.sol_name sol))), Hfind.
    reflexivity.
Qed.

(** The row of [Samples.sol_identity] without coverage data. *)
Lemma coverage_row_without_entry_witness :
  humaneval_coverage_summary.coverage_row [("files", JObj [])] Samples.sol_identity
    "0/0" (fun _ => "no coverage")
  = Ok {| humaneval_coverage_summary.name :=
            "/work/openai_solutions/humaneval_0_openai_attempt_001_base.py";
          humaneval_coverage_summary.stmts := 0;
          humaneval_coverage_summary.miss := 0;
          humaneval_coverage_summary.branch := 0;
          humaneval_coverage_summary.brpart := 0;
          humaneval_coverage_summary.cover_pct := 0;
          humaneval_coverage_summary.branch_pct := 0;
          humaneval_coverage_summary.missing := "";
          humaneval_coverage_summary.tests := "0/0";
          humaneval_coverage_summary.note := "no coverage" |}.
Proof.
  apply (coverage_row_without_entry [("files", JObj [])] [] Samples.sol_identity
           "0/0" (fun _ => "no coverage") eq_refl ltac:(constructor)).
Defined.

(** ** The summary of an entry *)

Module SummaryMoreFacts.

Lemma all_ints_spec (l : list json) (zs : list Z) :
  Py.all_ints l = Some zs -> l = map JInt zs.
Proof.
  revert zs. induction l as [|v l IH]; intros zs H; cbn in H.
  - injection H as <-. reflexivity.
  - destruct v; try discriminate.
    destruct (Py.all_ints l) as [zs'|]; [|discriminate].
    injection H as <-. cbn. rewrite (IH zs' eq_refl). reflexivity.
Qed.

Lemma sorted_spec (v : json) (ml : list Z) :
  Py.sorted v = Ok ml ->
  exists zs, v = JList (map JInt zs) /\ Sorted Z.le ml /\ ml ≡ₚ zs.
Proof.
  destruct v as [| | | | |l|]; cbn; try discriminate.
  destruct (Py.all_ints l) as [zs|] eqn:E; [|discriminate].
  intros H. injection H as <-. exists zs.
  split; [f_equal; apply all_ints_spec; exact E|].
  split; [apply Sorted_merge_sort; apply _ | apply merge_sort_Permutation].
Qed.

Lemma py_len_nonneg (v : json) (n : Z) : Py.len v = Ok n -> 0 <= n.
Proof. destruct v; cbn; try discriminate; intros H; injection H as <-; lia. Qed.

End SummaryMoreFacts.

(** X10: when a summary returns, the missing lines it returns are the
    integers listed in the entry under "missing_lines" (none when the
    key is absent), in ascending order; [miss] is the number of
    statements less the covered lines, or 0 when that is negative; and
    the number of partial branches is not negative. *)
Theorem summary_lists_sorted_lines (entry : dict)
    (stmts miss nb brpart : Z) (lp bp : float) (ml : list Z) :
  humaneval_coverage_summary.summarize_pytest_cov_style entry
    = Ok (stmts, miss, nb, brpart, lp, bp, ml)
  \/ generate_summary.summarize_pytest_cov_style entry
     = Ok (stmts, miss, nb, brpart, lp, bp, ml) ->
  Sorted Z.le ml
  /\ (entry = [] \/
      exists zs, Py.dict_get entry "missing_lines" (JList []) = JList (map JInt zs)
                 /\ ml ≡ₚ zs)
  /\ 0 <= miss
  /\ (entry <> [] ->
      exists covered_lines,
        (v <- Py.get (Py.dict_get entry "summary" (JObj [])) "covered_lines" (JInt 0) ;;
         Py.int v) = Ok covered_lines
        /\ miss = Z.max (stmts - covered_lines) 0)
  /\ 0 <= brpart.
Proof.
  destruct entry as [|p e].
  - intros [H | H]; cbn in H; injection H as <- <- <- <- <- <- <-;
      (split; [constructor|]); (split; [left; reflexivity|]);
      (split; [lia|]); (split; [intros Hne; contradiction|lia]).
  - intros [H | H].
    + unfold humaneval_coverage_summary.summarize_pytest_cov_style in H.
      SummaryFacts.invert_binds H.
      injection H as E1 E2 E3 E4 E5 E6 E7. subst.
      destruct (SummaryMoreFacts.sorted_spec _ _ Ha3) as (zs & Hz & Hs & Hp).
      split; [exact Hs|]. split; [right; eauto|]. split; [lia|].
      split.
      * intros _. exists a2. rewrite Ha1. cbn [obind]. auto.
      * destruct (Py.dict_get (p :: e) "missing_branches" (JList [])) eqn:Em;
          try (apply (SummaryMoreFacts.py_len_nonneg _ _ Ha8)).
        injection Ha8 as <-. lia.
    + unfold generate_summary.summarize_pytest_cov_style in H.
      SummaryFacts.invert_binds H.
      injection H as E1 E2 E3 E4 E5 E6 E7. subst.
      destruct (SummaryMoreFacts.sorted_spec _ _ Ha3) as (zs & Hz & Hs & Hp).
      split; [exact Hs|]. split; [right; eauto|]. split; [lia|].
      split.
      * intros _. exists a2. rewrite Ha1. cbn [obind]. auto.
      * apply (SummaryMoreFacts.py_len_nonneg _ _ Ha6).
Qed.

(** The summary of [Samples.entry_agree]: the lines 9, 3, 4 come out as
    3, 4, 9. *)
Lemma summary_lists_sorted_lines_witness :
  Sorted Z.le [3; 4; 9] /\ 0 <= 3 /\ 0 <= 1.
Proof.
  destruct (summary_lists_sorted_lines Samples.entry_agree
              10 3 4 1 70%float 75%float [3; 4; 9])
    as (Hs & _ & Hm & _ & Hb).
  - left. vm_compute. reflexivity.
  - auto.
Defined.

(** ** Ranges of an ascending list *)

Module RangeFacts.
Import Compress.

(** The first run starts with the first number. *)
Lemma runs_head (a : Z) (l : list Z) :
  exists d rs, runs (a :: l) = (a, d) :: rs.
Proof.
  rewrite CompressFacts.runs_cons.
  destruct (runs l) as [|[c d] rs]; cbn; [eauto|].
  destruct (c =? a + 1); eauto.
Qed.

Lemma runs_separated (l : list Z) :
  StronglySorted Z.lt l -> separated (runs l).
Proof.
  induction 1 as [|a l Hsorted IH Hall]; [exact I|].
  rewrite CompressFacts.runs_cons.
  destruct l as [|b l]; [exact I|].
  destruct (runs_head b l) as (d & rs & E). rewrite E in *.
  inversion Hall as [|? ? Hab _]; subst. cbn.
  destruct (Z.eqb_spec b (a + 1)) as [->|Hne].
  - destruct rs as [|r2 rs]; [exact I|]. cbn in IH. exact IH.
  - cbn. split; [lia | exact IH].
Qed.

End RangeFacts.

(** X11: for a strictly ascending list of line numbers, the ranges that
    [compress_line_ranges] renders are ascending and any two
    neighbouring ranges are separated by at least one number that is
    not in the list. *)
Theorem compress_ranges_separated (lines : list Z) :
  StronglySorted Z.lt lines ->
  humaneval_coverage_summary.compress_line_ranges lines
    = py_join ", " (map Compress.render_run (Compress.runs lines))
  /\ Compress.separated (Compress.runs lines)
  /\ Forall (fun r => fst r <= snd r) (Compress.runs lines).
Proof.
  intros Hsorted. split; [|split].
  - unfold humaneval_coverage_summary.compress_line_ranges,
      Compress.compress_line_ranges.
    destruct lines as [|l0 rest]; [reflexivity|].
    rewrite CompressFacts.compress_loop_runs, CompressFacts.runs_cons. reflexivity.
  - apply RangeFacts.runs_separated. exact Hsorted.
  - apply CompressFacts.runs_ordered.
Qed.

(** The ranges of the lines 2, 3, 4, 7, 8, 10. *)
Lemma compress_ranges_separated_witness :
  Compress.separated [(2, 4); (7, 8); (10, 10)].
Proof.
  assert (H : StronglySorted Z.lt [2; 3; 4; 7; 8; 10])
    by (repeat (constructor; try lia)).
  exact (proj1 (proj2 (compress_ranges_separated [2; 3; 4; 7; 8; 10] H))).
Defined.

(** ** The interpretive note *)

(** X12: the two [interpret_result] functions give the same note.  The
    note is "No HumanEval test cases executed." when no test was
    counted; it speaks of failing cases when fewer tests passed than
    were counted; otherwise it starts with "All HumanEval cases
    passed", and when there are branches none of which is partial it
    speaks of strong line and branch coverage whatever the line
    percentage is. *)
Theorem interpret_result_cases (tests_passed tests_total : Z) (line_pct : float)
    (branch_count brpart : Z) :
  let note := humaneval_coverage_summary.interpret_result tests_passed tests_total
                line_pct branch_count brpart in
  generate_summary.interpret_result tests_passed tests_total line_pct
    branch_count brpart = note
  /\ (tests_total = 0 -> note = "No HumanEval test cases executed.")
  /\ (tests_total <> 0 -> tests_passed < tests_total ->
      note = (if PrimFloat.ltb line_pct 50
              then "Many HumanEval cases failing with low line coverage – implementation likely incomplete."
              else "Some HumanEval cases failing despite decent coverage – check edge cases and logic."))
  /\ (tests_total <> 0 -> tests_total <= tests_passed ->
      String.prefix "All HumanEval cases passed" note = true)
  /\ (tests_total <> 0 -> tests_total <= tests_passed ->
      branch_count <> 0 -> brpart <= 0 ->
      note = "All HumanEval cases passed with strong line and branch coverage.").
Proof.
  intros note. subst note.
  unfold humaneval_coverage_summary.interpret_result, generate_summary.interpret_result.
  split; [reflexivity|].
  destruct (Z.eqb_spec tests_total 0) as [Ht|Ht].
  { repeat split; intros; try reflexivity; contradiction. }
  destruct (Z.ltb_spec tests_passed tests_total) as [Hp|Hp].
  { repeat split; intros; try reflexivity; try contradiction; lia. }
  destruct (Z.eqb_spec branch_count 0) as [Hb|Hb].
  { repeat split; intros; try contradiction; try lia.
    destruct (PrimFloat.leb 90 line_pct); reflexivity. }
  destruct (Z.ltb_spec 0 brpart) as [Hr|Hr].
  { repeat split; intros; try contradiction; try lia.
    destruct (PrimFloat.leb 90 line_pct); reflexivity. }
  repeat split; intros; try contradiction; try lia; reflexivity.
Qed.

(** Three of three tests passed, ten percent of the lines covered, four
    branches of which none is partial. *)
Lemma interpret_result_cases_witness :
  humaneval_coverage_summary.interpret_result 3 3 10 4 0
  = "All HumanEval cases passed with strong line and branch coverage.".
Proof.
  apply (proj2 (proj2 (proj2 (proj2 (interpret_result_cases 3 3 10 4 0)))));
    lia.
Defined.

(** ** The XML reader on every document *)

(** X13: on a document the XML reader always returns.  The line
    percentage it returns is undefined exactly when the [line-rate]
    attribute is absent or not a number and, of the counts
    [lines-valid] and [lines-covered] (each "0" when absent), one is
    not a number or [lines-valid] is not greater than 0; and it is the
    same for two documents that agree on these three attributes. *)
Theorem parse_coverage_xml_undefined_line
    (float_of_str : string -> option float) (attrib : gmap string string) :
  exists line_pct branch_pct,
    convergence.parse_coverage_xml float_of_str (convergence.Document attrib)
    = Ok (line_pct, branch_pct)
    /\ (line_pct = None <->
        (attrib !! "line-rate" = None
         \/ exists text, attrib !! "line-rate" = Some text /\ float_of_str text = None)
        /\ (float_of_str (default "0" (attrib !! "lines-valid")) = None
            \/ float_of_str (default "0" (attrib !! "lines-covered")) = None
            \/ exists valid,
                 float_of_str (default "0" (attrib !! "lines-valid")) = Some valid
                 /\ PrimFloat.ltb 0 valid = false))
    /\ forall attrib' : gmap string string,
         attrib' !! "line-rate" = attrib !! "line-rate" ->
         attrib' !! "lines-valid" = attrib !! "lines-valid" ->
         attrib' !! "lines-covered" = attrib !! "lines-covered" ->
         exists branch_pct',
           convergence.parse_coverage_xml float_of_str (convergence.Document attrib')
           = Ok (line_pct, branch_pct').
Proof.
  unfold convergence.parse_coverage_xml.
  eexists. eexists. split; [reflexivity|]. split.
  - unfold convergence.to_pct, convergence.from_counts.
    destruct (attrib !! "line-rate") as [text|] eqn:Er;
      [destruct (float_of_str text) as [x|] eqn:Ex|];
      (destruct (float_of_str (default "0" (attrib !! "lines-valid")))
         as [valid|] eqn:Ev;
       [destruct (float_of_str (default "0" (attrib !! "lines-covered")))
          as [covered|] eqn:Ec;
        [destruct (PrimFloat.ltb 0 valid) eqn:El|]|]);
      cbv beta iota;
      (split;
       [try discriminate; intros _;
        (split; [first [left; reflexivity | right; eauto]|]);
        first [left; reflexivity | right; left; reflexivity | right; right; eauto]
       |try reflexivity;
        intros [[H | (t & Ht & Hn)] [H' | [H' | (v & Hv & Hl)]]]; congruence]).
  - intros attrib' H1 H2 H3. eexists.
    unfold convergence.to_pct, convergence.from_counts.
    rewrite H1, H2, H3. reflexivity.
Qed.

(** The line percentage of a report stays the same when a branch rate
    is added to it. *)
Lemma parse_coverage_xml_undefined_line_witness :
  exists line_pct branch_pct,
    convergence.parse_coverage_xml Samples.float_of_str
      (convergence.Document Samples.attrib_no_statements) = Ok (line_pct, branch_pct)
    /\ exists branch_pct',
         convergence.parse_coverage_xml Samples.float_of_str
           (convergence.Document (<["branch-rate" := "0.5"]> Samples.attrib_no_statements))
         = Ok (line_pct, branch_pct').
Proof.
  destruct (parse_coverage_xml_undefined_line Samples.float_of_str
              Samples.attrib_no_statements) as (lp & bp & H & _ & Hsame).
  exists lp, bp. split; [exact H|].
  apply Hsame; vm_compute; reflexivity.
Defined.

(** ** White space at the ends of a text *)

Module StripFacts.

#[local] Arguments String.append : simpl nomatch.

Lemma lstrip_twice (s : string) : lstrip (lstrip s) = lstrip s.
Proof.
  induction s as [|c s IH]; cbn; [reflexivity|].
  destruct (isspace c) eqn:E; [exact IH|]. cbn. rewrite E. reflexivity.
Qed.

Lemma rstrip_cons (c : ascii) (s : string) :
  rstrip (String c s)
  = match rstrip s with
    | EmptyString => if isspace c then EmptyString else String c EmptyString
    | r => String c r
    end.
Proof. reflexivity. Qed.

(** Stripping the two ends can be done in either order. *)
Lemma rstrip_lstrip (s : string) : rstrip (lstrip s) = lstrip (rstrip s).
Proof.
  induction s as [|c s IH]; [reflexivity|].
  cbn [lstrip]. rewrite rstrip_cons. destruct (isspace c) eqn:E.
  - rewrite IH. destruct (rstrip s) as [|d r]; [reflexivity|].
    cbn [lstrip]. rewrite E. reflexivity.
  - rewrite rstrip_cons. destruct (rstrip s) as [|d r]; cbn [lstrip]; rewrite E;
      reflexivity.
Qed.

Lemma rstrip_twice (s : string) : rstrip (rstrip s) = rstrip s.
Proof.
  induction s as [|c s IH]; [reflexivity|].
  rewrite rstrip_cons. destruct (rstrip s) as [|d r] eqn:E.
  - destruct (isspace c) eqn:Ec; [reflexivity|]. cbn. rewrite Ec. reflexivity.
  - rewrite rstrip_cons, IH. reflexivity.
Qed.

Lemma strip_twice (s : string) : strip (strip s) = strip s.
Proof.
  unfold strip. rewrite (rstrip_lstrip (rstrip s)), rstrip_twice, lstrip_twice.
  reflexivity.
Qed.

Lemma lstrip_strip (s : string) : lstrip (strip s) = strip s.
Proof. unfold strip. apply lstrip_twice. Qed.

Lemma rstrip_strip (s : string) : rstrip (strip s) = strip s.
Proof. unfold strip. rewrite rstrip_lstrip, rstrip_twice. reflexivity. Qed.

(** A character of white space at the end is dropped. *)
Lemma rstrip_snoc_space (s : string) (c : ascii) :
  isspace c = true -> rstrip (s +:+ String c "") = rstrip s.
Proof.
  intros Hc. induction s as [|d s IH]; cbn [String.append].
  - cbn. rewrite Hc. reflexivity.
  - rewrite !rstrip_cons, IH. reflexivity.
Qed.

(** A text that ends with text that [rstrip] keeps is kept. *)
Lemma rstrip_append_kept (a b : string) :
  b <> "" -> rstrip b = b -> rstrip (a +:+ b) = a +:+ b.
Proof.
  intros Hne Hb. induction a as [|c a IH]; cbn [String.append]; [exact Hb|].
  rewrite rstrip_cons, IH. destruct (a +:+ b) eqn:E; [|reflexivity].
  exfalso. destruct a; cbn in E; [congruence | discriminate].
Qed.

End StripFacts.

(** ** The answer of the model *)

Module AnswerFacts.
Import convergence.

#[local] Arguments String.append : simpl nomatch.

Lemma substring_prefix (a b : string) : substring 0 (String.length a) (a +:+ b) = a.
Proof. induction a as [|c a IH]; cbn; [destruct b; reflexivity | rewrite IH; reflexivity]. Qed.

(** What the pattern captures in a text fenced with a language tag. *)
Lemma fence_group_python (body : string) :
  fence_group ("```python" +:+ nl +:+ body +:+ nl +:+ "```")
  = Some (rstrip (lstrip (nl +:+ body +:+ nl))).
Proof.
  unfold fence_group.
  assert (Hend : endswith ("```python" +:+ nl +:+ body +:+ nl +:+ "```") "```" = true).
  { apply StringFacts.endswith_spec. exists ("```python" +:+ nl +:+ body +:+ nl).
    rewrite !StringFacts.append_assoc. reflexivity. }
  rewrite Hend.
  assert (Hlen : String.length ("```python" +:+ nl +:+ body +:+ nl +:+ "```")
                 = (6 + (6 + String.length (nl +:+ body +:+ nl)))%nat).
  { rewrite !StringFacts.length_append. cbn. lia. }
  rewrite Hlen.
  replace (6 + (6 + String.length (nl +:+ body +:+ nl)) - 6)%nat
    with (String.length ("python" +:+ nl +:+ body +:+ nl))
    by (rewrite !StringFacts.length_append; cbn; lia).
  change ("```python" +:+ nl +:+ body +:+ nl +:+ "```")
    with ("```" +:+ ("python" +:+ nl +:+ body +:+ nl +:+ "```")).
  change (substring 3 ?n ("```" +:+ ?s)) with (substring 0 n s).
  replace ("python" +:+ nl +:+ body +:+ nl +:+ "```")
    with (("python" +:+ nl +:+ body +:+ nl) +:+ "```")
    by (rewrite !StringFacts.append_assoc; reflexivity).
  rewrite substring_prefix.
  change (startswith ("```" +:+ ?s) "```") with true.
  change (6 <=? 6 + ?n)%nat with true. cbn [andb].
  change ("python" +:+ nl +:+ body +:+ nl) with ("python" +:+ (nl +:+ body +:+ nl)).
  change (substring 0 6 ("python" +:+ ?s)) with "python".
  change (lower_ascii "python") with "python". cbn [String.eqb Ascii.eqb Bool.eqb].
  rewrite StringFacts.length_append.
  replace (String.length "python" + String.length (nl +:+ body +:+ nl) - 6)%nat
    with (String.length (nl +:+ body +:+ nl)) by (cbn; lia).
  change 6%nat with (String.length "python").
  rewrite StringFacts.substring_suffix. reflexivity.
Qed.

Lemma strip_between_newlines (body : string) :
  rstrip (lstrip (nl +:+ body +:+ nl)) = strip body.
Proof.
  rewrite StripFacts.rstrip_lstrip.
  replace (nl +:+ body +:+ nl) with ((nl +:+ body) +:+ nl)
    by (rewrite StringFacts.append_assoc; reflexivity).
  unfold nl at 2. rewrite StripFacts.rstrip_snoc_space by reflexivity.
  rewrite <- StripFacts.rstrip_lstrip.
  change (lstrip (nl +:+ body)) with (lstrip body).
  rewrite StripFacts.rstrip_lstrip. reflexivity.
Qed.

End AnswerFacts.

(** X14: the text [call_chatgpt] returns never starts or ends with
    white space.  An answer that, stripped, does not start with three
    backticks is returned stripped; an answer that is a code fence with
    the tag "python" around a text is returned as that text, stripped:
    fencing a test text that has no white space at its ends and
    unfencing it gives the text back. *)
Theorem answer_text_stripped (content : option string) :
  strip (convergence.answer_text content) = convergence.answer_text content
  /\ lstrip (convergence.answer_text content) = convergence.answer_text content
  /\ rstrip (convergence.answer_text content) = convergence.answer_text content
  /\ (forall c, content = Some c -> startswith (strip c) "```" = false ->
      convergence.answer_text content = strip c)
  /\ (forall body,
      content = Some ("```python" +:+ nl +:+ body +:+ nl +:+ "```") ->
      convergence.answer_text content = strip body).
Proof.
  assert (shape : exists s, convergence.answer_text content = strip s).
  { unfold convergence.answer_text.
    destruct (convergence.fence_group _); eauto. }
  destruct shape as [s Hs].
  split; [rewrite Hs; apply StripFacts.strip_twice|].
  split; [rewrite Hs; apply StripFacts.lstrip_strip|].
  split; [rewrite Hs; apply StripFacts.rstrip_strip|].
  split.
  - intros c -> Hstart. unfold convergence.answer_text, convergence.fence_group.
    rewrite Hstart, andb_false_r. reflexivity.
  - intros body ->. unfold convergence.answer_text.
    assert (Hstrip : strip ("```python" +:+ nl +:+ body +:+ nl +:+ "```")
                     = "```python" +:+ nl +:+ body +:+ nl +:+ "```").
    { unfold strip.
      replace ("```python" +:+ nl +:+ body +:+ nl +:+ "```")
        with (("```python" +:+ nl +:+ body +:+ nl) +:+ "```")
        by (rewrite !StringFacts.append_assoc; reflexivity).
      rewrite StripFacts.rstrip_append_kept by (discriminate || reflexivity).
      rewrite !StringFacts.append_assoc. reflexivity. }
    rewrite Hstrip, AnswerFacts.fence_group_python,
      AnswerFacts.strip_between_newlines.
    apply StripFacts.strip_twice.
Qed.

(** A fenced answer and a plain answer. *)
Lemma answer_text_stripped_witness :
  convergence.answer_text
    (Some ("```python" +:+ nl +:+ "assert f(1) == 1" +:+ nl +:+ "```"))
  = strip "assert f(1) == 1"
  /\ convergence.answer_text (Some " assert f(2) == 2 ") = strip " assert f(2) == 2 ".
Proof.
  split.
  - apply (proj2 (proj2 (proj2 (proj2 (answer_text_stripped
             (Some ("```python" +:+ nl +:+ "assert f(1) == 1" +:+ nl +:+ "```"))))))).
    reflexivity.
  - apply (proj1 (proj2 (proj2 (proj2 (answer_text_stripped
             (Some " assert f(2) == 2 ")))))); reflexivity.
Defined.

(** ** The test files of the rounds *)

Module RoundFacts.
Import convergence.

#[local] Arguments String.append : simpl nomatch.

Lemma own_file_skipped i preamble tests :
  endswith (fst (write_test_file i preamble tests)) (fmt_02d i +:+ ".py") = true.
Proof.
  apply StringFacts.endswith_spec.
  exists ("test_humaneval_" +:+ py_str_int PROBLEM_ID +:+ "_llm_iter_").
  cbn [fst write_test_file]. rewrite !StringFacts.append_assoc. reflexivity.
Qed.

Lemma other_rounds_table :
  forallb (fun i =>
    forallb (fun j =>
      (i =? j) || negb (endswith (test_file_name j) (fmt_02d i +:+ ".py")))
      (seqZ 0 100))
    (seqZ 0 100) = true.
Proof. vm_compute. reflexivity. Qed.

Lemma other_round_kept i j :
  0 <= i <= 99 -> 0 <= j <= 99 -> j <> i ->
  endswith (test_file_name j) (fmt_02d i +:+ ".py") = false.
Proof.
  intros Hi Hj Hne. pose proof other_rounds_table as H.
  rewrite forallb_forall in H.
  specialize (H i). rewrite forallb_forall in H.
  assert (Hin : forall k, 0 <= k <= 99 -> In k (seqZ 0 100)).
  { intros k Hk. apply list_elem_of_In, elem_of_seqZ. lia. }
  specialize (H (Hin i Hi) j (Hin j Hj)).
  apply orb_true_iff in H. destruct H as [H|H].
  - apply Z.eqb_eq in H. lia.
  - apply negb_true_iff in H. exact H.
Qed.

Lemma length_substring_0 (s : string) : forall n,
  String.length (substring 0 n s) = Nat.min n (String.length s).
Proof.
  induction s as [|c s IH]; intros [|n]; cbn; try reflexivity.
  rewrite IH. reflexivity.
Qed.

Lemma len_truncated t remaining :
  0 <= remaining -> len (truncated t remaining) <= remaining + 19.
Proof.
  intros H. unfold truncated, len. rewrite !StringFacts.length_append.
  rewrite length_substring_0. change (String.length nl) with 1%nat.
  change (String.length "# ... (truncated)") with 17%nat.  lia.
Qed.

Lemma len_py_join sep t ts :
  len (py_join sep (t :: ts))
  = total_len (t :: ts) + len sep * Z.of_nat (length ts).
Proof.
  unfold py_join. revert t. induction ts as [|u ts IH]; intros t.
  - cbn. lia.
  - change (String.concat sep (t :: u :: ts))
      with (t +:+ sep +:+ String.concat sep (u :: ts)).
    specialize (IH u). unfold len in *. rewrite !StringFacts.length_append.
    cbn [total_len fold_right length] in *. fold (total_len ts) in *.
    unfold len in *. lia.
Qed.

Lemma len_with_header f : 3 <= len (with_header f).
Proof.
  unfold with_header, len. rewrite !StringFacts.length_append. cbn. lia.
Qed.

(** The whole texts kept are at most as many as the texts, and at most
    a third of the budget when each text has three characters. *)
Lemma whole_prefix_count ts : forall budget,
  0 <= budget -> Forall (fun t => 3 <= len t) ts ->
  let kept := fst (whole_prefix budget ts) in
  3 * Z.of_nat (length kept) <= budget
  /\ (length kept <= length ts)%nat
  /\ total_len kept <= budget.
Proof.
  induction ts as [|t ts IH]; intros budget Hb Hall; cbn [whole_prefix].
  - cbn. lia.
  - inversion Hall as [|? ? Ht Hts]; subst.
    destruct (Z.leb_spec (len t) budget) as [Hfit|Hover].
    + specialize (IH (budget - len t) ltac:(lia) Hts).
      destruct (whole_prefix (budget - len t) ts) as [k r].
      cbn [fst length total_len fold_right] in *. fold (total_len k) in *. lia.
    + cbn. lia.
Qed.

Lemma prior_texts_spec_bound budget ts :
  0 <= budget -> Forall (fun t => 3 <= len t) ts ->
  let texts := prior_texts_spec budget ts in
  total_len texts <= budget + 19
  /\ 3 * (Z.of_nat (length texts) - 1) <= budget
  /\ (length texts <= length ts)%nat.
Proof.
  intros Hb Hall. unfold prior_texts_spec.
  pose proof (whole_prefix_count ts budget Hb Hall) as Hk.
  pose proof (CollectFacts.whole_prefix_spec ts budget) as Hs.
  destruct (whole_prefix budget ts) as [kept rest]. cbn [fst] in Hk.
  destruct Hk as (Hcount & Hle & Htotal).
  destruct (Hs kept rest Hb eq_refl) as (Hts & _ & _).
  cbv zeta. rewrite CollectFacts.total_len_app, length_app.
  assert (Hlen : length ts = (length kept + length rest)%nat)
    by (rewrite Hts, length_app; reflexivity).
  destruct rest as [|t rest]; [cbn; lia|].
  destruct (200 <? budget - total_len kept).
  - cbn [total_len fold_right length].
    pose proof (len_truncated t (budget - total_len kept) ltac:(lia)).
    cbn [length] in Hlen. lia.
  - cbn. lia.
Qed.

End RoundFacts.

(** X15: the file that [write_test_file] writes in round [i] is
    ignored by [collect_prior_tests_text] in round [i], wherever it
    stands in the directory: a file left by an earlier run of the same
    round does not reach the prompt. *)
Theorem own_round_file_ignored (i : Z) (before after : list (string * string))
    (preamble tests : string) :
  convergence.collect_prior_tests_text i
    (before ++ convergence.write_test_file i preamble tests :: after)
  = convergence.collect_prior_tests_text i (before ++ after).
Proof.
  rewrite !CollectFacts.collect_prior_tests_text_spec.
  rewrite !filter_app, filter_cons.
  rewrite RoundFacts.own_file_skipped.
  rewrite decide_False by discriminate. reflexivity.
Qed.

(** X16: in round [i], every test file of another round numbered 0 to
    99 is read, later rounds included: with only such files in the
    directory, the text is built from all of them under the budget. *)
Theorem other_round_files_read (i : Z) (files : list (string * string)) :
  0 <= i <= 99 ->
  Forall (fun f => exists j, 0 <= j <= 99 /\ j <> i
                             /\ fst f = convergence.test_file_name j) files ->
  convergence.collect_prior_tests_text i files
  = convergence.prior_tests_spec (map convergence.with_header files).
Proof.
  intros Hi Hall. rewrite CollectFacts.collect_prior_tests_text_spec.
  f_equal. f_equal. induction Hall as [|f files (j & Hj & Hne & Hname) _ IH];
    [reflexivity|].
  rewrite filter_cons, decide_True, IH; [reflexivity|].
  rewrite Hname. apply RoundFacts.other_round_kept; assumption.
Qed.

(** In round 1 the files of rounds 2 and 3 are read. *)
Lemma other_round_files_read_witness :
  convergence.collect_prior_tests_text 1
    [(convergence.test_file_name 2, "assert f(2) == 2");
     (convergence.test_file_name 3, "assert f(3) == 3")]
  = convergence.prior_tests_spec
      (map convergence.with_header
         [(convergence.test_file_name 2, "assert f(2) == 2");
          (convergence.test_file_name 3, "assert f(3) == 3")]).
Proof.
  apply (other_round_files_read 1); [lia|].
  repeat constructor.
  - exists 2. repeat split; lia.
  - exists 3. repeat split; lia.
Defined.

(** X17: whatever the directory holds, the text of the prior tests has
    at most 6019 characters plus two for each file and for at most 2000
    files: the budget of 6000, the marker of a truncated file, and the
    blank lines between the texts. *)
Theorem prior_tests_text_bounded (i : Z) (files : list (string * string)) :
  len (convergence.collect_prior_tests_text i files)
  <= convergence.PRIOR_TESTS_CHAR_BUDGET + 19
     + 2 * Z.min (Z.of_nat (length files)) 2000.
Proof.
  rewrite CollectFacts.collect_prior_tests_text_spec.
  unfold convergence.prior_tests_spec.
  set (kept_files := filter _ files).
  assert (Hfiles : (length kept_files <= length files)%nat)
    by apply length_filter.
  assert (Hall : Forall (fun t => 3 <= len t) (map convergence.with_header kept_files)).
  { apply Forall_map, Forall_forall. intros f _. apply RoundFacts.len_with_header. }
  destruct (RoundFacts.prior_texts_spec_bound convergence.PRIOR_TESTS_CHAR_BUDGET
              (map convergence.with_header kept_files)
              ltac:(unfold convergence.PRIOR_TESTS_CHAR_BUDGET; lia) Hall)
    as (Htotal & Hcount & Hlen).
  rewrite length_map in Hlen.
  destruct (convergence.prior_texts_spec _ _) as [|t texts].
  - change (len "None") with 4. unfold convergence.PRIOR_TESTS_CHAR_BUDGET. lia.
  - rewrite RoundFacts.len_py_join. change (len (nl +:+ nl)) with 2.
    cbn [length] in Hcount, Hlen.
    unfold convergence.PRIOR_TESTS_CHAR_BUDGET in *. lia.
Qed.

(** ** The summary of the coverage reports *)

Module LabelFacts.

#[local] Arguments String.append : simpl nomatch.

Lemma split_char_nonempty sep s : split_char sep s <> [].
Proof.
  destruct s as [|c s]; cbn; [discriminate|].
  destruct (Ascii.eqb c sep); [discriminate|].
  destruct (split_char sep s); discriminate.
Qed.

Lemma split_char_app sep a b :
  split_char sep (a +:+ String sep b) = split_char sep a ++ split_char sep b.
Proof.
  induction a as [|c a IH]; cbn [String.append split_char].
  - rewrite Ascii.eqb_refl. reflexivity.
  - destruct (Ascii.eqb c sep); rewrite IH; [reflexivity|].
    pose proof (split_char_nonempty sep a).
    destruct (split_char sep a); [congruence | reflexivity].
Qed.

Lemma split_char_whole sep s :
  contains s (String sep "") = false -> split_char sep s = [s].
Proof.
  induction s as [|c s IH]; intros H; [reflexivity|].
  cbn in H. apply orb_false_iff in H. destruct H as [Hc Hs].
  cbn [split_char].
  destruct (Ascii.eqb_spec sep c) as [->|Hne].
  - exfalso. unfold Ascii.eqb in Hc. destruct c as [[] [] [] [] [] [] [] []];
      cbn in Hc; destruct s; discriminate.
  - destruct (Ascii.eqb_spec c sep) as [->|_]; [congruence|].
    rewrite IH by exact Hs. reflexivity.
Qed.

Lemma last_app_nonempty {A} (l1 l2 : list A) d :
  l2 <> [] -> List.last (l1 ++ l2) d = List.last l2 d.
Proof.
  intros Hne. induction l1 as [|x l1 IH]; [reflexivity|].
  cbn [app]. destruct (l1 ++ l2) eqn:E.
  - destruct l1; [cbn in E; congruence | discriminate].
  - exact IH.
Qed.

Lemma rfind_app c a b i :
  rfind c b = Some i -> rfind c (a +:+ b) = Some (String.length a + i)%nat.
Proof.
  intros H. induction a as [|d a IH]; cbn [String.append rfind String.length];
    [exact H|].
  rewrite IH. reflexivity.
Qed.

(** The name before a suffix of letters is the stem. *)
Lemma stem_xml a : a <> "" -> stem (a +:+ ".xml") = a.
Proof.
  intros Hne. unfold stem. rewrite (rfind_app "." a ".xml" 0) by reflexivity.
  rewrite StringFacts.length_append, Nat.add_0_r.
  destruct a as [|c a]; [congruence|].
  assert (H1 : (0 <? String.length (String c a))%nat = true)
    by (apply Nat.ltb_lt; cbn; lia).
  assert (H2 : (String.length (String c a)
                <? String.length (String c a) + String.length ".xml" - 1)%nat = true)
    by (apply Nat.ltb_lt; cbn; lia).
  rewrite H1, H2. cbn [andb]. apply AnswerFacts.substring_prefix.
Qed.

(** The decimal text of an integer holds no underscore. *)
Lemma uint_no_underscore d : contains (NilEmpty.string_of_uint d) "_" = false.
Proof. induction d; cbn; try reflexivity; rewrite IHd; destruct (NilEmpty.string_of_uint d); reflexivity. Qed.

Lemma py_str_int_no_underscore z : contains (py_str_int z) "_" = false.
Proof.
  unfold py_str_int, NilZero.string_of_int, NilZero.string_of_uint.
  destruct (Z.to_int z) as [d|d]; destruct d; try reflexivity;
    try (apply (uint_no_underscore (D0 d)) || apply (uint_no_underscore (D1 d))
         || apply (uint_no_underscore (D2 d)) || apply (uint_no_underscore (D3 d))
         || apply (uint_no_underscore (D4 d)) || apply (uint_no_underscore (D5 d))
         || apply (uint_no_underscore (D6 d)) || apply (uint_no_underscore (D7 d))
         || apply (uint_no_underscore (D8 d)) || apply (uint_no_underscore (D9 d))).
Qed.

End LabelFacts.

(** X18: the label [summarize_coverage_tests.py] derives from the name
    of the coverage report that [convergence.py] writes in round [i] is
    the two-digit round number [{i:02d}] of that name. *)
Theorem iter_num_of_round (i : Z) :
  summarize_coverage_tests.iter_num (convergence.coverage_file_name i)
  = convergence.fmt_02d i.
Proof.
  unfold summarize_coverage_tests.iter_num, convergence.coverage_file_name.
  assert (Hno : contains (convergence.fmt_02d i) "_" = false).
  { unfold convergence.fmt_02d. cbv zeta.
    destruct (String.length (py_str_int i) <? 2)%nat.
    - change (contains ("0" +:+ py_str_int i) "_")
        with (String.prefix "_" ("0" +:+ py_str_int i)
              || contains (py_str_int i) "_").
      rewrite LabelFacts.py_str_int_no_underscore. reflexivity.
    - apply LabelFacts.py_str_int_no_underscore. }
  replace ("coverage_iter_" +:+ convergence.fmt_02d i +:+ ".xml")
    with (("coverage_iter_" +:+ convergence.fmt_02d i) +:+ ".xml")
    by (rewrite StringFacts.append_assoc; reflexivity).
  rewrite LabelFacts.stem_xml by discriminate.
  change ("coverage_iter_" +:+ convergence.fmt_02d i)
    with ("coverage_iter" +:+ String "_" (convergence.fmt_02d i)).
  rewrite LabelFacts.split_char_app.
  rewrite LabelFacts.last_app_nonempty by apply LabelFacts.split_char_nonempty.
  rewrite LabelFacts.split_char_whole by exact Hno. reflexivity.
Qed.


(** ** The baseline test *)

Module BaselineFacts.
Import Ast Interp.

Section host.

Variable extern_call : string -> list value -> outcome exn value.
Variable builtins : string -> option value.
Variable repr_text : value -> string.
Variable error_text : interp_error -> string.

(** A statement that only binds a name to a function or a constant, or
    does nothing, runs without an exception and without a record. *)
Lemma definitions_run (n : nat) (tree : list stmt) : forall s : state,
  scope s = None ->
  Forall (fun st => match st with
                    | FunctionDef _ _ _ | Pass | Assign _ (Constant _) => True
                    | _ => False
                    end) tree ->
  exists s', run_block extern_call builtins repr_text error_text (S (S n)) tree s
             = (s', Ok None)
             /\ scope s' = None /\ records s' = records s.
Proof.
  induction tree as [|st tree IH]; intros s Hscope Hall.
  - exists s. repeat split; assumption.
  - inversion Hall as [|? ? Hst Htree]; subst.
    destruct st as [| |target value| | | | | |name args body]; try contradiction.
    + destruct value as [c| | | | |]; try contradiction.
      destruct (IH {| globals := <[target := value_of_constant c]> (globals s);
                      scope := None; records := records s |} eq_refl Htree)
        as (s' & Hrun & Hs' & Hrec).
      exists s'. split; [|split; [exact Hs' | exact Hrec]].
      cbn [run_block]. unfold bind at 1. cbn [exec_stmt eval_expr].
      unfold bind, ret, assign. rewrite Hscope. exact Hrun.
    + destruct (IH s Hscope Htree) as (s' & Hrun & Hs' & Hrec).
      exists s'. split; [|split; [exact Hs' | exact Hrec]].
      cbn [run_block]. unfold bind at 1. cbn [exec_stmt]. unfold ret. exact Hrun.
    + destruct (IH {| globals := <[name := VFunction name args body]> (globals s);
                      scope := None; records := records s |} eq_refl Htree)
        as (s' & Hrun & Hs' & Hrec).
      exists s'. split; [|split; [exact Hs' | exact Hrec]].
      cbn [run_block]. unfold bind at 1. cbn [exec_stmt]. rewrite Hscope.
      unfold bind, ret, assign. rewrite Hscope. exact Hrun.
Qed.

End host.

Lemma count_occ_existing (exists_ : string -> bool) (f : Z -> string) (x : string)
    (l : list Z) :
  count_occ string_dec (flat_map (fun p => if exists_ (f p) then [f p] else []) l) x
  = if exists_ x then count_occ string_dec (map f l) x else O.
Proof.
  induction l as [|p l IH].
  - cbn. destruct (exists_ x); reflexivity.
  - cbn [flat_map map]. rewrite count_occ_app, IH.
    destruct (string_dec (f p) x) as [E|Hne].
    + rewrite E. destruct (exists_ x); [|reflexivity]. cbn [count_occ].
      destruct (string_dec x x); [reflexivity | congruence].
    + rewrite (count_occ_cons_neq string_dec _ Hne).
      destruct (exists_ (f p)); [|reflexivity].
      rewrite (count_occ_cons_neq string_dec _ Hne). reflexivity.
Qed.

Lemma collect_solution_files_flat (exists_ : string -> bool) :
  test_humaneval_baseline.collect_solution_files exists_
  = flat_map (fun p =>
      if exists_ (test_humaneval_baseline.solution_file "openai_solutions" p)
      then [test_humaneval_baseline.solution_file "openai_solutions" p] else [])
      test_humaneval_baseline.PROBLEM_NUMBERS.
Proof.
  unfold test_humaneval_baseline.collect_solution_files.
  apply flat_map_ext. intros p. cbn [flat_map test_humaneval_baseline.SEARCH_DIRS].
  apply app_nil_r.
Qed.

End BaselineFacts.

(** X20: [test_humaneval_base] runs the test module but never calls
    its [check]: when the solution file loads and defines the entry
    point, and the test module compiles and only defines functions,
    binds constants or passes, the test passes whatever the solution
    computes. *)
Theorem baseline_runs_no_assertion
    (extern_call : string -> list Interp.value -> outcome Interp.exn Interp.value)
    (builtins : string -> option Interp.value)
    (repr_text : Interp.value -> string)
    (error_text : Interp.interp_error -> string)
    (fuel : nat) (problems : Z -> option run_humaneval_openai.problem)
    (sol : test_humaneval_baseline.solution) (problem_id : Z)
    (p : run_humaneval_openai.problem) (module : gmap string Interp.value)
    (func : Interp.value) (tree : list Ast.stmt) :
  test_humaneval_baseline.file_problem_id sol = Some problem_id ->
  problems problem_id = Some p ->
  test_humaneval_baseline.file_module sol = inr module ->
  module !! run_humaneval_openai.entry_point p = Some func ->
  run_humaneval_openai.test p = Ast.Module tree ->
  Forall (fun st => match st with
                    | Ast.FunctionDef _ _ _ | Ast.Pass
                    | Ast.Assign _ (Ast.Constant _) => True
                    | _ => False
                    end) tree ->
  Interp.compile error_text tree = None ->
  (3 <= fuel)%nat ->
  test_humaneval_baseline.test_humaneval_base extern_call builtins repr_text
    error_text fuel problems sol = Ok test_humaneval_baseline.Passed.
Proof.
  intros Hid Hp Hmod Hfunc Htest Hdefs Hcompile Hfuel.
  unfold test_humaneval_baseline.test_humaneval_base.
  rewrite Hid, Hp, Hmod, Hfunc, Htest, Hcompile.
  destruct fuel as [|[|[|n]]]; try lia.
  destruct (BaselineFacts.definitions_run extern_call builtins repr_text error_text
              n tree
              {| Interp.globals := {[run_humaneval_openai.entry_point p := func]};
                 Interp.scope := None; Interp.records := [] |} eq_refl Hdefs)
    as (s' & Hrun & _ & _).
  change (Interp.exec_block extern_call builtins repr_text error_text (S (S (S n))) tree)
    with (Interp.run_block extern_call builtins repr_text error_text (S (S n)) tree).
  rewrite Hrun. reflexivity.
Qed.

(** The solution [identity] passes the baseline test of a problem two
    of whose five assertions it fails. *)
Lemma baseline_runs_no_assertion_witness :
  test_humaneval_baseline.test_humaneval_base Samples.extern_call Samples.builtins
    Samples.repr_text Samples.error_text 20 Samples.problems Samples.file_identity
  = Ok test_humaneval_baseline.Passed
  /\ exists failures,
       Samples.run_check 20 (Interp.VExtern "identity") (Ast.Module Samples.five_tree)
       = Ok (5, 3, 2, failures).
Proof.
  split.
  - apply (baseline_runs_no_assertion Samples.extern_call Samples.builtins
             Samples.repr_text Samples.error_text 20 Samples.problems
             Samples.file_identity 0
             {| run_humaneval_openai.entry_point := "f";
                run_humaneval_openai.test := Ast.Module Samples.five_tree |}
             {["f" := Interp.VExtern "identity"]}
             (Interp.VExtern "identity") Samples.five_tree);
      try reflexivity.
    + repeat constructor.
    + lia.
  - eexists. vm_compute. reflexivity.
Defined.

(** X21: [collect_solution_files] lists the solution file of a problem
    once for each time the problem stands in [PROBLEM_NUMBERS]: the
    files of the problems 12 and 13, when they exist, are listed (and
    so tested) twice, the file of any other listed problem once. *)
Theorem solution_files_collected_twice (exists_ : string -> bool) (problem_id : Z) :
  In problem_id test_humaneval_baseline.PROBLEM_NUMBERS ->
  count_occ string_dec (test_humaneval_baseline.collect_solution_files exists_)
    (test_humaneval_baseline.solution_file "openai_solutions" problem_id)
  = if exists_ (test_humaneval_baseline.solution_file "openai_solutions" problem_id)
    then if (problem_id =? 12) || (problem_id =? 13) then 2%nat else 1%nat
    else 0%nat.
Proof.
  intros Hin. rewrite BaselineFacts.collect_solution_files_flat.
  rewrite (BaselineFacts.count_occ_existing exists_
             (test_humaneval_baseline.solution_file "openai_solutions")).
  destruct (exists_ _); [|reflexivity].
  unfold test_humaneval_baseline.PROBLEM_NUMBERS in Hin.
  repeat (destruct Hin as [<-|Hin]; [vm_compute; reflexivity|]).
  destruct Hin.
Qed.

(** With every file present, the file of problem 12 is listed twice. *)
Lemma solution_files_collected_twice_witness :
  count_occ string_dec (test_humaneval_baseline.collect_solution_files (fun _ => true))
    (test_humaneval_baseline.solution_file "openai_solutions" 12)
  = 2%nat.
Proof.
  apply (solution_files_collected_twice (fun _ => true) 12).
  vm_compute. tauto.
Defined.

(** ** The coverage hint *)

Module HintFacts.

(** No line of [splitlines] holds a character that ends a line. *)
Lemma splitlines_no_break (n : nat) : forall s : string,
  (String.length s <= n)%nat ->
  Forall (fun line =>
            forallb (fun c => negb (is_linebreak c)) (list_ascii_of_string line) = true)
    (splitlines s).
Proof.
  induction n as [|n IH]; intros [|c s] Hlen; cbn [String.length] in Hlen;
    try lia; cbn [splitlines]; try constructor.
  destruct (is_linebreak c) eqn:Ec.
  - constructor; [reflexivity|].
    destruct s as [|d s]; [constructor|].
    destruct ((nat_of_ascii c =? 13)%nat && (nat_of_ascii d =? 10)%nat).
    + apply IH. cbn [String.length] in Hlen. lia.
    + apply IH. lia.
  - pose proof (IH s ltac:(lia)) as Hs.
    destruct (splitlines s) as [|line lines].
    + constructor; [|constructor]. cbn. rewrite Ec. reflexivity.
    + inversion Hs as [|? ? Hline Hlines]; subst.
      constructor; [|exact Hlines]. cbn. rewrite Ec. exact Hline.
Qed.

Lemma filter_nil_iff {A} (f : A -> bool) (l : list A) :
  List.filter f l = [] <-> Forall (fun x => f x = false) l.
Proof.
  induction l as [|x l IH]; cbn; [split; constructor|].
  destruct (f x) eqn:E; split; intros H.
  - discriminate.
  - inversion H; congruence.
  - constructor; [exact E | apply IH, H].
  - inversion H; subst. apply IH. assumption.
Qed.

End HintFacts.

(** X22: the hint for the next round is "None" exactly when the coverage
    report does not hold the word "Missing" or none of its lines names
    the solution file; whether the line of the solution file lists
    missing lines plays no part.  Otherwise the hint is the heading
    followed by at most ten lines, each of them a line of the report
    that names the solution file. *)
Theorem coverage_hint_lines (rep : string) :
  (convergence.coverage_hint rep = "None" <->
   contains rep "Missing" = false
   \/ Forall (fun line => contains line convergence.SOLUTION_FILE = false)
        (splitlines rep))
  /\ (convergence.coverage_hint rep <> "None" ->
      exists lines,
        convergence.coverage_hint rep
        = "From previous coverage report, Missing lines (subset):" +:+ nl
          +:+ py_join nl lines
        /\ (1 <= length lines <= 10)%nat
        /\ Forall (fun line =>
                     In line (splitlines rep)
                     /\ contains line convergence.SOLUTION_FILE = true
                     /\ forallb (fun c => negb (is_linebreak c))
                          (list_ascii_of_string line) = true)
             lines).
Proof.
  unfold convergence.coverage_hint.
  pose proof (HintFacts.filter_nil_iff
                (fun line => contains line convergence.SOLUTION_FILE
                             && contains rep "Missing") (splitlines rep)) as Hnil.
  fold (convergence.missing_lines rep) in Hnil.
  assert (Hsel : Forall (fun line =>
                     In line (splitlines rep)
                     /\ contains line convergence.SOLUTION_FILE = true
                     /\ forallb (fun c => negb (is_linebreak c))
                          (list_ascii_of_string line) = true)
                   (convergence.missing_lines rep)).
  { apply Forall_forall. intros line Hin.
    apply list_elem_of_In in Hin. unfold convergence.missing_lines in Hin.
    apply filter_In in Hin. destruct Hin as [Hin Hf].
    apply andb_true_iff in Hf. destruct Hf as [Hname _].
    split; [exact Hin|]. split; [exact Hname|].
    pose proof (HintFacts.splitlines_no_break (String.length rep) rep (le_n _)) as Hall.
    rewrite Forall_forall in Hall. apply Hall, list_elem_of_In, Hin. }
  destruct (convergence.missing_lines rep) as [|line lines] eqn:E.
  - split.
    + split; [intros _|reflexivity].
      destruct (contains rep "Missing") eqn:Em; [right | left; reflexivity].
      pose proof (proj1 Hnil eq_refl) as Hall.
      eapply Forall_impl; [exact Hall|]. cbn beta. intros l Hl.
      rewrite andb_true_r in Hl. exact Hl.
    + intros H. congruence.
  - split.
    + split; [discriminate|]. intros [Hm | Hall]; exfalso.
      * assert (Hf : Forall (fun l => contains l convergence.SOLUTION_FILE
                                      && contains rep "Missing" = false)
                       (splitlines rep)).
        { apply Forall_forall. intros l _. rewrite Hm. apply andb_false_r. }
        apply Hnil in Hf. discriminate.
      * assert (Hf : Forall (fun l => contains l convergence.SOLUTION_FILE
                                      && contains rep "Missing" = false)
                       (splitlines rep)).
        { eapply Forall_impl; [exact Hall|]. cbn beta. intros l ->. reflexivity. }
        apply Hnil in Hf. discriminate.
    + intros _. exists (firstn 10 (line :: lines)). split; [reflexivity|].
      split.
      * rewrite length_firstn. cbn [length]. lia.
      * apply Forall_forall. intros l Hl. rewrite Forall_forall in Hsel.
        apply Hsel. apply list_elem_of_In. apply list_elem_of_In in Hl.
        pose proof (firstn_skipn 10 (line :: lines)) as Hsplit.
        rewrite <- Hsplit. apply in_or_app. left. exact Hl.
Qed.

(** ** The two batch runners *)

Module AgreeFacts.
Import Interp.

Section host.

Variable extern_call : string -> list value -> outcome exn value.
Variable builtins : string -> option value.
Variable repr_text : value -> string.
Variable error_text : interp_error -> string.

Ltac close_totals :=
  repeat split; first [assumption | lia | congruence].

Lemma main_step_agrees (fuel : nat)
    (problems : Z -> option run_humaneval_openai.problem) (cov_data : dict)
    (t : run_humaneval_openai.totals) (th th' : humaneval_coverage_summary.totals)
    (sol : run_humaneval_openai.solution) :
  run_humaneval_openai.sol_run_path sol = run_humaneval_openai.sol_module sol ->
  run_humaneval_openai.grand_total t = humaneval_coverage_summary.grand_total th ->
  run_humaneval_openai.grand_pass t = humaneval_coverage_summary.grand_pass th ->
  run_humaneval_openai.grand_fail t = humaneval_coverage_summary.grand_fail th ->
  run_humaneval_openai.output t = humaneval_coverage_summary.output th ->
  humaneval_coverage_summary.main_step extern_call builtins repr_text error_text
    fuel problems cov_data th sol = Ok th' ->
  exists t',
    run_humaneval_openai.main_step extern_call builtins repr_text error_text
      fuel problems t sol = Ok t'
    /\ run_humaneval_openai.grand_total t' = humaneval_coverage_summary.grand_total th'
    /\ run_humaneval_openai.grand_pass t' = humaneval_coverage_summary.grand_pass th'
    /\ run_humaneval_openai.grand_fail t' = humaneval_coverage_summary.grand_fail th'
    /\ run_humaneval_openai.output t' = humaneval_coverage_summary.output th'.
Proof.
  intros Hload Ht Hp Hf Ho.
  unfold humaneval_coverage_summary.main_step, run_humaneval_openai.main_step.
  rewrite Hload.
  destruct (run_humaneval_openai.sol_problem_id sol) as [problem_id|].
  2:{ intros H. injection H as <-. eexists. split; [reflexivity|]. cbn.
      close_totals. }
  destruct (problems problem_id) as [p|].
  2:{ intros H. injection H as <-. eexists. split; [reflexivity|]. cbn.
      close_totals. }
  destruct (run_humaneval_openai.sol_module sol) as [e|module].
  { destruct (is_Exception e); [|discriminate].
    intros H. injection H as <-. eexists. split; [reflexivity|]. cbn.
    close_totals. }
  destruct (module !! run_humaneval_openai.entry_point p) as [candidate|].
  2:{ intros H. apply obind_Ok in H as (r & _ & H). injection H as <-.
      eexists. split; [reflexivity|]. cbn. close_totals. }
  intros H. apply obind_Ok in H as (res & Hres & H).
  unfold humaneval_coverage_summary.run_check_and_count_asserts in Hres.
  destruct (run_humaneval_openai.run_check_and_count_asserts extern_call builtins
              repr_text error_text fuel candidate (run_humaneval_openai.test p))
    as [res'| | |] eqn:Erun; cbn in Hres; try discriminate.
  injection Hres as ->.
  destruct res as [[[total passed] failed] detail].
  apply obind_Ok in H as (r & _ & H). injection H as <-.
  eexists. split; [reflexivity|]. cbn. close_totals.
Qed.

Lemma main_loop_agrees (fuel : nat)
    (problems : Z -> option run_humaneval_openai.problem) (cov_data : dict)
    (files : list run_humaneval_openai.solution) :
  Forall (fun sol => run_humaneval_openai.sol_run_path sol
                     = run_humaneval_openai.sol_module sol) files ->
  forall (t : run_humaneval_openai.totals)
         (th th' : humaneval_coverage_summary.totals),
  run_humaneval_openai.grand_total t = humaneval_coverage_summary.grand_total th ->
  run_humaneval_openai.grand_pass t = humaneval_coverage_summary.grand_pass th ->
  run_humaneval_openai.grand_fail t = humaneval_coverage_summary.grand_fail th ->
  run_humaneval_openai.output t = humaneval_coverage_summary.output th ->
  humaneval_coverage_summary.main_loop extern_call builtins repr_text error_text
    fuel problems cov_data th files = Ok th' ->
  exists t',
    run_humaneval_openai.main_loop extern_call builtins repr_text error_text
      fuel problems t files = Ok t'
    /\ run_humaneval_openai.grand_total t' = humaneval_coverage_summary.grand_total th'
    /\ run_humaneval_openai.grand_pass t' = humaneval_coverage_summary.grand_pass th'
    /\ run_humaneval_openai.grand_fail t' = humaneval_coverage_summary.grand_fail th'
    /\ run_humaneval_openai.output t' = humaneval_coverage_summary.output th'.
Proof.
  induction 1 as [|sol files Hsol _ IH]; intros t th th' Ht Hp Hf Ho H.
  - cbn in H. injection H as <-. exists t. split; [reflexivity|].
    repeat split; assumption.
  - cbn [humaneval_coverage_summary.main_loop] in H.
    apply obind_Ok in H as (th1 & H1 & H2).
    destruct (main_step_agrees fuel problems cov_data t th th1 sol Hsol Ht Hp Hf Ho H1)
      as (t1 & Hstep & Ht1 & Hp1 & Hf1 & Ho1).
    destruct (IH t1 th1 th' Ht1 Hp1 Hf1 Ho1 H2) as (t' & Hloop & Hrest).
    exists t'. split; [|exact Hrest].
    cbn [run_humaneval_openai.main_loop]. rewrite Hstep. exact Hloop.
Qed.

End host.
End AgreeFacts.


